(** * LixService: readability kernels, recommender, circuit breaker and
      delivery surface of DaCosta.no, embedded from the Python sources.

    Conventions of the embedding.
    - A Python [str] is a [string]: one [ascii] per code point, for the
      code points below 256 (Latin-1, which contains the Norwegian
      alphabet).  [len] is [String.length].  Text inputs written below are
      plain ASCII.  Fixed labels of the program ("svært lett", ...) are
      opaque constants that are only compared and concatenated.
    - Python [int] is [Z] (or [nat] for lengths and counters that only
      grow from 0).
    - Python [float] arithmetic is read as exact arithmetic on [Q];
      [round(x, n)] is rounding to [n] decimals, ties to even.
    - Mutable class attributes and dictionaries are threaded explicitly
      as state; a function that mutates returns the new state.
    - A raised exception is an explicit error value. *)

From Stdlib Require Import ZArith QArith Qround Qabs Lia Lqa String Ascii List Bool.
From stdpp Require Import gmap strings pretty.
Import ListNotations.

Local Open Scope string_scope.
Local Open Scope Z_scope.

(* ===================================================================== *)
(** ** Python primitives used by the sources                              *)
(* ===================================================================== *)

Module Py.

(** [str.isspace] on one character (Unicode White_Space plus the
    separator controls), restricted to code points below 256. *)
Definition isspace_char (c : ascii) : bool :=
  let n := nat_of_ascii c in
  (((9 <=? n) && (n <=? 13)) || ((28 <=? n) && (n <=? 32))
   || (n =? 133) || (n =? 160))%nat.

(** [str.isalnum] on one character, code points below 256. *)
Definition isalnum_char (c : ascii) : bool :=
  let n := nat_of_ascii c in
  (((48 <=? n) && (n <=? 57)) || ((65 <=? n) && (n <=? 90))
   || ((97 <=? n) && (n <=? 122))
   || (n =? 170) || (n =? 178) || (n =? 179) || (n =? 181)
   || (n =? 185) || (n =? 186) || ((188 <=? n) && (n <=? 190))
   || ((192 <=? n) && (n <=? 214)) || ((216 <=? n) && (n <=? 246))
   || ((248 <=? n) && (n <=? 255)))%nat.

(** The regular-expression class [\w] of a [str] pattern. *)
Definition isword_char (c : ascii) : bool :=
  isalnum_char c || (nat_of_ascii c =? 95)%nat.

Fixpoint all_space (s : string) : bool :=
  match s with
  | EmptyString => true
  | String c s' => isspace_char c && all_space s'
  end.

(** [s.isspace()]: at least one character and all of them whitespace. *)
Definition isspace (s : string) : bool :=
  match s with
  | EmptyString => false
  | String _ _ => all_space s
  end.

(** Truth value of a [str]. *)
Definition truthy (s : string) : bool :=
  match s with EmptyString => false | String _ _ => true end.

Fixpoint lstrip (s : string) : string :=
  match s with
  | EmptyString => EmptyString
  | String c s' => if isspace_char c then lstrip s' else s
  end.

Fixpoint rstrip (s : string) : string :=
  match s with
  | EmptyString => EmptyString
  | String c s' =>
      let r := rstrip s' in
      if isspace_char c && negb (truthy r) then EmptyString else String c r
  end.

(** [s.strip()] *)
Definition strip (s : string) : string := rstrip (lstrip s).

(** [s[:n]] *)
Fixpoint slice_to (n : nat) (s : string) : string :=
  match n, s with
  | S n', String c s' => String c (slice_to n' s')
  | _, _ => EmptyString
  end.

(** [str(n)] for a non-negative [int]. *)
Definition str_of_nat (n : nat) : string := pretty n.
Definition str_of_N (n : N) : string := pretty n.

(** [re.compile(r'\w+').findall(s)]: the maximal runs of word
    characters, left to right. *)
Fixpoint findall_word (s : string) : list string :=
  match s with
  | EmptyString => []
  | String c s' =>
      let rest := findall_word s' in
      if isword_char c then
        match s' with
        | String c' _ =>
            if isword_char c' then
              match rest with
              | w :: ws => String c w :: ws
              | [] => [String c EmptyString]
              end
            else String c EmptyString :: rest
        | EmptyString => [String c EmptyString]
        end
      else rest
  end.

Definition string_of_rev (cur : list ascii) : string :=
  string_of_list_ascii (List.rev cur).

(** Rounding of an exact value to the nearest integer, ties to even. *)
Definition round_half_even (x : Q) : Z :=
  let f := Qfloor x in
  match (x - inject_Z f ?= 1 # 2)%Q with
  | Lt => f
  | Gt => f + 1
  | Eq => if Z.even f then f else f + 1
  end.

Definition pow10 (n : nat) : Z := 10 ^ Z.of_nat n.

(** [round(x, ndigits)] *)
Definition round (x : Q) (ndigits : nat) : Q :=
  Qred (inject_Z (round_half_even (x * inject_Z (pow10 ndigits)))
        / inject_Z (pow10 ndigits)).

(** [x < y], [x > y] and [x == y] on numbers. *)
Definition ltb (x y : Q) : bool := negb (Qle_bool y x).
Definition gtb (x y : Q) : bool := ltb y x.
Definition geb (x y : Q) : bool := Qle_bool y x.

End Py.

(* ===================================================================== *)
(** ** services/metrics/lix_metric.py: class LixMetric                    *)
(* ===================================================================== *)

Module LixMetric.

Record classification := mk_classification {
  category : string;
  description : string;
  audience : string;
  thresholds : list (string * Q);
  improvement_tips : list string
}.

(** [self.thresholds] *)
Definition th_very_easy : Q := 20.
Definition th_easy : Q := 30.
Definition th_medium : Q := 40.
Definition th_difficult : Q := 50.
Definition th_very_difficult : Q := 60.

Definition LONG_WORD_THRESHOLD : nat := 6.

(** The instance state: [self._classification_cache], a dictionary
    from rounded score to classification. *)
Record t := mk { _classification_cache : list (Q * classification) }.

Definition init : t := {| _classification_cache := [] |}.

(** [sum(1 for word in words if len(word) > self.LONG_WORD_THRESHOLD)] *)
Fixpoint count_long (words : list string) : Z :=
  match words with
  | [] => 0
  | word :: rest =>
      (if (LONG_WORD_THRESHOLD <? String.length word)%nat then 1 else 0)
      + count_long rest
  end.

Definition compute (words : list string) (sentence_count : Z) : Q :=
  match words with
  | [] => 0%Q
  | _ :: _ =>
      if sentence_count =? 0 then 0%Q
      else
        let word_count := Z.of_nat (List.length words) in
        let long_words_count := count_long words in
        let avg_sentence_length :=
          (inject_Z word_count / inject_Z sentence_count)%Q in
        let long_words_percentage :=
          ((inject_Z long_words_count / inject_Z word_count) * 100)%Q in
        let lix_score := (avg_sentence_length + long_words_percentage)%Q in
        Py.round lix_score 1
  end.

Definition thresholds_map : list (string * Q) :=
  [ ("svært lett", th_very_easy);
    ("lett", th_easy);
    ("middels", th_medium);
    ("vanskelig", th_difficult);
    ("svært vanskelig", th_very_difficult) ].

(** The body of [classify] below the cache lookup. *)
Definition classify_score (score : Q) : classification :=
  if Py.ltb score th_very_easy then
    mk_classification "svært lett"
      "Teksten er svært lettlest og egnet for alle lesere."
      "Alle lesere, inkludert barn og nybegynnere."
      thresholds_map
      ["Teksten er allerede svært lettlest."]
  else if Py.ltb score th_easy then
    mk_classification "lett"
      "Teksten er lettlest og tilgjengelig for de fleste."
      "Generelt publikum, inkludert ungdomsskoleelever."
      thresholds_map
      ["Teksten er allerede lettlest.";
       "Vurder om korte setninger gir god flyt."]
  else if Py.ltb score th_medium then
    mk_classification "middels"
      "Teksten har middels vanskelighetsgrad."
      "Voksne lesere og videregående skoleelever."
      thresholds_map
      ["Vurder å forenkle noen lange ord.";
       "Se etter setninger som kan deles opp."]
  else if Py.ltb score th_difficult then
    mk_classification "vanskelig"
      "Teksten er relativt krevende å lese."
      "Lesere med god lesekompetanse, høyere utdanning."
      thresholds_map
      ["Bruk kortere setninger (under 15-20 ord).";
       "Erstatt noen lange ord med kortere alternativer.";
       "Del opp komplekse avsnitt."]
  else
    mk_classification "svært vanskelig"
      "Teksten er svært krevende og kompleks."
      "Spesialister, akademikere, avanserte lesere."
      thresholds_map
      ["Del lange setninger i kortere enheter.";
       "Bruk enklere og kortere ord der mulig.";
       "Vurder om fagterminologi kan forklares.";
       "Legg til mellomtitler for å bryte opp teksten."].

(** [cache_key in self._classification_cache] and the lookup. *)
Fixpoint cache_get (key : Q) (cache : list (Q * classification))
  : option classification :=
  match cache with
  | [] => None
  | (k, v) :: rest => if Qeq_bool k key then Some v else cache_get key rest
  end.

Definition classify (self : t) (score : Q) : classification * t :=
  let cache_key := Py.round score 1 in
  match cache_get cache_key (_classification_cache self) with
  | Some cached => (cached, self)
  | None =>
      let result := classify_score score in
      (result,
       {| _classification_cache :=
            (_classification_cache self ++ [(cache_key, result)])%list |})
  end.

End LixMetric.

(* ===================================================================== *)
(** ** services/metrics/rix_metric.py: class RIXMetric, exported by the
       package [app.services.metrics] under the name [RixMetric]          *)
(* ===================================================================== *)

Module RIXMetric.

Record classification := mk_classification {
  score : Q;
  category : string;
  description : string;
  audience : string;
  educational_level : string;
  thresholds : list (string * Q);
  improvement_tips : list string
}.

Definition th_very_easy : Q := 15 # 10.
Definition th_easy : Q := 3.
Definition th_medium : Q := 45 # 10.
Definition th_difficult : Q := 6.
Definition th_very_difficult : Q := 75 # 10.

(** Default of the parameter [min_length] of [get_long_words]. *)
Definition default_min_length : Q := 69 # 10.

Definition get_long_words (words : list string) (min_length : Q)
  : list string :=
  List.filter
    (fun word => Py.gtb (inject_Z (Z.of_nat (String.length word))) min_length)
    words.

Definition compute (words : list string) (sentence_count : Z) : Q :=
  if sentence_count =? 0 then 0%Q
  else
    let long_words := get_long_words words default_min_length in
    let rix_score :=
      (inject_Z (Z.of_nat (List.length long_words))
       / inject_Z sentence_count)%Q in
    Py.round rix_score 2.

Definition thresholds_map : list (string * Q) :=
  [ ("svært lett", th_very_easy);
    ("lett", th_easy);
    ("middels", th_medium);
    ("vanskelig", th_difficult);
    ("svært vanskelig", th_very_difficult) ].

Definition classify (sc : Q) : classification :=
  let improvement_tips1 :=
    if Py.geb sc th_medium then
      ["Reduser antall lange ord per setning";
       "Varier mellom korte og lange ord"]
    else [] in
  let improvement_tips2 :=
    if Py.geb sc th_difficult then
      (improvement_tips1 ++
       ["Del opp setninger med mange lange ord";
        "Bruk enklere synonymer for faglige termer når mulig"])%list
    else improvement_tips1 in
  if Py.ltb sc th_very_easy then
    mk_classification sc "Svært lett"
      "Teksten inneholder svært få lange ord per setning, ideell for nybegynnere."
      "Passer for tidlige lesere og lettlest litteratur."
      "Barneskole (tidlige trinn)"
      thresholds_map []
  else if Py.ltb sc th_easy then
    mk_classification sc "Lett"
      "Teksten har få lange ord per setning, meget lettlest."
      "Tilgjengelig for de fleste lesere, også de med begrenset leseferdighet."
      "Barneskole (senere trinn)"
      thresholds_map []
  else if Py.ltb sc th_medium then
    mk_classification sc "Middels"
      "Teksten har en balansert fordeling av lange ord, er tilgjengelig for de fleste."
      "Passer for generelt publikum med gjennomsnittlige leseferdigheter."
      "Ungdomsskole"
      thresholds_map []
  else if Py.ltb sc th_difficult then
    mk_classification sc "Vanskelig"
      "Teksten har noe høyere antall lange ord per setning, krever god leseforståelse."
      "Krever gode leseferdigheter, passer for fagstoff og akademiske tekster."
      "Videregående skole"
      thresholds_map (firstn 2 improvement_tips2)
  else
    mk_classification sc "Svært vanskelig"
      "Teksten har mange lange ord per setning, krever meget god leseforståelse."
      "Beregnet på lesere med sterke leseferdigheter og fagkunnskap."
      "Høyere utdanning"
      thresholds_map improvement_tips2.

End RIXMetric.

(* ===================================================================== *)
(** ** services/readability.py: class ReadabilityService                  *)
(* ===================================================================== *)

Module ReadabilityService.

(** *** The two compiled patterns *)

(** [[.!?]] *)
Definition is_terminator (c : ascii) : bool :=
  let n := nat_of_ascii c in ((n =? 46) || (n =? 33) || (n =? 63))%nat.

(** The class of the optional closing quote: the double quote
    (code 34) and the right guillemet (code 187). *)
Definition is_closing_quote (c : ascii) : bool :=
  let n := nat_of_ascii c in ((n =? 34) || (n =? 187))%nat.

Definition is_newline (c : ascii) : bool := (nat_of_ascii c =? 10)%nat.

(** [_SENTENCE_PATTERN.split(text)]: the pattern is a run of one or
    more terminators followed by at most one closing quote, or else two
    newlines.  [in_run] says that the characters just read
    are a run of terminators of a match that may still grow; [cur] is
    the piece being read, last character first. *)
Fixpoint sentence_split (s : string) (in_run : bool) (cur : list ascii)
  : list string :=
  match s with
  | EmptyString => [Py.string_of_rev cur]
  | String c s' =>
      if is_terminator c then
        if in_run then sentence_split s' true []
        else Py.string_of_rev cur :: sentence_split s' true []
      else if in_run && is_closing_quote c then sentence_split s' false []
      else
        match s' with
        | String c' s'' =>
            if is_newline c && is_newline c' then
              Py.string_of_rev cur :: sentence_split s'' false []
            else sentence_split s' false (c :: cur)
        | EmptyString => sentence_split s' false (c :: cur)
        end
  end.

Definition _SENTENCE_PATTERN_split (text : string) : list string :=
  sentence_split text false [].

Definition _extract_words (text : string) : list string :=
  Py.findall_word text.

Definition _get_sentence_count (text : string) : Z :=
  if negb (Py.truthy text) || Py.isspace text then 0
  else
    let sentences := _SENTENCE_PATTERN_split text in
    let sentences :=
      List.filter (fun s => Py.truthy s && negb (Py.isspace s)) sentences in
    Z.max 1 (Z.of_nat (List.length sentences)).

Definition _get_cache_key (text : string) : string :=
  let text_preview := Py.strip (Py.slice_to 100 text) in
  text_preview ++ "_" ++ Py.str_of_nat (String.length text).

(** *** Results *)

(** One of the two metric blocks of a result.  The block of an empty
    text has no audience and no improvement_tips key. *)
Record metric_entry := mk_entry {
  score : Q;
  category : string;
  description : string;
  audience : option string;
  improvement_tips : option (list string)
}.

Record statistics := mk_statistics {
  word_count : Z;
  sentence_count : Z;
  avg_sentence_length : Q;
  long_words_count : Z;
  long_words_percentage : Q
}.

Record result := mk_result {
  lix : metric_entry;
  rix : metric_entry;
  combined_description : string;
  text_statistics : option statistics
}.

Definition _MAX_CACHE_SIZE : nat := 1000.

Definition _CATEGORIES : list string :=
  ["svært lett"; "lett"; "middels"; "vanskelig"; "svært vanskelig"].

(** [categories.index(x)]; [None] stands for the raised [ValueError]. *)
Fixpoint index (x : string) (l : list string) : option Z :=
  match l with
  | [] => None
  | y :: rest =>
      if String.eqb y x then Some 0
      else match index x rest with
           | Some i => Some (i + 1)
           | None => None
           end
  end.

Definition _generate_combined_description
    (lix_score rix_score : Q)
    (lix_classification : LixMetric.classification)
    (rix_classification : RIXMetric.classification) : string :=
  let lix_category := LixMetric.category lix_classification in
  let rix_category := RIXMetric.category rix_classification in
  if String.eqb lix_category rix_category then
    if String.eqb lix_category "svært lett" then
      "Teksten er konsistent svært lettlest og tilgjengelig for alle lesere."
    else if String.eqb lix_category "lett" then
      "Teksten er konsistent lettlest med god balanse mellom korte og lange ord."
    else if String.eqb lix_category "middels" then
      "Teksten har middels vanskelighetsgrad, med en del lange ord og setninger."
    else if String.eqb lix_category "vanskelig" then
      "Teksten er konsistent krevende med mange lange ord og komplekse setninger."
    else
      "Teksten er konsistent svært krevende med høy andel lange ord og komplekse setninger."
  else
    let categories := _CATEGORIES in
    match index lix_category categories, index rix_category categories with
    | Some lix_level, Some rix_level =>
        let diff := Z.abs (lix_level - rix_level) in
        if diff <=? 1 then
          "Teksten er i hovedsak " ++ lix_category ++ " til " ++ rix_category
          ++ ", med en balansert vanskelighetsgrad."
        else if Py.gtb lix_score 40 && Py.ltb rix_score (25 # 10) then
          "Teksten har mange korte setninger, men med en del lange ord. Setningsoppbyggingen er enkel, men ordvalget kan gjøre teksten utfordrende."
        else if Py.ltb lix_score 30 && Py.gtb rix_score (35 # 10) then
          "Teksten har relativt korte ord, men setningene er lange. Vurder å dele opp setninger for bedre lesbarhet."
        else
          "Teksten har blandede resultater: LIX-analysen viser " ++ lix_category
          ++ ", mens RIX-analysen viser " ++ rix_category ++ "."
    | _, _ =>
        "Teksten har varierende lesbarhet: LIX-nivå " ++ lix_category
        ++ ", RIX-nivå " ++ rix_category ++ "."
    end.

(** *** Class state: [_result_cache] (a dictionary, in insertion order)
    and the LIX metric instance with its classification cache.  The RIX
    metric instance has no mutable state. *)
Record t := mk {
  _result_cache : list (string * result);
  _lix_metric : LixMetric.t
}.

Definition init : t :=
  {| _result_cache := []; _lix_metric := LixMetric.init |}.

Fixpoint cache_get (key : string) (cache : list (string * result))
  : option result :=
  match cache with
  | [] => None
  | (k, v) :: rest => if String.eqb k key then Some v else cache_get key rest
  end.

Definition empty_result : result :=
  {| lix := mk_entry 0 "ikke tilgjengelig"
              "Teksten er tom eller inneholder ikke setninger." None None;
     rix := mk_entry 0 "ikke tilgjengelig"
              "Teksten er tom eller inneholder ikke setninger." None None;
     combined_description := "Teksten er for kort for analyse.";
     text_statistics := None |}.

Definition get_readability (cls : t) (text : string) : result * t :=
  let cache_key := _get_cache_key text in
  match cache_get cache_key (_result_cache cls) with
  | Some cached => (cached, cls)
  | None =>
      if negb (Py.truthy text) || Py.isspace text then (empty_result, cls)
      else
        let words := _extract_words text in
        let sentence_count := _get_sentence_count text in
        let lix_score := LixMetric.compute words sentence_count in
        let '(lix_classification, lix_metric') :=
          LixMetric.classify (_lix_metric cls) lix_score in
        let rix_score := RIXMetric.compute words sentence_count in
        let rix_classification := RIXMetric.classify rix_score in
        let word_count := Z.of_nat (List.length words) in
        let long_words :=
          List.filter (fun word => (6 <? String.length word)%nat) words in
        let long_words_count := Z.of_nat (List.length long_words) in
        let text_statistics :=
          {| word_count := word_count;
             sentence_count := sentence_count;
             avg_sentence_length :=
               Py.round (inject_Z word_count
                         / inject_Z (Z.max 1 sentence_count)) 1;
             long_words_count := long_words_count;
             long_words_percentage :=
               Py.round ((inject_Z long_words_count
                          / inject_Z (Z.max 1 word_count)) * 100) 1 |} in
        let combined_description :=
          _generate_combined_description
            lix_score rix_score lix_classification rix_classification in
        let result :=
          {| lix := mk_entry lix_score
                      (LixMetric.category lix_classification)
                      (LixMetric.description lix_classification)
                      (Some (LixMetric.audience lix_classification))
                      (Some (LixMetric.improvement_tips lix_classification));
             rix := mk_entry rix_score
                      (RIXMetric.category rix_classification)
                      (RIXMetric.description rix_classification)
                      (Some (RIXMetric.audience rix_classification))
                      (Some (RIXMetric.improvement_tips rix_classification));
             combined_description := combined_description;
             text_statistics := Some text_statistics |} in
        let cache :=
          if (_MAX_CACHE_SIZE <=? List.length (_result_cache cls))%nat
          then List.skipn (_MAX_CACHE_SIZE / 4) (_result_cache cls)
          else _result_cache cls in
        (result,
         {| _result_cache := (cache ++ [(cache_key, result)])%list;
            _lix_metric := lix_metric' |})
  end.

End ReadabilityService.

(* ===================================================================== *)
(** ** services/recommendations.py: class ReadabilityRecommender          *)
(* ===================================================================== *)

Module ReadabilityRecommender.

(** A description is a fixed text, or a text around one number that
    the source formats with [round(x, 1)]. *)
Inductive text :=
| Lit (s : string)
| Fmt (before : string) (x : Q) (after : string).

Record recommendation := mk_rec {
  type : string;
  title : string;
  description : text;
  suggestion : string;
  impact : string;
  examples : list string
}.

(** The [metrics] dictionary: a missing key is [None]. *)
Record metrics := mk_metrics {
  m_lix_score : option Q;
  m_rix_score : option Q;
  m_avg_sentence_length : option Q;
  m_long_words_percentage : option Q;
  m_user_context : option (gmap string string)
}.

(** [metrics.get(key, 0)] *)
Definition get0 (v : option Q) : Q :=
  match v with Some x => x | None => 0%Q end.

(** Truth value of the user context: a non-empty dictionary. *)
Definition context_truthy (uc : option (gmap string string)) : bool :=
  match uc with
  | Some d => negb (bool_decide (d = ∅))
  | None => false
  end.

Definition purpose_is (uc : option (gmap string string)) (p : string) : bool :=
  match uc with
  | Some d => bool_decide (d !! "purpose" = Some p)
  | None => false
  end.

Definition sentence_structure (avg_sentence_length : Q) (simplified : bool)
  : recommendation :=
  mk_rec "sentence_structure" "Kortere setninger"
    (Fmt "Gjennomsnittlig setningslengde er "
         (Py.round avg_sentence_length 1) " ord, som er relativt høyt.")
    "Del lange setninger i to eller flere kortere setninger for bedre forståelse."
    (if Py.gtb avg_sentence_length 25 then "high" else "medium")
    (if simplified then []
     else
       ["Før: 'Det er viktig å vurdere alle faktorene som påvirker resultatet, inkludert eksterne variabler som vær og tilgjengelighet av materialer, samt interne faktorer som gjennomføringskapasitet og kvalitetssikring.'";
        "Etter: 'Det er viktig å vurdere alle faktorene som påvirker resultatet. Dette inkluderer eksterne variabler som vær og tilgjengelighet av materialer. Interne faktorer som gjennomføringskapasitet og kvalitetssikring må også vurderes.'"]).

Definition word_complexity (long_words_percentage : Q) : recommendation :=
  mk_rec "word_complexity" "Enklere ordvalg"
    (Fmt "" (Py.round long_words_percentage 1)
         "% av ordene er lange (7+ bokstaver).")
    "Bruk kortere og mer vanlige ord for å gjøre teksten mer tilgjengelig."
    (if Py.gtb long_words_percentage 35 then "high" else "medium")
    ["Erstatt 'implementere' med 'bruke'";
     "Erstatt 'signifikant' med 'viktig'";
     "Erstatt 'kommunisere' med 'si fra'";
     "Erstatt 'funksjoner' med 'egenskaper'"].

Definition writing_style : recommendation :=
  mk_rec "writing_style" "Aktivt språk"
    (Lit "Passivt språk gjør teksten tyngre å lese.")
    "Bruk aktiv form fremfor passiv form når mulig."
    "medium"
    ["Passiv: 'Beslutningen ble tatt av styret.'";
     "Aktiv: 'Styret tok beslutningen.'"].

Definition flow_improvement : recommendation :=
  mk_rec "flow_improvement" "Bedre tekstflyt"
    (Lit "Manglende bindeord kan gjøre teksten oppstykket.")
    "Bruk bindeord for å skape sammenheng mellom setninger og avsnitt."
    "medium"
    ["Legge til: 'derfor', 'fordi', 'likevel', 'dessuten'";
     "Eksempel: 'Han kom for sent. Han mistet bussen.' → 'Han kom for sent fordi han mistet bussen.'"].

Definition technical_language : recommendation :=
  mk_rec "technical_language" "Fagbegreper"
    (Lit "Høy LIX-score (over 50) tyder på mange fagbegreper.")
    "Forklar eller erstatt fagterminologi når mulig."
    "high"
    ["Forklar begreper når de introduseres: 'Kognitiv dissonans (følelsen av ubehag når man holder motstridende overbevisninger) er et vanlig psykologisk fenomen.'";
     "Bruk enklere synonymer når mulig"].

Definition structure_improvement : recommendation :=
  mk_rec "structure_improvement" "Forbedre tekststruktur"
    (Lit "Komplekse tekster trenger tydelig struktur.")
    "Del teksten i kortere avsnitt med tydelige overskrifter og punktlister."
    "high"
    ["Bruk overskrifter for å dele opp lange tekster";
     "Bruk punktlister for å presentere relatert informasjon";
     "Hold avsnitt under 4-5 setninger"].

Definition visual_aids : recommendation :=
  mk_rec "visual_aids" "Visuelle hjelpemidler"
    (Lit "Kompleks informasjon kan presenteres visuelt.")
    "Inkluder tabeller, diagrammer eller illustrasjoner for å forklare komplekse konsepter."
    "medium"
    ["Bruk diagrammer for å vise sammenhenger";
     "Bruk tabeller for å organisere data";
     "Legg til illustrasjoner for å forklare prosesser"].

Definition educational_content : recommendation :=
  mk_rec "educational_content" "Tilpass for læring"
    (Lit "Teksten kan være krevende for en utdanningskontekst.")
    "Bruk pedagogiske virkemidler som eksempler, oppsummeringer og visuelle hjelpemidler."
    "high"
    ["Legg til: 'For eksempel...' for å illustrere komplekse konsepter";
     "Bruk oppsummeringspunkter etter lengre avsnitt";
     "Inkluder visuelle hjelpemidler for å støtte teksten"].

Definition business_communication : recommendation :=
  mk_rec "business_communication" "Fokuser budskapet"
    (Lit "Forretningskommunikasjon bør være klar og konsis.")
    "Bruk aktiv stemme, fremhev nøkkelpunkter og unngå unødvendig jargong."
    "medium"
    ["Start med hovedpoenget i hvert avsnitt";
     "Bruk kulepunkter for viktige elementer";
     "Unngå passive formuleringer: 'Rapporten ble utarbeidet' → 'Vi utarbeidet rapporten'"].

Definition rix_recommendation (rix_score : Q) : recommendation :=
  mk_rec "rix_recommendation" "Balansere ordlengde"
    (Fmt "RIX-score på " (Py.round rix_score 1) " indikerer mange lange ord.")
    "Reduser antall lange ord for å bedre flyten i teksten."
    "medium"
    ["Bruk kortere alternativer: 'anvende' → 'bruke'";
     "Varier mellom korte og lange ord for bedre rytme"].

Definition positive_feedback (lix_score : Q) : recommendation :=
  if Py.ltb lix_score 30 then
    mk_rec "positive_feedback" "Utmerket lesbarhet"
      (Fmt "Teksten har en LIX-score på " (Py.round lix_score 1)
           ", som indikerer svært god lesbarhet.")
      "Teksten er allerede svært lettlest og tilgjengelig for de fleste lesere."
      "low" []
  else
    mk_rec "positive_feedback" "God lesbarhet"
      (Fmt "Teksten har en LIX-score på " (Py.round lix_score 1)
           ", som indikerer god lesbarhet.")
      "Teksten har god balanse mellom setningslengde og ordvalg."
      "low" [].

(** [recommendations.append(r)] under a condition. *)
Definition append_if (b : bool) (rs : list recommendation)
    (recommendations : list recommendation) : list recommendation :=
  if b then (recommendations ++ rs)%list else recommendations.

Definition generate (m : metrics) (simplified : bool) : list recommendation :=
  let lix_score := get0 (m_lix_score m) in
  let rix_score := get0 (m_rix_score m) in
  let avg_sentence_length := get0 (m_avg_sentence_length m) in
  let long_words_percentage := get0 (m_long_words_percentage m) in
  let user_context := m_user_context m in
  let recommendations := [] in
  let recommendations :=
    append_if (Py.gtb avg_sentence_length 18)
      [sentence_structure avg_sentence_length simplified] recommendations in
  let recommendations :=
    append_if (Py.gtb long_words_percentage 25)
      [word_complexity long_words_percentage] recommendations in
  let recommendations :=
    append_if (Py.gtb lix_score 40)
      [writing_style; flow_improvement] recommendations in
  let recommendations :=
    append_if (Py.gtb lix_score 50)
      [technical_language; structure_improvement] recommendations in
  let recommendations :=
    append_if (Py.gtb lix_score 45) [visual_aids] recommendations in
  let recommendations :=
    if context_truthy user_context then
      if purpose_is user_context "education" && Py.gtb lix_score 35 then
        (recommendations ++ [educational_content])%list
      else if purpose_is user_context "business" && Py.gtb lix_score 45 then
        (recommendations ++ [business_communication])%list
      else recommendations
    else recommendations in
  let recommendations :=
    append_if (Py.gtb rix_score 4) [rix_recommendation rix_score]
      recommendations in
  match recommendations with
  | [] => [positive_feedback lix_score]
  | _ :: _ => recommendations
  end.

End ReadabilityRecommender.

(* ===================================================================== *)
(** ** services/circuit_breaker.py: class CircuitBreaker                  *)
(* ===================================================================== *)

Module CircuitBreaker.

Inductive CircuitState := CLOSED | OPEN | HALF_OPEN.

Record t := mk {
  _name : string;
  _max_failures : Z;
  _reset_timeout : Q;
  _failure_threshold : Q;
  _state : CircuitState;
  _failure_count : Z;
  _last_failure_time : Q;
  _request_count : Z;
  _success_count : Z
}.

(** [__init__]; the defaults of the three optional parameters are
    [default_max_failures], [default_reset_timeout] and
    [default_failure_threshold_percentage]. *)
Definition default_max_failures : Z := 5.
Definition default_reset_timeout : Q := 60.
Definition default_failure_threshold_percentage : Q := 50.

Definition __init__ (name : string) (max_failures : Z) (reset_timeout : Q)
    (failure_threshold_percentage : Q) : t :=
  {| _name := name;
     _max_failures := max_failures;
     _reset_timeout := reset_timeout;
     _failure_threshold := failure_threshold_percentage;
     _state := CLOSED;
     _failure_count := 0;
     _last_failure_time := 0;
     _request_count := 0;
     _success_count := 0 |}.

Definition with_state (st : CircuitState) (self : t) : t :=
  {| _name := _name self;
     _max_failures := _max_failures self;
     _reset_timeout := _reset_timeout self;
     _failure_threshold := _failure_threshold self;
     _state := st;
     _failure_count := _failure_count self;
     _last_failure_time := _last_failure_time self;
     _request_count := _request_count self;
     _success_count := _success_count self |}.

Definition with_counts (failures requests successes : Z) (self : t) : t :=
  {| _name := _name self;
     _max_failures := _max_failures self;
     _reset_timeout := _reset_timeout self;
     _failure_threshold := _failure_threshold self;
     _state := _state self;
     _failure_count := failures;
     _last_failure_time := _last_failure_time self;
     _request_count := requests;
     _success_count := successes |}.

Definition with_last_failure_time (now : Q) (self : t) : t :=
  {| _name := _name self;
     _max_failures := _max_failures self;
     _reset_timeout := _reset_timeout self;
     _failure_threshold := _failure_threshold self;
     _state := _state self;
     _failure_count := _failure_count self;
     _last_failure_time := now;
     _request_count := _request_count self;
     _success_count := _success_count self |}.

Definition state_eqb (a b : CircuitState) : bool :=
  match a, b with
  | CLOSED, CLOSED | OPEN, OPEN | HALF_OPEN, HALF_OPEN => true
  | _, _ => false
  end.

(** The property [state]; [now] is the value of [time.time()]. *)
Definition state (now : Q) (self : t) : CircuitState * t :=
  if state_eqb (_state self) OPEN
     && Py.gtb (now - _last_failure_time self) (_reset_timeout self)
  then (HALF_OPEN, with_state HALF_OPEN self)
  else (_state self, self).

Definition success (self : t) : t :=
  let self :=
    if state_eqb (_state self) HALF_OPEN
    then with_counts 0 0 0 (with_state CLOSED self)
    else self in
  if state_eqb (_state self) CLOSED
  then with_counts (_failure_count self) (_request_count self + 1)
         (_success_count self + 1) self
  else self.

Definition failure (now : Q) (self : t) : t :=
  let self := with_last_failure_time now self in
  let self :=
    with_counts (_failure_count self + 1) (_request_count self + 1)
      (_success_count self) self in
  match _state self with
  | CLOSED =>
      if _failure_count self >=? _max_failures self then with_state OPEN self
      else if (_request_count self >? 10)
              && Py.gtb
                   (inject_Z (100 * (_request_count self - _success_count self))
                    / inject_Z (_request_count self))
                   (_failure_threshold self)
      then with_state OPEN self
      else self
  | HALF_OPEN => with_state OPEN self
  | OPEN => self
  end.

Definition reset (self : t) : t :=
  with_counts 0 0 0 (with_state CLOSED self).

Definition can_execute (now : Q) (self : t) : bool * t :=
  let '(st, self) := state now self in
  (negb (state_eqb st OPEN), self).

(** The decorator [__call__]: one guarded call.  [func] tells whether
    the wrapped coroutine returns ([true]) or raises ([false]); [now] is
    the clock when the circuit is consulted and [later] the clock when
    a failure is reported. *)
Inductive call_result :=
| Returned
| CircuitIsOpen
| OperationFailed.

Definition call (now later : Q) (func : bool) (self : t) : call_result * t :=
  let '(ok, self) := can_execute now self in
  if negb ok then (CircuitIsOpen, self)
  else if func then (Returned, success self)
  else (OperationFailed, failure later self).

End CircuitBreaker.

(* ===================================================================== *)
(** ** main.py: cache keys, the store, the HTTP handlers and the
       WebSocket session                                                   *)
(* ===================================================================== *)

(** What [main.py] calls and this development does not look into: the
    MD5 digest of the standard library and [TextAnalysisService].  A
    call that raises returns [None]. *)
Class Collaborators := {
  (** [hashlib.md5(text.encode('utf-8')).hexdigest()] *)
  md5_hexdigest : string -> string;
  (** The dictionary returned by [TextAnalysisService]. *)
  text_analysis : Type;
  (** [TextAnalysisService.analyze_text(text, simple_mode)] *)
  TextAnalysisService_analyze_text : string -> bool -> option text_analysis;
  (** [TextAnalysisService.get_basic_statistics(text)] *)
  TextAnalysisService_get_basic_statistics : string -> option text_analysis;
  (** The two entries of the statistics block that [main.py] reads. *)
  statistics_avg_sentence_length : text_analysis -> Q;
  statistics_long_words_percentage : text_analysis -> Q;
  (** [d.pop("word_analysis", None)] and [d.pop("sentence_analysis", None)] *)
  pop_word_analysis : text_analysis -> text_analysis;
  pop_sentence_analysis : text_analysis -> text_analysis
}.

Module Main.

(** Settings read from the process environment at import time. *)
Record config := mk_config {
  REDIS_CACHE_TTL : Z;
  REDIS_CACHE_TTL_SMALL : Z;
  REDIS_CACHE_TTL_LARGE : Z;
  BACKGROUND_PROCESSING_THRESHOLD : Z
}.

(** The values used when the environment sets none. *)
Definition default_config : config :=
  {| REDIS_CACHE_TTL := 3600;
     REDIS_CACHE_TTL_SMALL := 7200;
     REDIS_CACHE_TTL_LARGE := 1800;
     BACKGROUND_PROCESSING_THRESHOLD := 20000 |}.

Definition SMALL_TEXT_THRESHOLD : Z := 1000.
Definition LARGE_TEXT_THRESHOLD : Z := 10000.

(** [len(text)] as an [int]. *)
Definition len (text : string) : Z := Z.of_nat (String.length text).

(** Truth value of an [Optional[bool]]. *)
Definition flag (b : option bool) : bool :=
  match b with Some true => true | _ => false end.

(** [str(int(b))] *)
Definition str_int_bool (b : bool) : string := if b then "1" else "0".

(** [str(b)] *)
Definition str_bool (b : bool) : string := if b then "True" else "False".

Section WithCollaborators.
Context `{Collaborators}.

(** [generate_cache_key] on two booleans. *)
Definition cache_key_of (text : string)
    (include_word_analysis include_sentence_analysis : bool) : string :=
  let text_hash := md5_hexdigest text in
  let options_str :=
    ":w" ++ str_int_bool include_word_analysis
    ++ ":s" ++ str_int_bool include_sentence_analysis in
  "analysis:" ++ text_hash ++ options_str.

(** [generate_cache_key] on the optional flags of a request; [None]
    is the [TypeError] of [int(None)]. *)
Definition generate_cache_key (text : string)
    (include_word_analysis include_sentence_analysis : option bool)
  : option string :=
  match include_word_analysis, include_sentence_analysis with
  | Some w, Some s => Some (cache_key_of text w s)
  | _, _ => None
  end.

Definition get_cache_ttl (cfg : config) (text : string) : Z :=
  let text_length := len text in
  if text_length <? SMALL_TEXT_THRESHOLD then REDIS_CACHE_TTL_SMALL cfg
  else if text_length >? LARGE_TEXT_THRESHOLD then REDIS_CACHE_TTL_LARGE cfg
  else REDIS_CACHE_TTL cfg.

(** *** Values kept in the store.  [json.dumps] and [json.loads] are
    inverse to each other on them and are left out. *)

(** The result dictionary of an analysis.  [recommendations] is the
    key that the handlers add to the readability block; a partial
    result has neither recommendations nor a text analysis. *)
Record analysis_record := mk_record {
  readability : ReadabilityService.result;
  recommendations : option (list ReadabilityRecommender.recommendation);
  text_analysis_data : option text_analysis;
  cached : bool;
  partial : option bool
}.

Record task_status := mk_task_status {
  task_state : string;
  task_result : option analysis_record
}.

Record job_data := mk_job {
  job_status : string;
  total : Z;
  completed : Z;
  failed : Z;
  priority : Z
}.

Inductive value :=
| VAnalysis (r : analysis_record)
| VTaskStatus (s : task_status)
| VJob (j : job_data)
| VTexts (texts : list (gmap string string)).

(** The store: string keys with a value and its expiry in seconds,
    and the sorted set [batch_processing_queue]. *)
Record redis := mk_redis {
  kv : gmap string (value * Z);
  batch_processing_queue : gmap string Z
}.

Definition redis_set (key : string) (v : value) (ex : Z) (r : redis) : redis :=
  {| kv := <[key := (v, ex)]> (kv r);
     batch_processing_queue := batch_processing_queue r |}.

Definition redis_zadd (member : string) (sc : Z) (r : redis) : redis :=
  {| kv := kv r;
     batch_processing_queue := <[member := sc]> (batch_processing_queue r) |}.

(** [get_from_cache] and [set_in_cache] go through [redis_operation],
    which gives up silently when the store cannot be reached: [ok]
    tells whether the operation reaches the store. *)
Definition get_from_cache (ok : bool) (r : redis) (key : string)
  : option value :=
  if ok then fst <$> kv r !! key else None.

Definition set_in_cache (ok : bool) (r : redis) (key : string)
    (v : value) (ttl : Z) : redis :=
  if ok then redis_set key v ttl r else r.

(** *** Exceptions, responses and scheduled work *)

Inductive exn :=
| HTTPError (status_code : Z) (detail : string)
| TypeError
| AttributeError (name : string)
| ConnectionError
| AnalysisError.

Record batch_item_result := mk_item_result {
  item_error : string;
  item_status : string
}.

Inductive response :=
| Analysis (r : analysis_record)
| CachedAnalysis (v : value)
| TaskAccepted (task_id status polling_endpoint : string)
    (estimated_completion_seconds : Z)
| BatchAccepted (job_id status : string) (texts_count : Z)
    (estimated_time : Q)
| BatchSummary (results : list batch_item_result)
    (total_processed background_tasks : Z)
| HTTPException (status_code : Z) (detail : string)
| ErrorWrapped (status_code : Z) (detail : string) (cause : exn)
| Unhandled (cause : exn).

(** The HTTP status of a response; an exception that no handler
    catches is answered by the framework with 500. *)
Definition status_code_of (resp : response) : Z :=
  match resp with
  | HTTPException c _ | ErrorWrapped c _ _ => c
  | Unhandled _ => 500
  | _ => 200
  end.

Inductive task :=
| process_batch_job (job_id : string)
| process_text_analysis_background
    (task_id text : string)
    (include_word_analysis include_sentence_analysis : option bool)
    (cache_key : string)
    (user_context : option (gmap string string))
| process_detailed_analysis
    (text : string)
    (include_word_analysis include_sentence_analysis : bool)
    (cache_key : string).

(** *** [get_redis_pool] (line 204) and [async with].  The function
    is declared [async def]: calling it gives a coroutine, and only
    awaiting the coroutine gives the client it returns.  The statement
    [async with obj as redis] needs an object with [__aenter__] and
    [__aexit__]; the client has them, a coroutine has not, and the
    statement then raises [TypeError] ([AttributeError] on interpreters
    older than 3.11) before its body runs. *)
Inductive pool_object :=
| RedisClient
| Coroutine (result : pool_object).

Definition get_redis_pool : pool_object := Coroutine RedisClient.

Definition has_aenter (obj : pool_object) : bool :=
  match obj with
  | RedisClient => true
  | Coroutine _ => false
  end.

Definition async_with {A : Type} (obj : pool_object) (body raised : A) : A :=
  if has_aenter obj then body else raised.

(** *** POST /analyze/batch, first definition (line 313) *)

Record BatchTextRequest := mk_batch_request {
  texts : list (gmap string string);
  req_priority : option Z
}.

(** What the surroundings give to one call: the fresh UUID and, for
    each of the three store commands in the body of the [async with],
    whether it goes through. *)
Record batch_env := mk_batch_env {
  uuid4 : string;
  set_job_ok : bool;
  set_texts_ok : bool;
  zadd_ok : bool
}.

Definition estimate_processing_time (text_count : Z) : Q :=
  (2 + (1 # 2) * inject_Z text_count)%Q.

(** Lines 351 to 372: the body of the [async with], which stores the
    job record and the texts and queues the job, and the statements
    after it, which start the worker and build the reply. *)
Definition queue_batch_job (request : BatchTextRequest) (env : batch_env)
    (job : job_data) (r : redis) : response * redis * list task :=
  let job_id := uuid4 env in
  let texts_count := Z.of_nat (List.length (texts request)) in
  if negb (set_job_ok env) then (Unhandled ConnectionError, r, [])
  else
    let r := redis_set ("batch_job:" ++ job_id) (VJob job) 86400 r in
    if negb (set_texts_ok env) then (Unhandled ConnectionError, r, [])
    else
      let r := redis_set ("batch_job:" ++ job_id ++ ":texts")
                 (VTexts (texts request)) 86400 r in
      if negb (zadd_ok env) then (Unhandled ConnectionError, r, [])
      else
        let r := redis_zadd job_id (priority job) r in
        (BatchAccepted job_id "queued" texts_count
           (estimate_processing_time texts_count),
         r, [process_batch_job job_id]).

Definition analyze_text_batch (request : BatchTextRequest)
    (env : batch_env) (r : redis) : response * redis * list task :=
  let texts_count := Z.of_nat (List.length (texts request)) in
  if texts_count =? 0 then
    (HTTPException 400 "Batch cannot be empty", r, [])
  else if texts_count >? 100 then
    (HTTPException 400 "Batch size cannot exceed 100 texts", r, [])
  else
    match req_priority request with
    | None => (Unhandled TypeError, r, [])
    | Some p =>
        let job :=
          {| job_status := "queued";
             total := texts_count;
             completed := 0;
             failed := 0;
             priority := Z.min (Z.max p 1) 10 |} in
        async_with get_redis_pool
          (queue_batch_job request env job r)
          (Unhandled TypeError, r, [])
    end.

(** *** POST /analyze/batch, second definition (line 664).  The
    request model has no attribute [include_word_analysis]: reading
    it raises, and every exception raised in the body, the 400 of
    the empty batch included, is turned into a 500 by the handler's
    own [except Exception]. *)
Definition item_text (text_item : gmap string string) : string :=
  Py.strip (default "" (text_item !! "text")).

Definition analyze_texts_batch (request : BatchTextRequest) (r : redis)
  : response * redis * list task :=
  match texts request with
  | [] =>
      (ErrorWrapped 500 "Error analyzing batch texts: "
         (HTTPError 400 "No texts provided in batch"), r, [])
  | _ :: _ =>
      if List.existsb (fun text_item => Py.truthy (item_text text_item))
           (texts request)
      then
        (ErrorWrapped 500 "Error analyzing batch texts: "
           (AttributeError "include_word_analysis"), r, [])
      else
        (BatchSummary
           (List.map (fun _ => mk_item_result "Empty text" "failed")
              (texts request))
           (Z.of_nat (List.length (texts request))) 0,
         r, [])
  end.

(** *** The route table, in registration order.  The framework
    serves a request with the first route that matches. *)
Inductive endpoint :=
| ep_analyze_text_batch
| ep_get_batch_status
| ep_serve_index
| ep_analyze_text
| ep_analyze_texts_batch
| ep_get_task_status
| ep_health_check
| ep_sse_endpoint
| ep_stream_analysis.

Definition routes : list (string * string * endpoint) :=
  [ ("POST", "/analyze/batch", ep_analyze_text_batch);
    ("GET", "/analyze/batch/{job_id}", ep_get_batch_status);
    ("GET", "/", ep_serve_index);
    ("POST", "/analyze", ep_analyze_text);
    ("POST", "/analyze/batch", ep_analyze_texts_batch);
    ("GET", "/task/{task_id}", ep_get_task_status);
    ("GET", "/health", ep_health_check);
    ("GET", "/sse", ep_sse_endpoint);
    ("POST", "/analyze/stream", ep_stream_analysis) ].

Fixpoint first_match (method path : string)
    (rs : list (string * string * endpoint)) : option endpoint :=
  match rs with
  | [] => None
  | (m, p, e) :: rest =>
      if String.eqb m method && String.eqb p path then Some e
      else first_match method path rest
  end.

(** A request [POST /analyze/batch] as the application answers it. *)
Definition post_analyze_batch (request : BatchTextRequest)
    (env : batch_env) (r : redis) : response * redis * list task :=
  match first_match "POST" "/analyze/batch" routes with
  | Some ep_analyze_text_batch => analyze_text_batch request env r
  | Some ep_analyze_texts_batch => analyze_texts_batch request r
  | _ => (HTTPException 404 "Not Found", r, [])
  end.

(** *** The analysis that [analyze_text] and the background worker
    both perform: readability, text analysis, recommendations. *)

Definition recommender_input (readability_data : ReadabilityService.result)
    (ta : text_analysis) (uc : option (gmap string string))
  : ReadabilityRecommender.metrics :=
  {| ReadabilityRecommender.m_lix_score :=
       Some (ReadabilityService.score (ReadabilityService.lix readability_data));
     ReadabilityRecommender.m_rix_score :=
       Some (ReadabilityService.score (ReadabilityService.rix readability_data));
     ReadabilityRecommender.m_avg_sentence_length :=
       Some (statistics_avg_sentence_length ta);
     ReadabilityRecommender.m_long_words_percentage :=
       Some (statistics_long_words_percentage ta);
     ReadabilityRecommender.m_user_context := uc |}.

Definition full_analysis (svc : ReadabilityService.t) (text : string)
    (include_word_analysis include_sentence_analysis : option bool)
    (uc : option (gmap string string))
  : option analysis_record * ReadabilityService.t :=
  let '(readability_data, svc) :=
    ReadabilityService.get_readability svc text in
  match TextAnalysisService_analyze_text text false with
  | None => (None, svc)
  | Some ta =>
      let recs :=
        ReadabilityRecommender.generate
          (recommender_input readability_data ta uc) false in
      let ta :=
        if negb (flag include_word_analysis) then pop_word_analysis ta
        else ta in
      let ta :=
        if negb (flag include_sentence_analysis) then pop_sentence_analysis ta
        else ta in
      (Some {| readability := readability_data;
               recommendations := Some recs;
               text_analysis_data := Some ta;
               cached := false;
               partial := None |}, svc)
  end.

(** *** POST /analyze *)

Record TextRequest := mk_text_request {
  text : string;
  include_word_analysis : option bool;
  include_sentence_analysis : option bool;
  user_context : option (gmap string string)
}.

(** The clock, as [int(time.time())], and which store operations
    go through. *)
Record analyze_env := mk_analyze_env {
  now : N;
  get_ok : bool;
  set_status_ok : bool;
  set_result_ok : bool
}.

(** The body runs under [try]; its [except Exception] also catches
    the 400 raised for an empty text and answers 500.  The
    publication of a fresh result on the message queue, whose
    failures are swallowed, is left out. *)
Definition analyze_text (cfg : config) (request : TextRequest)
    (env : analyze_env) (r : redis) (svc : ReadabilityService.t)
  : response * redis * ReadabilityService.t * list task :=
  let text := Py.strip (text request) in
  if negb (Py.truthy text) then
    (ErrorWrapped 500 "Error analyzing text: "
       (HTTPError 400 "No text provided"), r, svc, [])
  else
    match generate_cache_key text (include_word_analysis request)
            (include_sentence_analysis request) with
    | None => (ErrorWrapped 500 "Error analyzing text: " TypeError, r, svc, [])
    | Some cache_key =>
        match get_from_cache (get_ok env) r cache_key with
        | Some cached_result => (CachedAnalysis cached_result, r, svc, [])
        | None =>
            if len text >? BACKGROUND_PROCESSING_THRESHOLD cfg then
              let task_id :=
                "task-" ++ Py.slice_to 10 (md5_hexdigest text) ++ "-"
                ++ Py.str_of_N (now env) in
              let task_status_key := "task_status:" ++ task_id in
              let r :=
                set_in_cache (set_status_ok env) r task_status_key
                  (VTaskStatus (mk_task_status "processing" None)) 3600 in
              (TaskAccepted task_id "processing" ("/task/" ++ task_id)
                 (Z.max 5 (len text / 10000)),
               r, svc,
               [process_text_analysis_background task_id text
                  (include_word_analysis request)
                  (include_sentence_analysis request)
                  cache_key (user_context request)])
            else
              match full_analysis svc text (include_word_analysis request)
                      (include_sentence_analysis request)
                      (user_context request) with
              | (None, svc) =>
                  (ErrorWrapped 500 "Error analyzing text: " AnalysisError,
                   r, svc, [])
              | (Some result, svc) =>
                  let r :=
                    set_in_cache (set_result_ok env) r cache_key
                      (VAnalysis result) (get_cache_ttl cfg text) in
                  (Analysis result, r, svc, [])
              end
        end
    end.

(** The coroutine [process_text_analysis_background], run later by
    the framework with the arguments given to [add_task]. *)
Definition run_process_text_analysis_background (cfg : config)
    (task_id text : string)
    (include_word_analysis include_sentence_analysis : option bool)
    (cache_key : string) (uc : option (gmap string string))
    (result_ok status_ok : bool)
    (r : redis) (svc : ReadabilityService.t)
  : redis * ReadabilityService.t :=
  let task_status_key := "task_status:" ++ task_id in
  match full_analysis svc text include_word_analysis
          include_sentence_analysis uc with
  | (Some result, svc) =>
      let r :=
        set_in_cache result_ok r cache_key (VAnalysis result)
          (get_cache_ttl cfg text) in
      let r :=
        set_in_cache status_ok r task_status_key
          (VTaskStatus (mk_task_status "completed" (Some result))) 3600 in
      (r, svc)
  | (None, svc) =>
      (set_in_cache status_ok r task_status_key
         (VTaskStatus (mk_task_status "failed" None)) 3600, svc)
  end.

(** *** The WebSocket endpoint /ws/analyze: one session, one
    function per received message *)

Record message := mk_message {
  msg_text : string;
  msg_include_word_analysis : bool;
  msg_include_sentence_analysis : bool;
  msg_user_context : option (gmap string string)
}.

(** A result object as it is sent and kept in the connection cache:
    decoded from the shared cache, or built by this session. *)
Inductive payload :=
| FromCache (v : value)
| Built (r : analysis_record).

Inductive ws_reply :=
| ws_error (msg : string)
| ws_json (p : payload).

(** The local variables of [websocket_analyze] that live across
    iterations of its loop.  [readability_data] is among them: once
    bound it stays in [locals()]. *)
Record session := mk_session {
  last_process_time : Q;
  last_text : string;
  last_text_length : Z;
  last_word_count : Z;
  debounce_time : Q;
  connection_cache : gmap string payload;
  readability_data : option ReadabilityService.result
}.

Definition min_debounce_time : Q := 1 # 10.
Definition max_debounce_time : Q := 8 # 10.

(** The state when the connection is accepted at time [t0]. *)
Definition open_session (t0 : Q) : session :=
  {| last_process_time := t0;
     last_text := "";
     last_text_length := 0;
     last_word_count := 0;
     debounce_time := 2 # 10;
     connection_cache := ∅;
     readability_data := None |}.

Definition with_debounce_time (d : Q) (s : session) : session :=
  {| last_process_time := last_process_time s;
     last_text := last_text s;
     last_text_length := last_text_length s;
     last_word_count := last_word_count s;
     debounce_time := d;
     connection_cache := connection_cache s;
     readability_data := readability_data s |}.

Definition with_connection_cache (c : gmap string payload) (s : session)
  : session :=
  {| last_process_time := last_process_time s;
     last_text := last_text s;
     last_text_length := last_text_length s;
     last_word_count := last_word_count s;
     debounce_time := debounce_time s;
     connection_cache := c;
     readability_data := readability_data s |}.

Definition with_readability_data (rd : ReadabilityService.result)
    (s : session) : session :=
  {| last_process_time := last_process_time s;
     last_text := last_text s;
     last_text_length := last_text_length s;
     last_word_count := last_word_count s;
     debounce_time := debounce_time s;
     connection_cache := connection_cache s;
     readability_data := Some rd |}.

(** The three assignments that close a processed message. *)
Definition track (t : Q) (text : string) (text_length : Z) (s : session)
  : session :=
  {| last_process_time := t;
     last_text := text;
     last_text_length := text_length;
     last_word_count := last_word_count s;
     debounce_time := debounce_time s;
     connection_cache := connection_cache s;
     readability_data := readability_data s |}.

Definition with_last_word_count (n : Z) (s : session) : session :=
  {| last_process_time := last_process_time s;
     last_text := last_text s;
     last_text_length := last_text_length s;
     last_word_count := n;
     debounce_time := debounce_time s;
     connection_cache := connection_cache s;
     readability_data := readability_data s |}.

(** The clock at the start and at the end of the iteration, the two
    load figures (already divided by 100), and the reachability of
    the shared cache for the read and for the write. *)
Record ws_env := mk_ws_env {
  current_time : Q;
  cpu_load : Q;
  memory_use : Q;
  ws_get_ok : bool;
  ws_set_ok : bool;
  finish_time : Q
}.

(** The debounce window chosen from the system load, before the
    adjustment for long texts. *)
Definition adaptive_debounce (system_load : Q) : Q :=
  if Py.gtb system_load (8 # 10) then max_debounce_time
  else if Py.gtb system_load (5 # 10) then
    (min_debounce_time
     + (max_debounce_time - min_debounce_time)
       * (system_load - (5 # 10)) / (3 # 10))%Q
  else min_debounce_time.

Definition text_length_change_ratio (text_length last_length : Z) : Q :=
  (inject_Z (Z.abs (text_length - last_length))
   / inject_Z (Z.max 1 last_length))%Q.

(** [readability_data] as the loop body sees it when it needs it:
    computed only if no earlier iteration or step bound it. *)
Definition ensure_readability (s : session) (text : string)
    (svc : ReadabilityService.t)
  : ReadabilityService.result * session * ReadabilityService.t :=
  match readability_data s with
  | Some rd => (rd, s, svc)
  | None =>
      let '(rd, svc) := ReadabilityService.get_readability svc text in
      (rd, with_readability_data rd s, svc)
  end.

(** The part of the loop body after the two caches missed and after
    the partial reply, if any, was sent. *)
Definition process_normally (cfg : config) (s : session) (m : message)
    (env : ws_env) (text : string) (time_since_last : Q)
    (significant_change : bool) (cache_key global_cache_key : string)
    (r : redis) (svc : ReadabilityService.t)
  : list ws_reply * session * redis * ReadabilityService.t :=
  let words := ReadabilityService._extract_words text in
  let word_count := Z.of_nat (List.length words) in
  let changed :=
    Py.gtb (inject_Z word_count)
      (inject_Z (last_word_count s) * (11 # 10))
    || Py.ltb (inject_Z word_count)
         (inject_Z (last_word_count s) * (9 # 10)) in
  let analysed :=
    if changed && (significant_change || Py.gtb time_since_last (5 # 10))
    then TextAnalysisService_analyze_text text true
    else TextAnalysisService_get_basic_statistics text in
  match analysed with
  | None => ([ws_error "Error processing text: "], s, r, svc)
  | Some ta =>
      let ta :=
        if negb (msg_include_word_analysis m) then pop_word_analysis ta
        else ta in
      let ta :=
        if negb (msg_include_sentence_analysis m)
        then pop_sentence_analysis ta else ta in
      let '(recs, s, svc) :=
        if (word_count >? 15) && Py.gtb time_since_last (7 # 10) then
          let '(rd, s, svc) := ensure_readability s text svc in
          (ReadabilityRecommender.generate
             (recommender_input rd ta
                (Some (default ∅ (msg_user_context m)))) true,
           s, svc)
        else ([], s, svc) in
      let '(rd, s, svc) := ensure_readability s text svc in
      let result :=
        {| readability := rd;
           recommendations := Some recs;
           text_analysis_data := Some ta;
           cached := false;
           partial := Some false |} in
      let r :=
        set_in_cache (ws_set_ok env) r global_cache_key (VAnalysis result)
          (get_cache_ttl cfg text) in
      let s :=
        with_connection_cache
          (<[cache_key := Built result]> (connection_cache s)) s in
      ([ws_json (Built result)],
       with_last_word_count word_count
         (track (finish_time env) text (len text) s),
       r, svc)
  end.

(** One iteration of the receive loop on a decoded message. *)
Definition websocket_message (cfg : config) (s : session) (m : message)
    (env : ws_env) (r : redis) (svc : ReadabilityService.t)
  : list ws_reply * session * redis * ReadabilityService.t * list task :=
  let text := Py.strip (msg_text m) in
  let include_word_analysis := msg_include_word_analysis m in
  let include_sentence_analysis := msg_include_sentence_analysis m in
  if negb (Py.truthy text) then
    ([ws_error "No text provided"], s, r, svc, [])
  else if String.eqb text (last_text s) then ([], s, r, svc, [])
  else
    let time_since_last := (current_time env - last_process_time s)%Q in
    let text_length := len text in
    let significant_change :=
      Py.gtb (text_length_change_ratio text_length (last_text_length s))
        (15 # 100) in
    if Py.ltb time_since_last (debounce_time s) && negb significant_change
    then ([], s, r, svc, [])
    else
      let system_load := ((cpu_load env + memory_use env) / 2)%Q in
      let debounce := adaptive_debounce system_load in
      let debounce :=
        if text_length >? 5000 then (debounce * (12 # 10))%Q else debounce in
      let s := with_debounce_time debounce s in
      let cache_key :=
        Py.slice_to 50 text ++ "_" ++ Py.str_of_nat (String.length text)
        ++ "_" ++ str_bool include_word_analysis
        ++ "_" ++ str_bool include_sentence_analysis in
      match connection_cache s !! cache_key with
      | Some result =>
          ([ws_json result],
           track (current_time env) text text_length s, r, svc, [])
      | None =>
          let global_cache_key :=
            cache_key_of text include_word_analysis
              include_sentence_analysis in
          match get_from_cache (ws_get_ok env) r global_cache_key with
          | Some cached_result =>
              let result := FromCache cached_result in
              let cc := <[cache_key := result]> (connection_cache s) in
              let cc := if (20 <? size cc)%nat then ∅ else cc in
              ([ws_json result],
               track (current_time env) text text_length
                 (with_connection_cache cc s),
               r, svc, [])
          | None =>
              let is_incremental :=
                (len text >? 1000) || Py.ltb time_since_last (5 # 10) in
              if is_incremental then
                let '(rd, svc) :=
                  ReadabilityService.get_readability svc text in
                let s := with_readability_data rd s in
                let initial_result :=
                  {| readability := rd;
                     recommendations := None;
                     text_analysis_data := None;
                     cached := false;
                     partial := Some true |} in
                if len text >? 10000 then
                  ([ws_json (Built initial_result)],
                   track (current_time env) text text_length s, r, svc,
                   [process_detailed_analysis text include_word_analysis
                      include_sentence_analysis global_cache_key])
                else
                  let '(replies, s, r, svc) :=
                    process_normally cfg s m env text time_since_last
                      significant_change cache_key global_cache_key r svc in
                  (ws_json (Built initial_result) :: replies, s, r, svc, [])
              else
                let '(replies, s, r, svc) :=
                  process_normally cfg s m env text time_since_last
                    significant_change cache_key global_cache_key r svc in
                (replies, s, r, svc, [])
          end
      end.

End WithCollaborators.

End Main.

(* ===================================================================== *)
(** ** The sessions a WebSocket connection can be in                      *)
(* ===================================================================== *)

Module MainSpec.

Section WithCollaborators.
Context `{Collaborators}.

(** The session part of what one iteration returns. *)
Definition session_after
    (out : list Main.ws_reply * Main.session * Main.redis
           * ReadabilityService.t * list Main.task) : Main.session :=
  snd (fst (fst (fst out))).

(** The sessions reachable from the opening of a connection by
    receiving messages, whatever the surroundings do. *)
Inductive ws_reachable : Main.session -> Prop :=
| ws_opened (t0 : Q) : ws_reachable (Main.open_session t0)
| ws_received (cfg : Main.config) (s : Main.session) (m : Main.message)
    (env : Main.ws_env) (r : Main.redis) (svc : ReadabilityService.t) :
    ws_reachable s ->
    ws_reachable (session_after (Main.websocket_message cfg s m env r svc)).

(** Some message of the session has been processed. *)
Definition processed (s : Main.session) : Prop :=
  Main.last_text s <> "".

End WithCollaborators.

End MainSpec.

(* ===================================================================== *)
(** ** Notions used to state the properties                               *)
(* ===================================================================== *)

Module Spec.

(** [r] is [v] rounded to [ndigits] decimals: a multiple of
    [10^-ndigits] that is at most half a unit of the last decimal away
    from [v].  Nothing is said about which neighbour a tie takes. *)
Definition rounded_to (ndigits : nat) (v r : Q) : Prop :=
  (exists k : Z, (r == inject_Z k / inject_Z (Py.pow10 ndigits))%Q)
  /\ (Qabs (v - r) <= 1 / (2 * inject_Z (Py.pow10 ndigits)))%Q.

(** The words of length strictly greater than 6. *)
Definition long_words (words : list string) : list string :=
  List.filter (fun w => (6 <? String.length w)%nat) words.

(** The words of length 7 or more. *)
Definition words_of_7_or_more (words : list string) : list string :=
  List.filter (fun w => (7 <=? String.length w)%nat) words.

(** LIX = W/S + 100 L/W *)
Definition lix_value (W S L : Z) : Q :=
  (inject_Z W / inject_Z S + 100 * inject_Z L / inject_Z W)%Q.

(** RIX = L/S *)
Definition rix_value (L S : Z) : Q := (inject_Z L / inject_Z S)%Q.

(** The position of the band of [x] among bands delimited by the
    ascending [thresholds]: the number of thresholds that [x] has
    reached. *)
Fixpoint band_position (thresholds : list Q) (x : Q) : nat :=
  match thresholds with
  | [] => O
  | th :: rest =>
      if Qle_bool th x then S (band_position rest x) else O
  end.

Definition lix_thresholds : list Q := [20; 30; 40; 50]%Q.
Definition rix_thresholds : list Q := [15 # 10; 3; 45 # 10; 6]%Q.

(** The band labels of the two metrics, easiest first. *)
Definition lix_labels : list string :=
  ["svært lett"; "lett"; "middels"; "vanskelig"; "svært vanskelig"].
Definition rix_labels : list string :=
  ["Svært lett"; "Lett"; "Middels"; "Vanskelig"; "Svært vanskelig"].

(** The states of a LIX metric instance that the service can bring
    about: [classify] is only ever called on a value returned by
    [compute], which has one decimal. *)
Inductive lix_served : LixMetric.t -> Prop :=
| lix_served_init : lix_served LixMetric.init
| lix_served_classify (m : LixMetric.t) (x : Q) :
    lix_served m ->
    lix_served (snd (LixMetric.classify m (Py.round x 1))).

(** The states of the readability service reachable by calls of
    [get_readability]. *)
Inductive served : ReadabilityService.t -> Prop :=
| served_init : served ReadabilityService.init
| served_get (cls : ReadabilityService.t) (text : string) :
    served cls ->
    served (snd (ReadabilityService.get_readability cls text)).

(** Every entry of a classification cache is the classification of
    its key. *)
Definition lix_cache_sound (cache : list (Q * LixMetric.classification))
  : Prop :=
  List.Forall (fun kc => snd kc = LixMetric.classify_score (fst kc)) cache.

(** A text that [get_readability] analyses: neither empty nor blank. *)
Definition analysable (text : string) : Prop :=
  negb (Py.truthy text) || Py.isspace text = false.

(** The analysis of a text on its own: what a service that has seen no
    other text returns for it. *)
Definition own_analysis (text : string) : ReadabilityService.result :=
  fst (ReadabilityService.get_readability ReadabilityService.init text).

(** Every entry of a result cache is the analysis of some analysable
    text with that key. *)
Definition result_cache_sound
    (cache : list (string * ReadabilityService.result)) : Prop :=
  List.Forall
    (fun kr => exists t : string,
         ReadabilityService._get_cache_key t = fst kr
         /\ analysable t /\ snd kr = own_analysis t)
    cache.

(** No character of [s] is an underscore. *)
Fixpoint underscore_free (s : string) : bool :=
  match s with
  | EmptyString => true
  | String c s' => negb (nat_of_ascii c =? 95)%nat && underscore_free s'
  end.

(** What [get_readability] keeps of a result cache before it stores
    a new entry. *)
Definition after_eviction
    (cache : list (string * ReadabilityService.result))
  : list (string * ReadabilityService.result) :=
  if (ReadabilityService._MAX_CACHE_SIZE <=? List.length cache)%nat
  then List.skipn (ReadabilityService._MAX_CACHE_SIZE / 4) cache
  else cache.

(** The text that the combined description falls back to. *)
Definition fallback_description (lix_category rix_category : string) : string :=
  "Teksten har varierende lesbarhet: LIX-nivå " ++ lix_category
  ++ ", RIX-nivå " ++ rix_category ++ ".".

(** A recommendation without its examples. *)
Definition without_examples (r : ReadabilityRecommender.recommendation)
  : ReadabilityRecommender.recommendation :=
  ReadabilityRecommender.mk_rec
    (ReadabilityRecommender.type r) (ReadabilityRecommender.title r)
    (ReadabilityRecommender.description r)
    (ReadabilityRecommender.suggestion r)
    (ReadabilityRecommender.impact r) [].

(** The purpose named by the user context of the metrics, if any. *)
Definition purpose (m : ReadabilityRecommender.metrics) : option string :=
  match ReadabilityRecommender.m_user_context m with
  | Some d => d !! "purpose"
  | None => None
  end.

(** None of the eight rules of the recommender fires. *)
Definition no_rule_fires (m : ReadabilityRecommender.metrics) : Prop :=
  let lix := ReadabilityRecommender.get0 (ReadabilityRecommender.m_lix_score m) in
  let rix := ReadabilityRecommender.get0 (ReadabilityRecommender.m_rix_score m) in
  let asl :=
    ReadabilityRecommender.get0
      (ReadabilityRecommender.m_avg_sentence_length m) in
  let lwp :=
    ReadabilityRecommender.get0
      (ReadabilityRecommender.m_long_words_percentage m) in
  (asl <= 18)%Q /\ (lwp <= 25)%Q /\ (lix <= 40)%Q /\ (lix <= 50)%Q
  /\ (lix <= 45)%Q
  /\ ~ (purpose m = Some "education" /\ (35 < lix)%Q)
  /\ ~ (purpose m = Some "business" /\ (45 < lix)%Q)
  /\ (rix <= 4)%Q.

(** The reports made to a circuit breaker by a run of guarded calls:
    [true] for a call that returns, [false] for one that raises.  Each
    call reads the clock twice. *)
Fixpoint guarded_calls (calls : list (Q * Q * bool)) (cb : CircuitBreaker.t)
  : CircuitBreaker.t :=
  match calls with
  | [] => cb
  | (now, later, func) :: rest =>
      guarded_calls rest (snd (CircuitBreaker.call now later func cb))
  end.

(** A run of failures reported one after the other, at the given
    times. *)
Definition failures_at (times : list Q) (cb : CircuitBreaker.t)
  : CircuitBreaker.t :=
  List.fold_left (fun cb now => CircuitBreaker.failure now cb) times cb.

(** The states of the breaker after each call of a run. *)
Fixpoint states_along (calls : list (Q * Q * bool)) (cb : CircuitBreaker.t)
  : list CircuitBreaker.CircuitState :=
  match calls with
  | [] => []
  | (now, later, func) :: rest =>
      let cb := snd (CircuitBreaker.call now later func cb) in
      CircuitBreaker._state cb :: states_along rest cb
  end.

(** The length of the longest run of consecutive failures. *)
Fixpoint longest_failure_run (calls : list (Q * Q * bool)) (current : nat)
  : nat :=
  match calls with
  | [] => current
  | (_, _, true) :: rest => Nat.max current (longest_failure_run rest 0)
  | (_, _, false) :: rest => longest_failure_run rest (S current)
  end.

End Spec.

(* ===================================================================== *)
(** ** Concrete inputs used in the examples                               *)
(* ===================================================================== *)

Module Samples.

Fixpoint repeat_string (n : nat) (s : string) : string :=
  match n with
  | O => EmptyString
  | S n' => s ++ repeat_string n' s
  end.

Definition S1_text : string := "Hei. Dette er en test.".

(** Two texts of 103 characters with the same first 100 characters:
    a word after 100 blanks, and blanks only. *)
Definition padded_word : string := repeat_string 100 " " ++ "Hei".
Definition blanks_103 : string := repeat_string 103 " ".

(** Two texts of 107 characters that share their first 100. *)
Definition prefix_100 : string := repeat_string 25 "abc ".
Definition text_long_word : string := prefix_100 ++ "abcdefg".
Definition text_short_words : string := prefix_100 ++ "abc def".

(** Metrics with 30 percent long words and nothing else of note. *)
Definition many_long_words : ReadabilityRecommender.metrics :=
  ReadabilityRecommender.mk_metrics
    (Some 10%Q) (Some 1%Q) (Some 10%Q) (Some 30%Q) None.

Definition all_zero : ReadabilityRecommender.metrics :=
  ReadabilityRecommender.mk_metrics
    (Some 0%Q) (Some 0%Q) (Some 0%Q) (Some 0%Q) None.

(** A breaker with the default parameters. *)
Definition default_breaker : CircuitBreaker.t :=
  CircuitBreaker.__init__ "redis"
    CircuitBreaker.default_max_failures
    CircuitBreaker.default_reset_timeout
    CircuitBreaker.default_failure_threshold_percentage.

(** Nine guarded calls, one per second, that fail and succeed in
    turn. *)
Definition alternating_calls : list (Q * Q * bool) :=
  [ (1, 1, false); (2, 2, true); (3, 3, false); (4, 4, true);
    (5, 5, false); (6, 6, true); (7, 7, false); (8, 8, true);
    (9, 9, false) ]%Q.

(** Stand-ins for the collaborators, used to run the handlers on
    concrete requests: a digest of 32 characters that depends on the
    length of the text only, and a text analysis that is its two
    statistics. *)
Definition stand_in : Collaborators :=
  {| md5_hexdigest :=
       fun text =>
         Py.slice_to 32
           (Py.str_of_nat (String.length text) ++ repeat_string 32 "0");
     text_analysis := (Q * Q)%type;
     TextAnalysisService_analyze_text := fun _ _ => Some (12%Q, 20%Q);
     TextAnalysisService_get_basic_statistics := fun _ => Some (12%Q, 20%Q);
     statistics_avg_sentence_length := fst;
     statistics_long_words_percentage := snd;
     pop_word_analysis := fun ta => ta;
     pop_sentence_analysis := fun ta => ta |}.

Definition empty_store : @Main.redis stand_in :=
  @Main.mk_redis stand_in ∅ ∅.

(** Scenario S3: two items, the second one empty, priority 15. *)
Definition batch_S3 : Main.BatchTextRequest :=
  Main.mk_batch_request
    [ {[ "id" := "a"; "content" := "Hei. Dette er en test." ]};
      {[ "id" := "b"; "content" := "" ]} ]
    (Some 15).

Definition empty_batch : Main.BatchTextRequest :=
  Main.mk_batch_request [] (Some 1).

Definition batch_env_ok : Main.batch_env :=
  Main.mk_batch_env "123e4567-e89b-42d3-a456-426614174000" true true true.

(** A text of 20001 characters and a request for it. *)
Definition large_text : string := repeat_string (20 * 1000 + 1) "a".

Definition large_request : Main.TextRequest :=
  Main.mk_text_request large_text (Some false) (Some true) None.

Definition analyze_env_ok : Main.analyze_env :=
  Main.mk_analyze_env 1700000000%N true true true.

(** A session in which "Hei. Dette er en test." was processed: the
    first message of a connection opened at time 0, received at time 1
    and finished at time 2, under low load. *)
Definition first_message : Main.message :=
  Main.mk_message S1_text false false None.

Definition ws_env_at (t : Q) : Main.ws_env :=
  Main.mk_ws_env t (1 # 10) (3 # 10) true true (t + 1).

Definition session_after_first : @Main.session stand_in :=
  @MainSpec.session_after stand_in
    (@Main.websocket_message stand_in Main.default_config
       (@Main.open_session stand_in 0) first_message (ws_env_at 1)
       empty_store ReadabilityService.init).

(** A second message, one character longer, a tenth of a second after
    the first one was finished. *)
Definition second_message : Main.message :=
  Main.mk_message "Hei. Dette er en test.." false false None.

End Samples.

(* ===================================================================== *)
(** ** Further notions used to state properties *)
(* ===================================================================== *)

Module Notions.

(** Every character of [s] is a word character. *)
Fixpoint all_word_chars (s : string) : bool :=
  match s with
  | EmptyString => true
  | String c s' => Py.isword_char c && all_word_chars s'
  end.

(** No character of [s] is one of the three sentence terminators. *)
Fixpoint terminator_free (s : string) : bool :=
  match s with
  | EmptyString => true
  | String c s' => negb (ReadabilityService.is_terminator c) && terminator_free s'
  end.

(** The number of characters of a list of strings. *)
Fixpoint total_length (l : list string) : nat :=
  match l with
  | [] => O
  | s :: rest => (String.length s + total_length rest)%nat
  end.

(** The figures of an analysis fit together. *)
Definition consistent (r : ReadabilityService.result) : Prop :=
  exists st : ReadabilityService.statistics,
    ReadabilityService.text_statistics r = Some st
    /\ 0 <= ReadabilityService.word_count st
    /\ 1 <= ReadabilityService.sentence_count st
    /\ 0 <= ReadabilityService.long_words_count st
         <= ReadabilityService.word_count st
    /\ (0 <= ReadabilityService.avg_sentence_length st
        <= inject_Z (ReadabilityService.word_count st))%Q
    /\ (0 <= ReadabilityService.long_words_percentage st <= 100)%Q
    /\ (0 <= ReadabilityService.score (ReadabilityService.lix r)
        <= inject_Z (ReadabilityService.word_count st) + 100)%Q
    /\ (0 <= ReadabilityService.score (ReadabilityService.rix r)
        <= inject_Z (ReadabilityService.long_words_count st))%Q.

End Notions.

(* ===================================================================== *)
(** ** services/metrics/lix_metric.py: class RixMetric, the class of
       that module that the package does not export *)
Module LegacyRixMetric.

Record classification := mk_classification {
  category : string;
  description : string;
  audience : string;
  thresholds : list (string * Q);
  improvement_tips : list string
}.

Definition th_very_easy : Q := 18 # 10.
Definition th_easy : Q := 28 # 10.
Definition th_medium : Q := 37 # 10.
Definition th_difficult : Q := 48 # 10.
Definition th_very_difficult : Q := 55 # 10.

Definition LONG_WORD_THRESHOLD : nat := 6.

Record t := mk { _classification_cache : list (Q * classification) }.

Definition init : t := {| _classification_cache := [] |}.

(** [sum(1 for word in words if len(word) > self.LONG_WORD_THRESHOLD)] *)
Fixpoint count_long (words : list string) : Z :=
  match words with
  | [] => 0
  | word :: rest =>
      (if (LONG_WORD_THRESHOLD <? String.length word)%nat then 1 else 0)
      + count_long rest
  end.

Definition compute (words : list string) (sentence_count : Z) : Q :=
  match words with
  | [] => 0%Q
  | _ :: _ =>
      if sentence_count =? 0 then 0%Q
      else
        let long_words_count := count_long words in
        let rix_score :=
          (inject_Z long_words_count / inject_Z sentence_count)%Q in
        Py.round rix_score 2
  end.

Definition thresholds_map : list (string * Q) :=
  [ ("svært lett", th_very_easy);
    ("lett", th_easy);
    ("middels", th_medium);
    ("vanskelig", th_difficult);
    ("svært vanskelig", th_very_difficult) ].

Definition classify_score (score : Q) : classification :=
  if Py.ltb score th_very_easy then
    mk_classification "svært lett"
      "Teksten har få lange ord per setning, noe som gjør den svært lettlest."
      "Alle lesere, inkludert barn og nybegynnere."
      thresholds_map
      ["Teksten er allerede svært lettlest."]
  else if Py.ltb score th_easy then
    mk_classification "lett"
      "Teksten har en god balanse av korte og lange ord."
      "Generelt publikum, inkludert ungdomsskoleelever."
      thresholds_map
      ["Teksten er allerede lettlest."]
  else if Py.ltb score th_medium then
    mk_classification "middels"
      "Teksten har en del lange ord, men er fortsatt lesbar for de fleste."
      "Voksne lesere og videregående skoleelever."
      thresholds_map
      ["Vurder å erstatte noen lange ord med kortere alternativer."]
  else if Py.ltb score th_difficult then
    mk_classification "vanskelig"
      "Teksten har mange lange ord, noe som gjør den krevende å lese."
      "Lesere med god lesekompetanse, høyere utdanning."
      thresholds_map
      ["Erstatt noen lange ord med kortere alternativer.";
       "Sørg for at vanskelige begreper forklares.";
       "Varier mellom korte og lange ord for bedre flyt."]
  else
    mk_classification "svært vanskelig"
      "Teksten har svært mange lange ord per setning, noe som gjør den kompleks."
      "Spesialister, akademikere, avanserte lesere."
      thresholds_map
      ["Bruk flere korte ord for å balansere teksten.";
       "Del setninger med mange lange ord.";
       "Forklar eller definer vanskelige begreper."].

Fixpoint cache_get (key : Q) (cache : list (Q * classification))
  : option classification :=
  match cache with
  | [] => None
  | (k, v) :: rest => if Qeq_bool k key then Some v else cache_get key rest
  end.

Definition classify (self : t) (score : Q) : classification * t :=
  let cache_key := Py.round score 2 in
  match cache_get cache_key (_classification_cache self) with
  | Some cached => (cached, self)
  | None =>
      let result := classify_score score in
      (result,
       {| _classification_cache :=
            (_classification_cache self ++ [(cache_key, result)])%list |})
  end.

End LegacyRixMetric.

(* ===================================================================== *)
(** ** The states a LIX metric instance can be in *)
(* ===================================================================== *)

Module Reach.

(** The states of a LIX metric instance reachable by calls of
    [classify] on any scores. *)
Inductive lix_reachable : LixMetric.t -> Prop :=
| lix_reachable_init : lix_reachable LixMetric.init
| lix_reachable_classify (m : LixMetric.t) (x : Q) :
    lix_reachable m -> lix_reachable (snd (LixMetric.classify m x)).

(** Every entry of a classification cache is the classification of a
    score that rounds to its key. *)
Definition lix_cache_rounded (cache : list (Q * LixMetric.classification))
  : Prop :=
  List.Forall
    (fun kc => exists y : Q,
         Py.round y 1 = fst kc /\ snd kc = LixMetric.classify_score y)
    cache.

(** The states that a LIX metric instance can be in after the state
    [m]: [m] itself and what any further calls of [classify] make of
    it. *)
Inductive lix_later (m : LixMetric.t) : LixMetric.t -> Prop :=
| lix_later_now : lix_later m m
| lix_later_classify (m' : LixMetric.t) (z : Q) :
    lix_later m m' -> lix_later m (snd (LixMetric.classify m' z)).

End Reach.

(* ===================================================================== *)
(** ** The types of the recommendations by rule *)
(* ===================================================================== *)

Module Advice.

(** The types of the recommendations that the rules append, in the
    order of the rules, given which conditions hold: the five
    numeric tests in the order of the source, the purpose rule that
    applies, if any, and the RIX test. *)
Definition rule_types (long_sentences long_words lix40 lix50 lix45 : bool)
    (purpose_rule : option string) (rix4 : bool) : list string :=
  ((if long_sentences then ["sentence_structure"] else [])
   ++ (if long_words then ["word_complexity"] else [])
   ++ (if lix40 then ["writing_style"; "flow_improvement"] else [])
   ++ (if lix50 then ["technical_language"; "structure_improvement"] else [])
   ++ (if lix45 then ["visual_aids"] else [])
   ++ match purpose_rule with Some ty => [ty] | None => [] end
   ++ (if rix4 then ["rix_recommendation"] else []))%list.

End Advice.

(* ===================================================================== *)
(** ** The states a circuit breaker can be in *)
(* ===================================================================== *)

Module BreakerReach.

(** The states a breaker built by [__init__] can get into by reads of
    the property [state] and calls of [success], [failure] and
    [reset]; [can_execute] and a decorated call are made of these. *)
Inductive reachable (cb0 : CircuitBreaker.t) : CircuitBreaker.t -> Prop :=
| reach_init : reachable cb0 cb0
| reach_state (now : Q) (cb : CircuitBreaker.t) :
    reachable cb0 cb -> reachable cb0 (snd (CircuitBreaker.state now cb))
| reach_success (cb : CircuitBreaker.t) :
    reachable cb0 cb -> reachable cb0 (CircuitBreaker.success cb)
| reach_failure (now : Q) (cb : CircuitBreaker.t) :
    reachable cb0 cb -> reachable cb0 (CircuitBreaker.failure now cb)
| reach_reset (cb : CircuitBreaker.t) :
    reachable cb0 cb -> reachable cb0 (CircuitBreaker.reset cb).

End BreakerReach.

(* ===================================================================== *)
(** ** main.py: GET /task/{task_id} and the detailed analysis that a
       WebSocket session schedules for a very long text *)
Module Polling.

Section WithCollaborators.
Context `{Collaborators}.

(** What [get_task_status] answers: the result of a completed task,
    the stored status, a stored object of another kind that has a
    [status] entry, the 404 of an unknown task, or the exception
    raised on a stored object without a [status] entry. *)
Inductive task_reply :=
| TaskResult (result : Main.analysis_record)
| TaskStatus (status : Main.task_status)
| TaskOther (j : Main.job_data)
| TaskNotFound (status_code : Z) (detail : string)
| TaskUnhandled (exception : string).

Definition get_task_status (ok : bool) (r : Main.redis) (task_id : string)
  : task_reply :=
  let task_status_key := "task_status:" ++ task_id in
  match Main.get_from_cache ok r task_status_key with
  | None => TaskNotFound 404 ("Task " ++ task_id ++ " not found")
  | Some (Main.VTaskStatus status) =>
      if String.eqb (Main.task_state status) "completed" then
        match Main.task_result status with
        | Some result => TaskResult result
        | None => TaskStatus status
        end
      else TaskStatus status
  | Some (Main.VJob j) => TaskOther j
  | Some (Main.VAnalysis _) => TaskUnhandled "KeyError"
  | Some (Main.VTexts _) => TaskUnhandled "TypeError"
  end.

(** The coroutine [process_detailed_analysis]; every exception is
    logged and dropped. *)
Definition process_detailed_analysis (cfg : Main.config) (text : string)
    (include_word_analysis include_sentence_analysis : bool)
    (cache_key : string) (set_ok : bool)
    (r : Main.redis) (svc : ReadabilityService.t)
  : Main.redis * ReadabilityService.t :=
  let '(readability_data, svc) :=
    ReadabilityService.get_readability svc text in
  match TextAnalysisService_analyze_text text false with
  | None => (r, svc)
  | Some ta =>
      let ta :=
        if negb include_word_analysis then pop_word_analysis ta else ta in
      let ta :=
        if negb include_sentence_analysis then pop_sentence_analysis ta
        else ta in
      let recs :=
        ReadabilityRecommender.generate
          (Main.recommender_input readability_data ta None) false in
      let result :=
        {| Main.readability := readability_data;
           Main.recommendations := Some recs;
           Main.text_analysis_data := Some ta;
           Main.cached := false;
           Main.partial := Some false |} in
      (Main.set_in_cache set_ok r cache_key (Main.VAnalysis result)
         (Main.get_cache_ttl cfg text), svc)
  end.

End WithCollaborators.

End Polling.

(* ===================================================================== *)
(** ** The parts of what one WebSocket iteration returns *)
Module Wire.

Section WithCollaborators.
Context `{Collaborators}.

Definition outcome : Type :=
  (list Main.ws_reply * Main.session * Main.redis
   * ReadabilityService.t * list Main.task)%type.

Definition replies (out : outcome) : list Main.ws_reply :=
  fst (fst (fst (fst out))).

Definition store_after (out : outcome) : Main.redis := snd (fst (fst out)).

Definition service_after (out : outcome) : ReadabilityService.t :=
  snd (fst out).

Definition scheduled (out : outcome) : list Main.task := snd out.

(** The key of the connection cache for a trimmed text and the two
    flags of a message. *)
Definition connection_key (text : string) (w s : bool) : string :=
  Py.slice_to 50 text ++ "_" ++ Py.str_of_nat (String.length text)
  ++ "_" ++ Main.str_bool w ++ "_" ++ Main.str_bool s.

(** The readability block and the text analysis that a reply
    carries, if it is a result built by the session. *)
Definition built (reply : Main.ws_reply) : option Main.analysis_record :=
  match reply with
  | Main.ws_json (Main.Built r) => Some r
  | _ => None
  end.

End WithCollaborators.

End Wire.

(* ===================================================================== *)
(** ** main.py: POST /analyze/stream *)
Module Stream.

(** [text.split('\n\n')]; [cur] is the piece being read, last
    character first. *)
Fixpoint split_paragraphs (s : string) (cur : list ascii) : list string :=
  match s with
  | EmptyString => [Py.string_of_rev cur]
  | String c s' =>
      match s' with
      | String c' s'' =>
          if ReadabilityService.is_newline c && ReadabilityService.is_newline c'
          then Py.string_of_rev cur :: split_paragraphs s'' []
          else split_paragraphs s' (c :: cur)
      | EmptyString => split_paragraphs s' (c :: cur)
      end
  end.

(** [' '.join(l)] *)
Fixpoint join_space (l : list string) : string :=
  match l with
  | [] => ""
  | p :: rest =>
      match rest with
      | [] => p
      | _ :: _ => p ++ " " ++ join_space rest
      end
  end.

(** The list [paragraphs] that the generator works on. *)
Definition paragraphs_of (text : string) : list string :=
  let paragraphs :=
    List.map Py.strip
      (List.filter (fun p => Py.truthy (Py.strip p))
         (split_paragraphs text [])) in
  match paragraphs with
  | [] => [text]
  | _ :: _ => paragraphs
  end.

(** [range(0, n, step)] for a positive [step], produced as the loop
    consumes it; [n] steps are enough. *)
Fixpoint range_from (fuel i n step : nat) : list nat :=
  match fuel with
  | O => []
  | S fuel' =>
      if (i <? n)%nat then i :: range_from fuel' (i + step) n step else []
  end.

Definition range (n step : nat) : list nat := range_from n 0 n step.

(** What every event of a chunk carries. *)
Record chunk_header := mk_header {
  chunk : nat;
  total_chunks : nat;
  progress : Z;
  is_final : bool
}.

Section WithCollaborators.
Context `{Collaborators}.

Inductive sse_event :=
| chunk_result (h : chunk_header)
    (readability : ReadabilityService.result)
    (text_analysis : option text_analysis)
    (recommendations : option (list ReadabilityRecommender.recommendation))
| chunk_error (h : chunk_header)
| processing_completed.

Inductive stream_response :=
| Rejected (status_code : Z) (error : string)
| Streamed (events : list sse_event).

(** [min(100, int((i + chunk_size) / len(paragraphs) * 100))] *)
Definition progress_at (i chunk_size n : nat) : Z :=
  Z.min 100
    (Qfloor (inject_Z (Z.of_nat (i + chunk_size)) / inject_Z (Z.of_nat n)
             * 100)%Q).

(** The body of the loop over [range(0, len(paragraphs), chunk_size)],
    for the start indices still to come. *)
Fixpoint stream_loop (request : Main.TextRequest) (paragraphs : list string)
    (chunk_size total : nat) (starts : list nat) (total_text : string)
    (svc : ReadabilityService.t)
  : list sse_event * ReadabilityService.t :=
  match starts with
  | [] => ([], svc)
  | i :: rest =>
      let current_paragraphs :=
        List.firstn chunk_size (List.skipn i paragraphs) in
      let chunk := join_space current_paragraphs in
      let total_text :=
        total_text ++ (if Py.truthy total_text then " " else "") ++ chunk in
      if negb (Py.truthy (Py.strip chunk)) then
        stream_loop request paragraphs chunk_size total rest total_text svc
      else
        let n := List.length paragraphs in
        let progress := progress_at i chunk_size n in
        let chunk_number := (i / chunk_size + 1)%nat in
        let final := (n <=? i + chunk_size)%nat in
        let h := mk_header chunk_number total progress final in
        let '(readability_data, svc) :=
          ReadabilityService.get_readability svc total_text in
        let detailed_analysis := final || (chunk_number mod 3 =? 0)%nat in
        let event :=
          if detailed_analysis then
            match TextAnalysisService_analyze_text total_text true with
            | None => chunk_error h
            | Some ta =>
                let ta :=
                  if negb (Main.flag (Main.include_word_analysis request))
                  then pop_word_analysis ta else ta in
                let ta :=
                  if negb (Main.flag (Main.include_sentence_analysis request))
                  then pop_sentence_analysis ta else ta in
                if final || (progress mod 50 =? 0) then
                  chunk_result h readability_data (Some ta)
                    (Some (ReadabilityRecommender.generate
                             (Main.recommender_input readability_data ta
                                (Main.user_context request)) true))
                else chunk_result h readability_data (Some ta) None
            end
          else chunk_result h readability_data None None in
        let '(events, svc) :=
          stream_loop request paragraphs chunk_size total rest total_text svc in
        (event :: events, svc)
  end.

Definition stream_analysis (request : Main.TextRequest)
    (svc : ReadabilityService.t)
  : stream_response * ReadabilityService.t :=
  let text := Py.strip (Main.text request) in
  if negb (Py.truthy text) then (Rejected 400 "No text provided", svc)
  else
    let paragraphs := paragraphs_of text in
    let chunk_size :=
      Nat.min 5 (Nat.max 1 (List.length paragraphs / 10)) in
    let total_chunks :=
      ((List.length paragraphs + chunk_size - 1) / chunk_size)%nat in
    let '(events, svc) :=
      stream_loop request paragraphs chunk_size total_chunks
        (range (List.length paragraphs) chunk_size) "" svc in
    (Streamed (events ++ [processing_completed])%list, svc).

(** The header of an event, if it is the event of a chunk. *)
Definition header_of (e : sse_event) : option chunk_header :=
  match e with
  | chunk_result h _ _ _ | chunk_error h => Some h
  | processing_completed => None
  end.

End WithCollaborators.

End Stream.

(* ===================================================================== *)
(** ** Further concrete inputs used in the examples *)
(* ===================================================================== *)

Module Cases.

(** A request for "Hei. Dette er en test." with the default flags. *)
Definition S1_request : Main.TextRequest :=
  Main.mk_text_request Samples.S1_text (Some false) (Some true) None.

(** Settings under which that text counts as large. *)
Definition eager_config : Main.config :=
  Main.mk_config 3600 7200 1800 10.

(** What the analysis of that request gives with the stand-ins, and
    the store after it. *)
Definition S1_statistics : @text_analysis Samples.stand_in := (12%Q, 20%Q).

Definition S1_result : @Main.analysis_record Samples.stand_in :=
  @Main.mk_record Samples.stand_in
    (Spec.own_analysis Samples.S1_text)
    (Some (ReadabilityRecommender.generate
             (@Main.recommender_input Samples.stand_in
                (Spec.own_analysis Samples.S1_text) S1_statistics None)
             false))
    (Some S1_statistics) false None.

Definition S1_store : @Main.redis Samples.stand_in :=
  @Main.set_in_cache Samples.stand_in true Samples.empty_store
    (@Main.cache_key_of Samples.stand_in Samples.S1_text false true)
    (Main.VAnalysis S1_result)
    (Main.get_cache_ttl Main.default_config Samples.S1_text).

(** The task that the same request becomes under [eager_config], and
    the store after it was accepted. *)
Definition S1_task_id : string := "task-2200000000-1700000000".

Definition S1_accepted_store : @Main.redis Samples.stand_in :=
  @Main.set_in_cache Samples.stand_in true Samples.empty_store
    ("task_status:" ++ S1_task_id)
    (Main.VTaskStatus (Main.mk_task_status "processing" None)) 3600.

(** A request with blanks only. *)
Definition blank_request : Main.TextRequest :=
  Main.mk_text_request "   " (Some false) (Some true) None.

Definition blank_message : Main.message :=
  Main.mk_message "   " false false None.

(** Two messages whose texts of 107 characters share their first 100
    characters. *)
Definition long_word_message : Main.message :=
  Main.mk_message Samples.text_long_word false false None.

Definition short_words_message : Main.message :=
  Main.mk_message Samples.text_short_words false false None.

(** The first iteration of a session on the first of them. *)
Definition first_long_word : @Wire.outcome Samples.stand_in :=
  @Main.websocket_message Samples.stand_in Main.default_config
    (@Main.open_session Samples.stand_in 0) long_word_message
    (Samples.ws_env_at 1) Samples.empty_store ReadabilityService.init.

(** The result that the session builds for it with the stand-ins. *)
Definition long_word_result : @Main.analysis_record Samples.stand_in :=
  @Main.mk_record Samples.stand_in
    (Spec.own_analysis Samples.text_long_word)
    (Some (ReadabilityRecommender.generate
             (@Main.recommender_input Samples.stand_in
                (Spec.own_analysis Samples.text_long_word) S1_statistics
                (Some ∅))
             true))
    (Some S1_statistics) false (Some false).

End Cases.

(* ===================================================================== *)
(** * Properties                                                          *)
(* ===================================================================== *)

Module PyFacts.

Local Open Scope Q_scope.

Lemma round_half_even_close (x : Q) :
  Qabs (x - inject_Z (Py.round_half_even x)) <= 1 # 2.
Proof.
  unfold Py.round_half_even.
  pose proof (Qfloor_le x) as Hlo.
  pose proof (Qlt_floor x) as Hhi.
  rewrite inject_Z_plus in Hhi. change (inject_Z 1) with 1 in Hhi.
  apply Qabs_Qle_condition.
  destruct (Qcompare_spec (x - inject_Z (Qfloor x)) (1 # 2)) as [E|L|G].
  - destruct (Z.even (Qfloor x));
      [|rewrite inject_Z_plus; change (inject_Z 1) with 1]; lra.
  - lra.
  - rewrite inject_Z_plus. change (inject_Z 1) with 1. lra.
Qed.

Lemma pow10_pos (d : nat) : 0 < inject_Z (Py.pow10 d).
Proof.
  unfold Py.pow10. change 0 with (inject_Z 0). rewrite <- Zlt_Qlt.
  apply Z.pow_pos_nonneg; lia.
Qed.

(** [round] does round. *)
Lemma round_rounded (v : Q) (d : nat) : Spec.rounded_to d v (Py.round v d).
Proof.
  unfold Spec.rounded_to, Py.round.
  set (p := inject_Z (Py.pow10 d)).
  assert (Hp : 0 < p) by apply pow10_pos.
  set (k := Py.round_half_even (v * p)).
  split.
  - exists k. apply Qred_correct.
  - rewrite Qred_correct.
    pose proof (round_half_even_close (v * p)) as H. fold k in H.
    apply Qabs_Qle_condition in H. apply Qabs_Qle_condition.
    assert (E : v - inject_Z k / p == (v * p - inject_Z k) / p)
      by (field; lra).
    rewrite E.
    assert (E2 : 1 / (2 * p) == (1 # 2) / p) by (field; lra).
    rewrite E2.
    split.
    + apply Qle_shift_div_l; [exact Hp|].
      assert (E3 : - ((1 # 2) / p) * p == - (1 # 2)) by (field; lra).
      rewrite E3. lra.
    + apply Qle_shift_div_r; [exact Hp|].
      assert (E3 : (1 # 2) / p * p == (1 # 2)) by (field; lra).
      rewrite E3. lra.
Qed.

Lemma round_half_even_proper (x y : Q) :
  x == y -> Py.round_half_even x = Py.round_half_even y.
Proof.
  intros E. unfold Py.round_half_even.
  rewrite (Qfloor_comp x y E).
  assert (E' : x - inject_Z (Qfloor y) == y - inject_Z (Qfloor y))
    by (rewrite E; reflexivity).
  rewrite (Qcompare_comp _ _ E' (1 # 2) (1 # 2) (Qeq_refl _)).
  reflexivity.
Qed.

(** Equal values round to the same canonical fraction. *)
Lemma round_proper (x y : Q) (d : nat) : x == y -> Py.round x d = Py.round y d.
Proof.
  intros E. unfold Py.round.
  rewrite (round_half_even_proper (x * inject_Z (Py.pow10 d))
             (y * inject_Z (Py.pow10 d))); [reflexivity|].
  rewrite E. reflexivity.
Qed.

Lemma round_half_even_Z (k : Z) : Py.round_half_even (inject_Z k) = k.
Proof.
  unfold Py.round_half_even. rewrite Qfloor_Z.
  assert (E : inject_Z k - inject_Z k == 0) by ring.
  rewrite (Qcompare_comp _ _ E (1 # 2) (1 # 2) (Qeq_refl _)).
  reflexivity.
Qed.

(** Rounding a rounded value changes nothing. *)
Lemma round_idempotent (x : Q) (d : nat) :
  Py.round (Py.round x d) d = Py.round x d.
Proof.
  assert (Hp : 0 < inject_Z (Py.pow10 d)) by apply pow10_pos.
  assert (K : Py.round_half_even (Py.round x d * inject_Z (Py.pow10 d))
              = Py.round_half_even (x * inject_Z (Py.pow10 d))).
  { rewrite <- (round_half_even_Z
                 (Py.round_half_even (x * inject_Z (Py.pow10 d)))) at 1.
    apply round_half_even_proper.
    unfold Py.round. rewrite Qred_correct. field. lra. }
  unfold Py.round at 1. rewrite K. reflexivity.
Qed.

Lemma ltb_lt (x y : Q) : Py.ltb x y = true <-> x < y.
Proof.
  unfold Py.ltb. rewrite negb_true_iff.
  split.
  - intros H. apply Qnot_le_lt. intros L.
    apply Qle_bool_iff in L. congruence.
  - intros H. destruct (Qle_bool y x) eqn:E; [|reflexivity].
    apply Qle_bool_iff in E. lra.
Qed.

Lemma ltb_ge (x y : Q) : Py.ltb x y = false <-> y <= x.
Proof.
  unfold Py.ltb. rewrite negb_false_iff. apply Qle_bool_iff.
Qed.

Lemma gtb_gt (x y : Q) : Py.gtb x y = true <-> y < x.
Proof. apply ltb_lt. Qed.

Lemma gtb_le (x y : Q) : Py.gtb x y = false <-> x <= y.
Proof. apply ltb_ge. Qed.

Lemma ltb_proper (x x' y : Q) : x == x' -> Py.ltb x y = Py.ltb x' y.
Proof.
  intros E. destruct (Py.ltb x' y) eqn:H.
  - apply ltb_lt. apply ltb_lt in H. lra.
  - apply ltb_ge. apply ltb_ge in H. lra.
Qed.

End PyFacts.

Module MetricFacts.

Local Open Scope Q_scope.

Lemma rounded_to_proper (d : nat) (v v' r : Q) :
  v == v' -> Spec.rounded_to d v r -> Spec.rounded_to d v' r.
Proof.
  intros E [Hk Hclose]. split; [exact Hk|].
  rewrite <- E. exact Hclose.
Qed.

(** The generator expression of [LixMetric.compute] counts the words
    longer than six characters. *)
Lemma count_long_filter (words : list string) :
  LixMetric.count_long words
  = Z.of_nat (List.length (Spec.long_words words)).
Proof.
  induction words as [|w ws IH]; [reflexivity|].
  cbn [LixMetric.count_long Spec.long_words List.filter].
  fold (Spec.long_words ws). rewrite IH.
  unfold LixMetric.LONG_WORD_THRESHOLD.
  destruct (6 <? String.length w)%nat; cbn [List.length]; lia.
Qed.

Lemma lix_compute_nonempty (w : string) (ws : list string) (s : Z) :
  s <> 0%Z ->
  LixMetric.compute (w :: ws) s
  = Py.round
      (Spec.lix_value (Z.of_nat (List.length (w :: ws))) s
         (Z.of_nat (List.length (Spec.long_words (w :: ws))))) 1.
Proof.
  intros Hs. unfold LixMetric.compute.
  destruct (Z.eqb_spec s 0) as [-> | _]; [congruence|].
  rewrite count_long_filter.
  apply PyFacts.round_proper.
  unfold Spec.lix_value, Qdiv. ring.
Qed.

(** *** RIX *)

Lemma length_gt_min_length (n : nat) :
  Py.gtb (inject_Z (Z.of_nat n)) RIXMetric.default_min_length
  = (7 <=? n)%nat.
Proof.
  unfold Py.gtb, Py.ltb, RIXMetric.default_min_length, Qle_bool.
  cbn [Qnum Qden inject_Z].
  destruct (Nat.leb_spec 7 n); destruct (Z.leb_spec (Z.of_nat n * 10) (69 * 1));
    simpl; try reflexivity; lia.
Qed.

Lemma get_long_words_default (words : list string) :
  RIXMetric.get_long_words words RIXMetric.default_min_length
  = Spec.words_of_7_or_more words.
Proof.
  unfold RIXMetric.get_long_words, Spec.words_of_7_or_more.
  induction words as [|w ws IH]; [reflexivity|].
  cbn [List.filter]. rewrite IH, length_gt_min_length. reflexivity.
Qed.

Lemma rix_classify_band (x : Q) :
  RIXMetric.category (RIXMetric.classify x)
  = nth (Spec.band_position Spec.rix_thresholds x) Spec.rix_labels ""%string.
Proof.
  unfold RIXMetric.classify, Spec.rix_thresholds, Spec.band_position, Py.ltb,
    RIXMetric.th_very_easy, RIXMetric.th_easy, RIXMetric.th_medium,
    RIXMetric.th_difficult.
  destruct (Qle_bool (15 # 10) x); [|reflexivity].
  destruct (Qle_bool 3 x); [|reflexivity].
  destruct (Qle_bool (45 # 10) x); [|reflexivity].
  destruct (Qle_bool 6 x); reflexivity.
Qed.

Lemma lix_classify_score_band (x : Q) :
  LixMetric.category (LixMetric.classify_score x)
  = nth (Spec.band_position Spec.lix_thresholds x) Spec.lix_labels ""%string.
Proof.
  unfold LixMetric.classify_score, Spec.lix_thresholds, Spec.band_position,
    Py.ltb, LixMetric.th_very_easy, LixMetric.th_easy, LixMetric.th_medium,
    LixMetric.th_difficult.
  destruct (Qle_bool 20 x); [|reflexivity].
  destruct (Qle_bool 30 x); [|reflexivity].
  destruct (Qle_bool 40 x); [|reflexivity].
  destruct (Qle_bool 50 x); reflexivity.
Qed.

Lemma lix_classify_score_proper (x y : Q) :
  x == y -> LixMetric.classify_score x = LixMetric.classify_score y.
Proof.
  intros E. unfold LixMetric.classify_score.
  rewrite !(PyFacts.ltb_proper x y) by exact E. reflexivity.
Qed.

Lemma cache_get_sound (cache : list (Q * LixMetric.classification))
    (key : Q) (c : LixMetric.classification) :
  Spec.lix_cache_sound cache ->
  LixMetric.cache_get key cache = Some c ->
  c = LixMetric.classify_score key.
Proof.
  induction cache as [|[k v] rest IH]; intros Hs Hg; [discriminate|].
  inversion Hs as [|? ? Hhd Htl]; subst.
  cbn [LixMetric.cache_get] in Hg.
  destruct (Qeq_bool k key) eqn:E.
  - injection Hg as <-. cbn [fst snd] in Hhd. rewrite Hhd.
    apply lix_classify_score_proper. apply Qeq_bool_eq. exact E.
  - apply IH; assumption.
Qed.

Lemma lix_served_sound (m : LixMetric.t) :
  Spec.lix_served m -> Spec.lix_cache_sound (LixMetric._classification_cache m).
Proof.
  induction 1 as [|m x Hm IH]; [constructor|].
  unfold LixMetric.classify.
  destruct (LixMetric.cache_get _ _); [exact IH|].
  cbn [snd LixMetric._classification_cache].
  apply Forall_app. split; [exact IH|].
  constructor; [|constructor].
  cbn [fst snd]. rewrite PyFacts.round_idempotent. reflexivity.
Qed.

(** On a served instance the cache is invisible for one-decimal
    scores. *)
Lemma lix_classify_served (m : LixMetric.t) (x : Q) :
  Spec.lix_served m ->
  fst (LixMetric.classify m (Py.round x 1))
  = LixMetric.classify_score (Py.round x 1).
Proof.
  intros Hm. unfold LixMetric.classify.
  destruct (LixMetric.cache_get _ _) eqn:E; [|reflexivity].
  cbn [fst].
  rewrite (cache_get_sound _ _ _ (lix_served_sound m Hm) E).
  rewrite PyFacts.round_idempotent. reflexivity.
Qed.

(** C3.  The RIX kernel returns the number of words of length 7 or
    more divided by the sentence count, rounded to two decimals, for
    every nonzero sentence count, and 0 for the sentence count 0.  The
    RIX band of a score is its position among the thresholds 1.5, 3.0,
    4.5 and 6.0, exactly as the LIX band of a score is its position
    among 20, 30, 40 and 50. *)
Theorem rix_kernel_and_bands :
  (forall (words : list string) (sentence_count : Z),
      sentence_count <> 0%Z ->
      Spec.rounded_to 2
        (Spec.rix_value
           (Z.of_nat (List.length (Spec.words_of_7_or_more words)))
           sentence_count)
        (RIXMetric.compute words sentence_count))
  /\ (forall words : list string, RIXMetric.compute words 0 = 0)
  /\ (forall x : Q,
         RIXMetric.category (RIXMetric.classify x)
         = nth (Spec.band_position Spec.rix_thresholds x)
             Spec.rix_labels ""%string)
  /\ (forall (m : LixMetric.t) (x : Q),
         Spec.lix_served m ->
         LixMetric.category (fst (LixMetric.classify m (Py.round x 1)))
         = nth (Spec.band_position Spec.lix_thresholds (Py.round x 1))
             Spec.lix_labels ""%string).
Proof.
  split; [|split; [|split]].
  - intros words s Hs. unfold RIXMetric.compute.
    destruct (Z.eqb_spec s 0) as [-> | _]; [congruence|].
    rewrite get_long_words_default.
    apply PyFacts.round_rounded.
  - reflexivity.
  - apply rix_classify_band.
  - intros m x Hm. rewrite lix_classify_served by exact Hm.
    apply lix_classify_score_band.
Qed.

Lemma rix_kernel_and_bands_witness :
  Spec.rounded_to 2 (Spec.rix_value 2 3)
    (RIXMetric.compute
       ["Implementeringen"; "av"; "funksjonaliteten"; "krever"]%string 3)
  /\ LixMetric.category
       (fst (LixMetric.classify
               (snd (LixMetric.classify LixMetric.init (Py.round 20 1)))
               (Py.round 35 1)))
     = "middels"%string.
Proof.
  split.
  - apply (proj1 rix_kernel_and_bands
             ["Implementeringen"; "av"; "funksjonaliteten"; "krever"]%string
             3%Z).
    lia.
  - refine (eq_trans
              (proj2 (proj2 (proj2 rix_kernel_and_bands))
                 (snd (LixMetric.classify LixMetric.init (Py.round 20 1)))
                 35 _) _).
    + apply Spec.lix_served_classify. apply Spec.lix_served_init.
    + reflexivity.
Defined.

End MetricFacts.

Module ReadabilityFacts.

Import ReadabilityService.

(** The combined description of two classifications that the metrics
    produce is always the fallback text: the RIX labels are
    capitalised, the LIX labels and [_CATEGORIES] are not. *)
Lemma combined_description_fallback (lix_score rix_score : Q) :
  _generate_combined_description lix_score rix_score
    (LixMetric.classify_score lix_score) (RIXMetric.classify rix_score)
  = Spec.fallback_description
      (LixMetric.category (LixMetric.classify_score lix_score))
      (RIXMetric.category (RIXMetric.classify rix_score)).
Proof.
  unfold _generate_combined_description, LixMetric.classify_score,
    RIXMetric.classify.
  destruct (Py.ltb lix_score LixMetric.th_very_easy);
    [|destruct (Py.ltb lix_score LixMetric.th_easy);
      [|destruct (Py.ltb lix_score LixMetric.th_medium);
        [|destruct (Py.ltb lix_score LixMetric.th_difficult)]]];
  (destruct (Py.ltb rix_score RIXMetric.th_very_easy);
    [|destruct (Py.ltb rix_score RIXMetric.th_easy);
      [|destruct (Py.ltb rix_score RIXMetric.th_medium);
        [|destruct (Py.ltb rix_score RIXMetric.th_difficult)]]]);
  vm_compute; reflexivity.
Qed.

Lemma compute_rounded (words : list string) (s : Z) :
  Py.round (LixMetric.compute words s) 1 = LixMetric.compute words s.
Proof.
  unfold LixMetric.compute.
  destruct words; [reflexivity|].
  destruct (s =? 0)%Z; [reflexivity|].
  apply PyFacts.round_idempotent.
Qed.

Lemma classify_sound (m : LixMetric.t) (x : Q) :
  Spec.lix_cache_sound (LixMetric._classification_cache m) ->
  fst (LixMetric.classify m (Py.round x 1))
  = LixMetric.classify_score (Py.round x 1)
  /\ Spec.lix_cache_sound
       (LixMetric._classification_cache
          (snd (LixMetric.classify m (Py.round x 1)))).
Proof.
  intros Hs. unfold LixMetric.classify.
  destruct (LixMetric.cache_get _ _) eqn:E; cbn [fst snd].
  - split; [|exact Hs].
    rewrite (MetricFacts.cache_get_sound _ _ _ Hs E).
    rewrite PyFacts.round_idempotent. reflexivity.
  - split; [reflexivity|].
    cbn [LixMetric._classification_cache].
    apply List.Forall_app. split; [exact Hs|].
    constructor; [|constructor].
    cbn [fst snd]. rewrite PyFacts.round_idempotent. reflexivity.
Qed.

(** *** The three ways through [get_readability] *)

Lemma get_readability_hit (cls : t) (text : string) (r : result) :
  cache_get (_get_cache_key text) (_result_cache cls) = Some r ->
  get_readability cls text = (r, cls).
Proof. intros H. unfold get_readability. rewrite H. reflexivity. Qed.

Lemma get_readability_blank (cls : t) (text : string) :
  cache_get (_get_cache_key text) (_result_cache cls) = None ->
  negb (Py.truthy text) || Py.isspace text = true ->
  get_readability cls text = (empty_result, cls).
Proof.
  intros H B. unfold get_readability. rewrite H, B. reflexivity.
Qed.

Lemma get_readability_stored (cls : t) (text : string) :
  cache_get (_get_cache_key text) (_result_cache cls) = None ->
  Spec.analysable text ->
  _result_cache (snd (get_readability cls text))
  = (Spec.after_eviction (_result_cache cls)
     ++ [(_get_cache_key text, fst (get_readability cls text))])%list.
Proof.
  intros Hmiss Ha. unfold get_readability.
  rewrite Hmiss. unfold Spec.analysable in Ha. rewrite Ha.
  destruct (LixMetric.classify _ _) as [c m]. reflexivity.
Qed.

Lemma get_readability_miss (cls : t) (text : string) :
  Spec.lix_cache_sound (LixMetric._classification_cache (_lix_metric cls)) ->
  cache_get (_get_cache_key text) (_result_cache cls) = None ->
  Spec.analysable text ->
  fst (get_readability cls text) = Spec.own_analysis text
  /\ Spec.lix_cache_sound
       (LixMetric._classification_cache
          (_lix_metric (snd (get_readability cls text)))).
Proof.
  intros Hs Hmiss Ha. unfold Spec.own_analysis, get_readability.
  rewrite Hmiss. cbn [cache_get _result_cache init].
  unfold Spec.analysable in Ha. rewrite Ha.
  set (words := _extract_words text).
  set (sc := _get_sentence_count text).
  rewrite <- (compute_rounded words sc).
  destruct (classify_sound (_lix_metric cls) (LixMetric.compute words sc) Hs)
    as [E1 E2].
  destruct (LixMetric.classify (_lix_metric cls) _) as [c1 m1] eqn:C1.
  cbn [fst snd] in E1, E2. subst c1.
  cbn [_lix_metric init].
  change (LixMetric.classify LixMetric.init
            (Py.round (LixMetric.compute words sc) 1))
    with (LixMetric.classify_score (Py.round (LixMetric.compute words sc) 1),
          LixMetric.mk
            [(Py.round (Py.round (LixMetric.compute words sc) 1) 1,
              LixMetric.classify_score
                (Py.round (LixMetric.compute words sc) 1))]).
  cbn [fst snd _lix_metric _result_cache].
  split; [reflexivity|exact E2].
Qed.

(** The analysis of a text on its own carries the fallback
    description. *)
Lemma own_analysis_description (text : string) :
  Spec.analysable text ->
  combined_description (Spec.own_analysis text)
  = Spec.fallback_description
      (category (lix (Spec.own_analysis text)))
      (category (rix (Spec.own_analysis text))).
Proof.
  intros Ha. unfold Spec.own_analysis, get_readability.
  cbn [cache_get _result_cache init].
  unfold Spec.analysable in Ha. rewrite Ha.
  cbn [_lix_metric init].
  set (words := _extract_words text).
  set (sc := _get_sentence_count text).
  change (LixMetric.classify LixMetric.init (LixMetric.compute words sc))
    with (LixMetric.classify_score (LixMetric.compute words sc),
          LixMetric.mk
            [(Py.round (LixMetric.compute words sc) 1,
              LixMetric.classify_score (LixMetric.compute words sc))]).
  cbn [fst snd combined_description lix rix category].
  apply combined_description_fallback.
Qed.

(** *** Lookups in the result cache *)

Lemma cache_get_In (key : string) (cache : list (string * result))
    (r : result) :
  cache_get key cache = Some r -> In (key, r) cache.
Proof.
  induction cache as [|[k v] rest IH]; [discriminate|].
  cbn [cache_get]. destruct (String.eqb_spec k key) as [->|_].
  - intros [= ->]. left. reflexivity.
  - intros H. right. apply IH. exact H.
Qed.

Lemma cache_get_skipn (key : string) (n : nat)
    (cache : list (string * result)) :
  cache_get key cache = None -> cache_get key (List.skipn n cache) = None.
Proof.
  revert cache. induction n as [|n IH]; intros cache H; [exact H|].
  destruct cache as [|[k v] rest]; [reflexivity|].
  cbn [List.skipn]. apply IH.
  cbn [cache_get] in H. destruct (String.eqb k key); [discriminate|exact H].
Qed.

Lemma cache_get_after_eviction (key : string)
    (cache : list (string * result)) :
  cache_get key cache = None ->
  cache_get key (Spec.after_eviction cache) = None.
Proof.
  intros H. unfold Spec.after_eviction.
  destruct (_ <=? _)%nat; [apply cache_get_skipn|]; exact H.
Qed.

Lemma cache_get_snoc (key : string) (cache : list (string * result))
    (r : result) :
  cache_get key cache = None ->
  cache_get key (cache ++ [(key, r)])%list = Some r.
Proof.
  induction cache as [|[k v] rest IH]; intros H.
  - cbn. rewrite String.eqb_refl. reflexivity.
  - cbn [cache_get List.app] in *.
    destruct (String.eqb k key); [discriminate|]. apply IH. exact H.
Qed.

Lemma sound_after_eviction (cache : list (string * result)) :
  Spec.result_cache_sound cache ->
  Spec.result_cache_sound (Spec.after_eviction cache).
Proof.
  unfold Spec.result_cache_sound, Spec.after_eviction.
  intros H. destruct (_ <=? _)%nat; [|exact H].
  apply List.Forall_forall. intros x Hx.
  rewrite List.Forall_forall in H. apply H.
  rewrite <- (List.firstn_skipn (_MAX_CACHE_SIZE / 4) cache).
  apply in_or_app. right. exact Hx.
Qed.

(** *** The invariant of the served states *)

Lemma served_sound (cls : t) :
  Spec.served cls ->
  Spec.lix_cache_sound (LixMetric._classification_cache (_lix_metric cls))
  /\ Spec.result_cache_sound (_result_cache cls).
Proof.
  induction 1 as [|cls text Hcls [IHl IHr]].
  - split; constructor.
  - destruct (cache_get (_get_cache_key text) (_result_cache cls)) eqn:Hget.
    + rewrite (get_readability_hit _ _ _ Hget). split; assumption.
    + destruct (negb (Py.truthy text) || Py.isspace text) eqn:Hb.
      * rewrite (get_readability_blank _ _ Hget Hb). split; assumption.
      * destruct (get_readability_miss cls text IHl Hget Hb) as [E1 E2].
        split; [exact E2|].
        rewrite (get_readability_stored cls text Hget Hb).
        apply List.Forall_app. split; [apply sound_after_eviction; exact IHr|].
        constructor; [|constructor].
        exists text. cbn [fst snd]. repeat split; assumption.
Qed.

(** What a served state returns is the sentinel of an empty text or
    the analysis, on its own, of an analysable text with the same
    cache key. *)
Lemma served_result (cls : t) (text : string) :
  Spec.served cls ->
  fst (get_readability cls text) = empty_result
  \/ exists t : string,
       _get_cache_key t = _get_cache_key text
       /\ Spec.analysable t
       /\ fst (get_readability cls text) = Spec.own_analysis t.
Proof.
  intros Hs. destruct (served_sound cls Hs) as [Hl Hr].
  destruct (cache_get (_get_cache_key text) (_result_cache cls)) eqn:Hget.
  - right. rewrite (get_readability_hit _ _ _ Hget). cbn [fst].
    apply cache_get_In in Hget.
    unfold Spec.result_cache_sound in Hr. rewrite List.Forall_forall in Hr.
    apply (Hr _ Hget).
  - destruct (negb (Py.truthy text) || Py.isspace text) eqn:Hb.
    + left. rewrite (get_readability_blank _ _ Hget Hb). reflexivity.
    + right. exists text. repeat split; [exact Hb|].
      apply (get_readability_miss cls text Hl Hget Hb).
Qed.

(** C2.  What the code does where the claim expects a comparison of
    the two bands: in every state the service can reach, the combined
    description of a result is the text for an empty input or the
    fallback text "Teksten har varierende lesbarhet ...", whatever the
    two bands are.  For "Hei. Dette er en test." both metrics give
    their easiest band and the description is the fallback text, not
    the text for two identical bands. *)
Theorem combined_description_ignores_bands :
  (forall (cls : t) (text : string),
      Spec.served cls ->
      let r := fst (get_readability cls text) in
      combined_description r = "Teksten er for kort for analyse."
      \/ combined_description r
         = Spec.fallback_description (category (lix r)) (category (rix r)))
  /\ (let r := fst (get_readability init Samples.S1_text) in
      category (lix r) = "svært lett"
      /\ category (rix r) = "Svært lett"
      /\ Spec.band_position Spec.lix_thresholds (score (lix r)) = 0%nat
      /\ Spec.band_position Spec.rix_thresholds (score (rix r)) = 0%nat
      /\ combined_description r
         = "Teksten har varierende lesbarhet: LIX-nivå svært lett, RIX-nivå Svært lett."
      /\ combined_description r
         <> "Teksten er konsistent svært lettlest og tilgjengelig for alle lesere.").
Proof.
  split.
  - intros cls text Hs r.
    destruct (served_result cls text Hs) as [E|[t [_ [Ha E]]]].
    + left. subst r. rewrite E. reflexivity.
    + right. subst r. rewrite E. apply own_analysis_description. exact Ha.
  - vm_compute. repeat split; try reflexivity. discriminate.
Qed.

Lemma combined_description_ignores_bands_witness :
  let r :=
    fst (get_readability
           (snd (get_readability init Samples.text_long_word))
           Samples.S1_text) in
  combined_description r = "Teksten er for kort for analyse."
  \/ combined_description r
     = Spec.fallback_description (category (lix r)) (category (rix r)).
Proof.
  apply (proj1 combined_description_ignores_bands
           (snd (get_readability init Samples.text_long_word))
           Samples.S1_text).
  apply Spec.served_get. apply Spec.served_init.
Defined.

(** C10.  The result cache is keyed by the first 100 characters of
    the text, stripped, and the length of the text: whenever two texts
    agree on their first 100 characters and on their length and the
    first one is analysed, the call for the second one that follows
    returns the result of the first call.  The two sample texts of 107
    characters are distinct, collide in this way, and the result
    returned for the second is the analysis of the first, which differs
    from the analysis of the second on its own. *)
Theorem result_cache_collision :
  (forall (cls : t) (T T' : string),
      Py.slice_to 100 T = Py.slice_to 100 T' ->
      String.length T = String.length T' ->
      Spec.analysable T ->
      _get_cache_key T = _get_cache_key T'
      /\ fst (get_readability (snd (get_readability cls T)) T')
         = fst (get_readability cls T))
  /\ (let T := Samples.text_long_word in
      let T' := Samples.text_short_words in
      T <> T'
      /\ Py.slice_to 100 T = Py.slice_to 100 T'
      /\ String.length T = String.length T'
      /\ fst (get_readability (snd (get_readability init T)) T')
         = Spec.own_analysis T
      /\ Spec.own_analysis T' <> Spec.own_analysis T).
Proof.
  split.
  - intros cls T T' Hp Hl Ha.
    assert (Hk : _get_cache_key T = _get_cache_key T')
      by (unfold _get_cache_key; rewrite Hp, Hl; reflexivity).
    split; [exact Hk|].
    destruct (cache_get (_get_cache_key T) (_result_cache cls)) eqn:Hget.
    + rewrite (get_readability_hit _ _ _ Hget). cbn [fst snd].
      rewrite Hk in Hget. rewrite (get_readability_hit _ _ _ Hget).
      reflexivity.
    + pose proof (get_readability_stored cls T Hget Ha) as Hst.
      apply cache_get_after_eviction in Hget.
      apply (cache_get_snoc _ _ (fst (get_readability cls T))) in Hget.
      rewrite <- Hst, Hk in Hget.
      rewrite (get_readability_hit _ _ _ Hget). reflexivity.
  - cbv zeta. split; [|split; [|split; [|split]]].
    + vm_compute. discriminate.
    + vm_compute. reflexivity.
    + vm_compute. reflexivity.
    + vm_compute. reflexivity.
    + intros E.
      apply (f_equal (fun r => score (lix r))) in E.
      vm_compute in E. discriminate.
Qed.

Lemma result_cache_collision_witness :
  _get_cache_key Samples.text_long_word
  = _get_cache_key Samples.text_short_words
  /\ fst (get_readability
            (snd (get_readability init Samples.text_long_word))
            Samples.text_short_words)
     = fst (get_readability init Samples.text_long_word).
Proof.
  apply (proj1 result_cache_collision init
           Samples.text_long_word Samples.text_short_words).
  - vm_compute. reflexivity.
  - vm_compute. reflexivity.
  - vm_compute. reflexivity.
Defined.

End ReadabilityFacts.

Module KeyFacts.

Import ReadabilityService.

Lemma pretty_N_char_free (x : N) :
  (nat_of_ascii (pretty_N_char x) =? 95)%nat = false.
Proof. unfold pretty_N_char. repeat case_match; reflexivity. Qed.

Lemma pretty_N_go_free (x : N) (s : string) :
  Spec.underscore_free s = true -> Spec.underscore_free (pretty_N_go x s) = true.
Proof.
  revert s. induction (N.lt_wf_0 x) as [x _ IH]. intros s Hs.
  destruct (decide (x = 0)%N) as [->|Hx].
  - rewrite pretty_N_go_0. exact Hs.
  - rewrite pretty_N_go_step by lia.
    apply IH.
    + apply N.div_lt; lia.
    + cbn [Spec.underscore_free]. rewrite pretty_N_char_free. exact Hs.
Qed.

Lemma str_of_nat_free (n : nat) : Spec.underscore_free (Py.str_of_nat n) = true.
Proof.
  unfold Py.str_of_nat, pretty, pretty_nat, pretty, pretty_N.
  destruct (decide _); [reflexivity|].
  apply pretty_N_go_free. reflexivity.
Qed.

Lemma underscore_free_app (a b : string) :
  Spec.underscore_free (a ++ String "_" b) = false.
Proof.
  induction a as [|c a IH]; [reflexivity|].
  change (String c a ++ String "_" b) with (String c (a ++ String "_" b)).
  cbn [Spec.underscore_free]. rewrite IH. apply andb_false_r.
Qed.

Lemma append_nil (s : string) : "" ++ s = s.
Proof. reflexivity. Qed.

Lemma append_cons (c : ascii) (s t : string) :
  String c s ++ t = String c (s ++ t).
Proof. reflexivity. Qed.

Lemma suffix_parts (p q a b : string) :
  Spec.underscore_free a = true -> Spec.underscore_free b = true ->
  p ++ "_" ++ a = q ++ "_" ++ b -> p = q /\ a = b.
Proof.
  intros Fa Fb. revert q. induction p as [|c p IH]; intros [|d q] E.
  - split; [reflexivity|].
    rewrite !append_nil, !append_cons, !append_nil in E.
    injection E as E. exact E.
  - exfalso. rewrite !append_nil, !append_cons, !append_nil in E.
    injection E as _ E.
    rewrite E, underscore_free_app in Fa. discriminate.
  - exfalso. rewrite !append_nil, !append_cons, !append_nil in E.
    injection E as _ E.
    rewrite <- E, underscore_free_app in Fb. discriminate.
  - rewrite !append_cons in E. injection E as -> E.
    destruct (IH q E) as [-> ->]. split; reflexivity.
Qed.

(** A cache key determines its two parts. *)
Lemma key_parts (p q : string) (n m : nat) :
  p ++ "_" ++ Py.str_of_nat n = q ++ "_" ++ Py.str_of_nat m ->
  p = q /\ n = m.
Proof.
  intros E.
  destruct (suffix_parts p q _ _ (str_of_nat_free n) (str_of_nat_free m) E)
    as [-> E2].
  split; [reflexivity|]. apply (inj pretty). exact E2.
Qed.

(** *** Stripping *)

Lemma slice_to_all (n : nat) (s : string) :
  (String.length s <= n)%nat -> Py.slice_to n s = s.
Proof.
  revert s. induction n as [|n IH]; intros [|c s] L; try reflexivity.
  - cbn in L. lia.
  - cbn [Py.slice_to]. rewrite IH; [reflexivity|]. cbn in L. lia.
Qed.

Lemma lstrip_length (s : string) :
  (String.length (Py.lstrip s) <= String.length s)%nat.
Proof.
  induction s as [|c s IH]; [reflexivity|].
  cbn [Py.lstrip]. destruct (Py.isspace_char c); cbn [String.length]; lia.
Qed.

Lemma lstrip_same_length (s : string) :
  String.length (Py.lstrip s) = String.length s -> Py.lstrip s = s.
Proof.
  destruct s as [|c s]; [reflexivity|].
  cbn [Py.lstrip]. destruct (Py.isspace_char c); [|reflexivity].
  intros E. pose proof (lstrip_length s). cbn [String.length] in E. lia.
Qed.

Lemma rstrip_length (s : string) :
  (String.length (Py.rstrip s) <= String.length s)%nat.
Proof.
  induction s as [|c s IH]; [reflexivity|].
  cbn [Py.rstrip]. destruct (_ && _); cbn [String.length]; lia.
Qed.

Lemma rstrip_same_length (s : string) :
  String.length (Py.rstrip s) = String.length s -> Py.rstrip s = s.
Proof.
  induction s as [|c s IH]; [reflexivity|].
  cbn [Py.rstrip]. destruct (_ && _); cbn [String.length].
  - discriminate.
  - intros E. rewrite IH; [reflexivity|lia].
Qed.

Lemma strip_same_length (s : string) :
  String.length (Py.strip s) = String.length s -> Py.strip s = s.
Proof.
  unfold Py.strip. intros E.
  pose proof (rstrip_length (Py.lstrip s)).
  pose proof (lstrip_length s).
  assert (E1 : String.length (Py.lstrip s) = String.length s) by lia.
  rewrite (lstrip_same_length s E1) in *.
  apply rstrip_same_length. exact E.
Qed.

Lemma lstrip_blank (s : string) : Py.all_space s = true -> Py.lstrip s = "".
Proof.
  induction s as [|c s IH]; [reflexivity|].
  cbn [Py.all_space Py.lstrip]. intros A.
  apply andb_true_iff in A as [A1 A2]. rewrite A1. apply IH. exact A2.
Qed.

Lemma rstrip_empty (s : string) : Py.rstrip s = "" -> Py.all_space s = true.
Proof.
  induction s as [|c s IH]; [reflexivity|].
  cbn [Py.rstrip Py.all_space].
  destruct (Py.isspace_char c); cbn [andb]; [|discriminate].
  destruct (Py.rstrip s); cbn; [intros _; apply IH; reflexivity|discriminate].
Qed.

Lemma lstrip_all_space (s : string) :
  Py.all_space (Py.lstrip s) = true -> Py.all_space s = true.
Proof.
  induction s as [|c s IH]; [reflexivity|].
  cbn [Py.lstrip Py.all_space].
  destruct (Py.isspace_char c) eqn:E; cbn [andb]; [exact IH|].
  cbn [Py.all_space]. rewrite E. discriminate.
Qed.

(** A text stripped to nothing is empty or blank. *)
Lemma strip_empty (s : string) :
  Py.strip s = "" -> negb (Py.truthy s) || Py.isspace s = true.
Proof.
  unfold Py.strip. intros E.
  apply rstrip_empty in E. apply lstrip_all_space in E.
  destruct s; [reflexivity|]. cbn [Py.truthy negb orb Py.isspace]. exact E.
Qed.

Lemma strip_blank (s : string) :
  negb (Py.truthy s) || Py.isspace s = true -> Py.strip s = "".
Proof.
  destruct s as [|c s]; [reflexivity|].
  cbn [Py.truthy negb orb Py.isspace]. intros A.
  unfold Py.strip. rewrite (lstrip_blank _ A). reflexivity.
Qed.

(** *** Texts whose key no other analysed text shares *)

(** An analysed text with the key of a text of at most 100 characters
    strips to the same text and has the same length. *)
Lemma same_key_short (t text : string) :
  (String.length text <= 100)%nat ->
  _get_cache_key t = _get_cache_key text ->
  Py.strip t = Py.strip text /\ String.length t = String.length text.
Proof.
  intros L E. unfold _get_cache_key in E.
  apply key_parts in E as [E1 E2].
  rewrite (slice_to_all 100 text L) in E1.
  rewrite (slice_to_all 100 t) in E1 by lia.
  split; assumption.
Qed.

(** In a served state, an empty or blank text of at most 100 characters
    gets the sentinel result. *)
Lemma short_blank_sentinel (cls : t) (text : string) :
  Spec.served cls ->
  (String.length text <= 100)%nat ->
  negb (Py.truthy text) || Py.isspace text = true ->
  get_readability cls text = (empty_result, cls).
Proof.
  intros Hs L B.
  destruct (cache_get (_get_cache_key text) (_result_cache cls)) eqn:Hget.
  - exfalso.
    destruct (ReadabilityFacts.served_sound cls Hs) as [_ Hr].
    apply ReadabilityFacts.cache_get_In in Hget.
    unfold Spec.result_cache_sound in Hr. rewrite List.Forall_forall in Hr.
    destruct (Hr _ Hget) as (t & Ek & Ha & _). cbn [fst] in Ek.
    destruct (same_key_short t text L Ek) as [E1 _].
    rewrite (strip_blank text B) in E1.
    apply strip_empty in E1. unfold Spec.analysable in Ha. congruence.
  - apply ReadabilityFacts.get_readability_blank; assumption.
Qed.

(** In a served state, a trimmed text of at most 100 characters gets
    its own analysis. *)
Lemma short_trimmed_own_analysis (cls : t) (text : string) :
  Spec.served cls ->
  (String.length text <= 100)%nat ->
  Py.strip text = text ->
  Spec.analysable text ->
  fst (get_readability cls text) = Spec.own_analysis text.
Proof.
  intros Hs L T A.
  destruct (ReadabilityFacts.served_sound cls Hs) as [Hl Hr].
  destruct (cache_get (_get_cache_key text) (_result_cache cls)) eqn:Hget.
  - rewrite (ReadabilityFacts.get_readability_hit _ _ _ Hget). cbn [fst].
    apply ReadabilityFacts.cache_get_In in Hget.
    unfold Spec.result_cache_sound in Hr. rewrite List.Forall_forall in Hr.
    destruct (Hr _ Hget) as (t & Ek & _ & Er). cbn [fst snd] in Ek, Er.
    destruct (same_key_short t text L Ek) as [E1 E2].
    rewrite T in E1.
    assert (Et : Py.strip t = t)
      by (apply strip_same_length; rewrite E1; congruence).
    rewrite Er. congruence.
  - apply (ReadabilityFacts.get_readability_miss cls text Hl Hget A).
Qed.

End KeyFacts.

Module RecommenderFacts.

Import ReadabilityRecommender.

Local Open Scope Q_scope.

Lemma map_append_if {B : Type} (f : recommendation -> B) (b : bool)
    (rs l : list recommendation) :
  List.map f (append_if b rs l)
  = if b then (List.map f l ++ List.map f rs)%list else List.map f l.
Proof. unfold append_if. destruct b; [apply List.map_app|reflexivity]. Qed.

Lemma sentence_structure_without_examples (x : Q) (simplified : bool) :
  Spec.without_examples (sentence_structure x simplified)
  = Spec.without_examples (sentence_structure x false).
Proof. reflexivity. Qed.

(** Simplified mode changes nothing but examples. *)
Lemma simplified_same_rules (m : metrics) :
  List.map Spec.without_examples (generate m true)
  = List.map Spec.without_examples (generate m false).
Proof.
  unfold generate, append_if.
  destruct (Py.gtb (get0 (m_avg_sentence_length m)) 18);
  destruct (Py.gtb (get0 (m_long_words_percentage m)) 25);
  destruct (Py.gtb (get0 (m_lix_score m)) 40);
  destruct (Py.gtb (get0 (m_lix_score m)) 50);
  destruct (Py.gtb (get0 (m_lix_score m)) 45);
  destruct (context_truthy (m_user_context m));
  destruct (Py.gtb (get0 (m_lix_score m)) 35);
  destruct (purpose_is (m_user_context m) "education");
  destruct (purpose_is (m_user_context m) "business");
  destruct (Py.gtb (get0 (m_rix_score m)) 4);
  reflexivity.
Qed.

Lemma purpose_is_spec (m : metrics) (p : string) :
  purpose_is (m_user_context m) p = true <-> Spec.purpose m = Some p.
Proof.
  unfold purpose_is, Spec.purpose.
  destruct (m_user_context m) as [d|]; [|split; discriminate].
  apply bool_decide_eq_true.
Qed.

(** When no rule fires the recommender returns exactly the positive
    feedback. *)
Lemma no_rule_positive_feedback (m : metrics) (simplified : bool) :
  Spec.no_rule_fires m ->
  generate m simplified = [positive_feedback (get0 (m_lix_score m))]
  /\ List.map type (generate m simplified) = ["positive_feedback"%string].
Proof.
  intros (Ha & Hw & H40 & H50 & H45 & He & Hb & Hr).
  assert (G : generate m simplified
              = [positive_feedback (get0 (m_lix_score m))]).
  { unfold generate, append_if.
    rewrite (proj2 (PyFacts.gtb_le _ 18) Ha).
    rewrite (proj2 (PyFacts.gtb_le _ 25) Hw).
    rewrite (proj2 (PyFacts.gtb_le _ 40) H40).
    rewrite (proj2 (PyFacts.gtb_le _ 50) H50).
    rewrite (proj2 (PyFacts.gtb_le _ 45) H45).
    rewrite (proj2 (PyFacts.gtb_le _ 4) Hr).
    destruct (purpose_is (m_user_context m) "education") eqn:Pe.
    - apply purpose_is_spec in Pe.
      destruct (Py.gtb (get0 (m_lix_score m)) 35) eqn:G35.
      + exfalso. apply He. split; [exact Pe|]. apply PyFacts.gtb_gt. exact G35.
      + cbn [andb].
        destruct (purpose_is (m_user_context m) "business") eqn:Pb.
        * apply purpose_is_spec in Pb. congruence.
        * cbn [andb]. destruct (context_truthy _); reflexivity.
    - cbn [andb].
      destruct (purpose_is (m_user_context m) "business") eqn:Pb.
      + destruct (Py.gtb (get0 (m_lix_score m)) 45) eqn:G45.
        * exfalso. apply Hb. split; [apply purpose_is_spec; exact Pb|].
          apply PyFacts.gtb_gt. exact G45.
        * cbn [andb]. destruct (context_truthy _); reflexivity.
      + cbn [andb]. destruct (context_truthy _); reflexivity. }
  split; [exact G|].
  rewrite G. unfold positive_feedback.
  destruct (Py.ltb _ _); reflexivity.
Qed.

Lemma all_zero_no_rule : Spec.no_rule_fires Samples.all_zero.
Proof.
  unfold Spec.no_rule_fires, Spec.purpose, Samples.all_zero. cbn.
  repeat split; try (intros [? ?]; discriminate); discriminate.
Qed.

(** C9.  What simplified mode does: the recommendations are the same
    in type, title, description, suggestion, impact and order as in
    full mode, but only the sentence-structure rule drops its
    examples.  On metrics with 30 percent long words the single
    recommendation, of type word_complexity, carries its four examples
    in simplified mode too. *)
Theorem simplified_mode_keeps_examples :
  (forall m : metrics,
      List.map Spec.without_examples (generate m true)
      = List.map Spec.without_examples (generate m false))
  /\ List.map type (generate Samples.many_long_words true)
     = ["word_complexity"%string]
  /\ List.map examples (generate Samples.many_long_words true)
     = [["Erstatt 'implementere' med 'bruke'";
         "Erstatt 'signifikant' med 'viktig'";
         "Erstatt 'kommunisere' med 'si fra'";
         "Erstatt 'funksjoner' med 'egenskaper'"]%string]
  /\ generate Samples.many_long_words true
     = generate Samples.many_long_words false.
Proof.
  split; [exact simplified_same_rules|].
  vm_compute. repeat split; reflexivity.
Qed.

End RecommenderFacts.

Module CircuitBreakerFacts.

Import CircuitBreaker.

Local Open Scope Q_scope.

(** A success reported to a closed breaker leaves the failure count
    as it is. *)
Lemma success_keeps_failure_count (cb : t) :
  _state cb = CLOSED ->
  _failure_count (success cb) = _failure_count cb
  /\ _state (success cb) = CLOSED.
Proof. intros H. unfold success. rewrite H. cbn. rewrite H. cbn. auto. Qed.

(** The test made by [failure] on a closed breaker. *)
Lemma closed_failure_opens (now : Q) (cb : t) :
  _state cb = CLOSED ->
  (_state (failure now cb) = OPEN
   <-> (_max_failures cb <= _failure_count cb + 1)%Z
       \/ ((10 < _request_count cb + 1)%Z
           /\ _failure_threshold cb
              < inject_Z (100 * (_request_count cb + 1 - _success_count cb))
                / inject_Z (_request_count cb + 1))).
Proof.
  intros H. unfold failure. cbn. rewrite H.
  destruct (Z.geb_spec (_failure_count cb + 1) (_max_failures cb)) as [G|G].
  - cbn. split; [intros _; left; lia|reflexivity].
  - destruct (Z.gtb_spec (_request_count cb + 1) 10) as [R|R]; cbn [andb].
    + destruct (Py.gtb _ _) eqn:E; cbn; rewrite ?H.
      * split; [intros _; right; split; [lia|]|reflexivity].
        apply PyFacts.gtb_gt in E. exact E.
      * split; [discriminate|].
        intros [L|[_ L]]; [lia|].
        apply PyFacts.gtb_le in E. lra.
    + cbn. rewrite H. split; [discriminate|]. intros [L|[L _]]; lia.
Qed.

(** While open and before the timeout has elapsed, a guarded call is
    rejected and nothing changes. *)
Lemma open_rejects (now later : Q) (func : bool) (cb : t) :
  _state cb = OPEN ->
  now - _last_failure_time cb <= _reset_timeout cb ->
  call now later func cb = (CircuitIsOpen, cb).
Proof.
  intros H L. unfold call, can_execute, state. rewrite H. cbn.
  rewrite (proj2 (PyFacts.gtb_le _ _) L). cbn. rewrite ?H. reflexivity.
Qed.

(** Once the timeout has elapsed the breaker is half-open. *)
Lemma open_half_opens (now : Q) (cb : t) :
  _state cb = OPEN ->
  _reset_timeout cb < now - _last_failure_time cb ->
  state now cb = (HALF_OPEN, with_state HALF_OPEN cb).
Proof.
  intros H L. unfold state. rewrite H. cbn.
  rewrite (proj2 (PyFacts.gtb_gt _ _) L). reflexivity.
Qed.

(** A success while half-open clears the counters, closes the circuit
    and is counted. *)
Lemma half_open_success (cb : t) :
  _state cb = HALF_OPEN ->
  _state (success cb) = CLOSED
  /\ _failure_count (success cb) = 0%Z
  /\ _request_count (success cb) = 1%Z
  /\ _success_count (success cb) = 1%Z.
Proof. intros H. unfold success. rewrite H. cbn. auto. Qed.

(** A failure while half-open opens the circuit again and restarts
    the timeout. *)
Lemma half_open_failure (now : Q) (cb : t) :
  _state cb = HALF_OPEN ->
  _state (failure now cb) = OPEN
  /\ _last_failure_time (failure now cb) = now.
Proof. intros H. unfold failure. cbn. rewrite H. cbn. auto. Qed.

Lemma failure_keeps_parameters (now : Q) (cb : t) :
  _max_failures (failure now cb) = _max_failures cb.
Proof.
  unfold failure. cbn.
  destruct (_state cb); cbn; [|reflexivity|reflexivity].
  destruct (_ >=? _)%Z; [reflexivity|].
  destruct (_ && _); reflexivity.
Qed.

Lemma open_failure_stays_open (now : Q) (cb : t) :
  _state cb = OPEN -> _state (failure now cb) = OPEN.
Proof. intros H. unfold failure. cbn. rewrite H. cbn. exact H. Qed.

Lemma closed_failure_counts (now : Q) (cb : t) :
  _state cb = CLOSED ->
  _failure_count (failure now cb) = (_failure_count cb + 1)%Z
  /\ (_state (failure now cb) = OPEN
      \/ (_state (failure now cb) = CLOSED
          /\ (_failure_count cb + 1 < _max_failures cb)%Z)).
Proof.
  intros H. unfold failure. cbn. rewrite H.
  destruct (Z.geb_spec (_failure_count cb + 1) (_max_failures cb)) as [G|G].
  - cbn. auto.
  - destruct (_ && _); cbn; rewrite ?H; auto.
Qed.

(** Failures reported in a row to a closed breaker, as many as the
    count still lacks to reach [max_failures], open it. *)
Lemma failures_in_a_row_open (times : list Q) (cb : t) :
  _state cb = OPEN
  \/ (_state cb = CLOSED
      /\ (_max_failures cb - _failure_count cb
          <= Z.of_nat (List.length times))%Z
      /\ times <> []) ->
  _state (Spec.failures_at times cb) = OPEN.
Proof.
  revert cb. induction times as [|now rest IH]; intros cb Hcb.
  - destruct Hcb as [Ho|(_ & _ & Hne)]; [exact Ho|congruence].
  - cbn [Spec.failures_at List.fold_left].
    change (List.fold_left (fun cb now => failure now cb) rest (failure now cb))
      with (Spec.failures_at rest (failure now cb)).
    apply IH.
    destruct Hcb as [Ho|(Hc & Hlen & _)].
    + left. apply open_failure_stays_open. exact Ho.
    + destruct (closed_failure_counts now cb Hc) as [Ecount [Ho|[Hc' Hlt]]].
      * left. exact Ho.
      * right. split; [exact Hc'|].
        rewrite failure_keeps_parameters, Ecount.
        cbn [List.length] in Hlen.
        split; [lia|].
        destruct rest; [cbn [List.length] in Hlen; lia|discriminate].
Qed.

(** C5.  What the breaker does.  A failure reported while closed opens
    the circuit exactly when the failures counted since the circuit
    was last closed or reset reach max_failures, or more than 10
    requests have been counted, this one included, and the failure
    ratio exceeds the threshold; in particular max_failures failures
    in a row open a fresh breaker.  While open, calls are rejected
    until the reset timeout has elapsed; then the breaker is half-open;
    a success while half-open clears the counters and closes the
    circuit, a failure opens it again and restarts the timeout.  Where
    the claim expects consecutive failures: with the default
    parameters, nine guarded calls that fail and succeed in turn leave
    the circuit closed eight times and open it at the ninth, the fifth
    failure, although no two failures are consecutive and fewer than
    ten requests were seen. *)
Theorem opens_on_scattered_failures :
  (forall (now : Q) (cb : t),
      _state cb = CLOSED ->
      (_state (failure now cb) = OPEN
       <-> (_max_failures cb <= _failure_count cb + 1)%Z
           \/ ((10 < _request_count cb + 1)%Z
               /\ _failure_threshold cb
                  < inject_Z (100 * (_request_count cb + 1 - _success_count cb))
                    / inject_Z (_request_count cb + 1))))
  /\ (forall (name : string) (max_failures : Z) (reset_timeout threshold : Q)
             (times : list Q),
         (1 <= max_failures <= Z.of_nat (List.length times))%Z ->
         _state (Spec.failures_at times
                   (__init__ name max_failures reset_timeout threshold))
         = OPEN)
  /\ (forall (now later : Q) (func : bool) (cb : t),
         _state cb = OPEN ->
         now - _last_failure_time cb <= _reset_timeout cb ->
         call now later func cb = (CircuitIsOpen, cb))
  /\ (forall (now : Q) (cb : t),
         _state cb = OPEN ->
         _reset_timeout cb < now - _last_failure_time cb ->
         state now cb = (HALF_OPEN, with_state HALF_OPEN cb))
  /\ (forall cb : t,
         _state cb = HALF_OPEN ->
         _state (success cb) = CLOSED
         /\ _failure_count (success cb) = 0%Z
         /\ _request_count (success cb) = 1%Z
         /\ _success_count (success cb) = 1%Z)
  /\ (forall (now : Q) (cb : t),
         _state cb = HALF_OPEN ->
         _state (failure now cb) = OPEN
         /\ _last_failure_time (failure now cb) = now)
  /\ (let cb := Spec.guarded_calls Samples.alternating_calls
                  Samples.default_breaker in
      Spec.longest_failure_run Samples.alternating_calls 0 = 1%nat
      /\ Spec.states_along Samples.alternating_calls Samples.default_breaker
         = [CLOSED; CLOSED; CLOSED; CLOSED; CLOSED; CLOSED; CLOSED; CLOSED;
            OPEN]
      /\ _state cb = OPEN
      /\ _failure_count cb = 5%Z
      /\ _request_count cb = 9%Z
      /\ _success_count cb = 4%Z).
Proof.
  split; [exact closed_failure_opens|].
  split.
  { intros name max_failures reset_timeout threshold times [H1 H2].
    apply failures_in_a_row_open. right. cbn.
    split; [reflexivity|]. split; [lia|].
    destruct times; [cbn in H2; lia|discriminate]. }
  split; [exact open_rejects|].
  split; [exact open_half_opens|].
  split; [exact half_open_success|].
  split; [exact half_open_failure|].
  vm_compute. repeat split; reflexivity.
Qed.

Lemma opens_on_scattered_failures_witness :
  _state (Spec.failures_at [1; 2; 3; 4; 5] Samples.default_breaker) = OPEN
  /\ _state (success (with_state HALF_OPEN Samples.default_breaker)) = CLOSED.
Proof.
  split.
  - apply (proj1 (proj2 opens_on_scattered_failures)
             "redis"%string 5%Z 60 50 [1; 2; 3; 4; 5]).
    cbn. lia.
  - apply (proj1 (proj2 (proj2 (proj2 (proj2 opens_on_scattered_failures))))
             (with_state HALF_OPEN Samples.default_breaker)).
    reflexivity.
Defined.

End CircuitBreakerFacts.

Module MainFacts.

Import Main.

Section WithCollaborators.
Context `{Collaborators}.

Lemma length_append (s t : string) :
  String.length (s ++ t) = (String.length s + String.length t)%nat.
Proof.
  induction s as [|c s IH]; [reflexivity|].
  simpl. f_equal. exact IH.
Qed.

Lemma texts_key_differs (job_id : string) :
  "batch_job:" ++ job_id ++ ":texts" <> "batch_job:" ++ job_id.
Proof.
  intros E. apply (f_equal String.length) in E.
  rewrite !length_append in E. cbn [String.length] in E. lia.
Qed.

Lemma first_route_for_batch :
  first_match "POST" "/analyze/batch" routes = Some ep_analyze_text_batch.
Proof. reflexivity. Qed.

(** The body of the [async with], had it been entered, stores the job
    record under the job id with the priority it is given; the handler
    gives it the requested priority clamped into the range from 1 to
    10. *)
Lemma queue_batch_job_stores_the_job (request : BatchTextRequest)
    (env : batch_env) (job : job_data) (r r' : redis)
    (job_id status : string) (n : Z) (estimated : Q) (tasks : list task) :
  queue_batch_job request env job r
  = (BatchAccepted job_id status n estimated, r', tasks) ->
  kv r' !! ("batch_job:" ++ job_id) = Some (VJob job, 86400)
  /\ batch_processing_queue r' !! job_id = Some (priority job).
Proof.
  unfold queue_batch_job.
  destruct (set_job_ok env); [|discriminate].
  destruct (set_texts_ok env); [|discriminate].
  destruct (zadd_ok env); [|discriminate].
  cbn [negb]. intros E. injection E as <- _ _ _ <- _.
  cbn [kv batch_processing_queue redis_zadd redis_set]. split.
  - rewrite lookup_insert_ne by apply texts_key_differs.
    apply lookup_insert_eq.
  - apply lookup_insert_eq.
Qed.

Lemma async_with_get_redis_pool_raises (A : Type) (body raised : A) :
  async_with get_redis_pool body raised = raised.
Proof. reflexivity. Qed.

(** C6.  A request POST /analyze/batch whose list of texts is empty
    or has more than 100 items is answered with status 400, the store
    is left as it was and no work is scheduled.  A batch of 1 to 100
    texts with a priority is not accepted: the handler raises at
    [async with get_redis_pool()], the request ends with status 500,
    the store is left as it was and no work is scheduled.  So no
    request is answered with a job id, and no job record is ever
    stored, with a clamped priority or any other. *)
Theorem batch_is_rejected_or_fails (request : BatchTextRequest)
    (env : batch_env) (r : redis) :
  ((texts request = [] \/ (100 < List.length (texts request))%nat) ->
   exists detail : string,
     post_analyze_batch request env r = (HTTPException 400 detail, r, [])
     /\ 400 <= status_code_of (HTTPException 400 detail) < 500)
  /\ (texts request <> [] ->
      (List.length (texts request) <= 100)%nat ->
      post_analyze_batch request env r = (Unhandled TypeError, r, [])
      /\ status_code_of (fst (fst (post_analyze_batch request env r))) = 500)
  /\ (snd (fst (post_analyze_batch request env r)) = r
      /\ snd (post_analyze_batch request env r) = []
      /\ forall (job_id status : string) (n : Z) (estimated : Q),
           fst (fst (post_analyze_batch request env r))
           <> BatchAccepted job_id status n estimated).
Proof.
  unfold post_analyze_batch. rewrite first_route_for_batch.
  unfold analyze_text_batch.
  split; [|split].
  - intros [E|L].
    + rewrite E. cbn. eexists. split; [reflexivity|]. cbn. lia.
    + destruct (Z.eqb_spec (Z.of_nat (List.length (texts request))) 0)
        as [E|_]; [lia|].
      destruct (Z.gtb_spec (Z.of_nat (List.length (texts request))) 100)
        as [_|G]; [|lia].
      eexists. split; [reflexivity|]. cbn. lia.
  - intros N L.
    destruct (Z.eqb_spec (Z.of_nat (List.length (texts request))) 0)
      as [E|_].
    { destruct (texts request); [congruence|cbn in E; lia]. }
    destruct (Z.gtb_spec (Z.of_nat (List.length (texts request))) 100)
      as [G|_]; [lia|].
    destruct (req_priority request);
      rewrite ?async_with_get_redis_pool_raises; split; reflexivity.
  - destruct (Z.of_nat (List.length (texts request)) =? 0);
      [cbn; repeat split; discriminate|].
    destruct (Z.of_nat (List.length (texts request)) >? 100);
      [cbn; repeat split; discriminate|].
    destruct (req_priority request);
      rewrite ?async_with_get_redis_pool_raises;
      cbn; repeat split; discriminate.
Qed.

(** The second definition of the route, which the first one hides,
    answers an empty batch with status 500. *)
Lemma hidden_batch_handler_empty (prio : option Z) (r : redis) :
  status_code_of (fst (fst (analyze_texts_batch (mk_batch_request [] prio) r)))
  = 500.
Proof. reflexivity. Qed.

(** *** POST /analyze *)

Lemma cache_key_is_analysis (text : string) (w s : option bool)
    (cache_key : string) :
  generate_cache_key text w s = Some cache_key ->
  exists rest : string, cache_key = "analysis:" ++ rest.
Proof.
  unfold generate_cache_key, cache_key_of.
  destruct w, s; try discriminate.
  intros [= <-]. eexists. reflexivity.
Qed.

Lemma task_status_key_differs (task_id rest : string) :
  "task_status:" ++ task_id <> "analysis:" ++ rest.
Proof. discriminate. Qed.

Lemma truthy_of_len (text : string) : 0 < len text -> Py.truthy text = true.
Proof.
  intros L. destruct text; [|reflexivity].
  unfold len in L. cbn in L. lia.
Qed.

(** The worker stores a completed analysis under the key it was
    given. *)
Lemma worker_stores_under_key (cfg : config) (task_id text : string)
    (w s : option bool) (rest : string)
    (uc : option (gmap string string)) (status_ok : bool)
    (r : redis) (svc svc' : ReadabilityService.t)
    (result : analysis_record) :
  full_analysis svc text w s uc = (Some result, svc') ->
  kv (fst (run_process_text_analysis_background cfg task_id text w s
             ("analysis:" ++ rest) uc true status_ok r svc))
    !! ("analysis:" ++ rest)
  = Some (VAnalysis result, get_cache_ttl cfg text).
Proof.
  intros E. unfold run_process_text_analysis_background. rewrite E.
  cbn [fst]. unfold set_in_cache.
  destruct status_ok; cbn [kv redis_set].
  - rewrite lookup_insert_ne by apply task_status_key_differs.
    apply lookup_insert_eq.
  - apply lookup_insert_eq.
Qed.

(** C7.  A request POST /analyze whose trimmed text is not found in
    the cache and is longer than the background threshold is
    answered with a task id, the status "processing", the polling
    endpoint of the task and an estimated completion time, not with
    an analysis record; the one task it schedules carries the cache
    key computed for the trimmed text and the options of the
    request, and when that task runs and its analysis completes it
    stores the analysis record under that key. *)
Theorem large_text_is_processed_in_background (cfg : config)
    (request : TextRequest) (env : analyze_env) (r : redis)
    (svc : ReadabilityService.t) (cache_key : string) :
  let trimmed := Py.strip (text request) in
  0 <= BACKGROUND_PROCESSING_THRESHOLD cfg ->
  generate_cache_key trimmed (include_word_analysis request)
    (include_sentence_analysis request) = Some cache_key ->
  get_from_cache (get_ok env) r cache_key = None ->
  BACKGROUND_PROCESSING_THRESHOLD cfg < len trimmed ->
  exists (task_id : string) (r' : redis),
    analyze_text cfg request env r svc
    = (TaskAccepted task_id "processing" ("/task/" ++ task_id)
         (Z.max 5 (len trimmed / 10000)),
       r', svc,
       [process_text_analysis_background task_id trimmed
          (include_word_analysis request)
          (include_sentence_analysis request)
          cache_key (user_context request)])
    /\ forall (status_ok : bool) (r0 : redis)
              (svc0 svc1 : ReadabilityService.t)
              (result : analysis_record),
         full_analysis svc0 trimmed (include_word_analysis request)
           (include_sentence_analysis request) (user_context request)
         = (Some result, svc1) ->
         kv (fst (run_process_text_analysis_background cfg task_id trimmed
                    (include_word_analysis request)
                    (include_sentence_analysis request)
                    cache_key (user_context request)
                    true status_ok r0 svc0))
           !! cache_key
         = Some (VAnalysis result, get_cache_ttl cfg trimmed).
Proof.
  intros trimmed Hthr Hkey Hmiss Hlen.
  unfold analyze_text. fold trimmed.
  rewrite (truthy_of_len trimmed) by lia. cbn [negb].
  rewrite Hkey, Hmiss.
  destruct (Z.gtb_spec (len trimmed) (BACKGROUND_PROCESSING_THRESHOLD cfg))
    as [_|G]; [|lia].
  eexists. eexists. split; [reflexivity|].
  intros status_ok r0 svc0 svc1 result E.
  destruct (cache_key_is_analysis _ _ _ _ Hkey) as [rest ->].
  apply (worker_stores_under_key _ _ _ _ _ _ _ _ _ _ svc1). exact E.
Qed.

End WithCollaborators.

End MainFacts.

Module StreamingFacts.

Import Main MainSpec.

Local Open Scope Q_scope.

Section WithCollaborators.
Context `{Collaborators}.

(** Case analysis on a scrutinee that contains no other one. *)
Ltac inner_case :=
  match goal with
  | |- context [match ?x with _ => _ end] =>
      lazymatch x with
      | context [match _ with _ => _ end] => fail
      | _ => destruct x
      end
  end.

Lemma truthy_nonempty (text : string) :
  Py.truthy text = true <-> text <> ""%string.
Proof. destruct text; cbn; split; congruence. Qed.

(** One iteration leaves [last_text] and [last_text_length] as they
    were or sets them to the trimmed text, which is then not empty,
    and its length. *)
Lemma websocket_message_tracks (cfg : config) (s : session) (m : message)
    (env : ws_env) (r : redis) (svc : ReadabilityService.t) :
  let s' := session_after (websocket_message cfg s m env r svc) in
  (last_text s' = last_text s
   /\ last_text_length s' = last_text_length s)
  \/ (last_text s' = Py.strip (msg_text m)
      /\ last_text_length s' = len (Py.strip (msg_text m))
      /\ Py.strip (msg_text m) <> ""%string).
Proof.
  unfold websocket_message.
  destruct (Py.truthy (Py.strip (msg_text m))) eqn:T; cbn [negb].
  - apply truthy_nonempty in T.
    unfold process_normally, ensure_readability.
    repeat inner_case; cbn; auto.
  - left. split; reflexivity.
Qed.

(** In every reachable session the recorded length is the length of
    the recorded text. *)
Lemma reachable_length (s : session) :
  ws_reachable s -> last_text_length s = len (last_text s).
Proof.
  induction 1 as [t0|cfg s m env r svc Hs IH]; [reflexivity|].
  destruct (websocket_message_tracks cfg s m env r svc)
    as [[E1 E2]|[E1 [E2 _]]]; congruence.
Qed.

Lemma len_pos (text : string) : text <> ""%string -> (1 <= len text)%Z.
Proof.
  intros N. destruct text; [congruence|]. unfold len. cbn [String.length]. lia.
Qed.

Lemma ratio_small_not_significant (a b : Z) :
  (1 <= b)%Z ->
  inject_Z (Z.abs (a - b)) / inject_Z b < 15 # 100 ->
  Py.gtb (text_length_change_ratio a b) (15 # 100) = false
  /\ (a <> 0)%Z.
Proof.
  intros Hb Hr. unfold text_length_change_ratio.
  rewrite Z.max_r by exact Hb. split.
  - apply PyFacts.gtb_le. apply Qlt_le_weak. exact Hr.
  - intros ->.
    assert (Hpos : 0 < inject_Z b)
      by (change 0 with (inject_Z 0); rewrite <- Zlt_Qlt; lia).
    assert (E : inject_Z (Z.abs (0 - b)) / inject_Z b == 1).
    { replace (Z.abs (0 - b)) with b by lia. field. lra. }
    rewrite E in Hr. lra.
Qed.

Lemma adaptive_debounce_bounds (system_load : Q) :
  min_debounce_time <= adaptive_debounce system_load
  /\ adaptive_debounce system_load <= max_debounce_time.
Proof.
  unfold adaptive_debounce, min_debounce_time, max_debounce_time.
  destruct (Py.gtb system_load (8 # 10)) eqn:Hi; [split; lra|].
  destruct (Py.gtb system_load (5 # 10)) eqn:Lo; [|split; lra].
  apply PyFacts.gtb_le in Hi. apply PyFacts.gtb_gt in Lo.
  unfold Qdiv. change (/ (3 # 10)) with (10 # 3). split; lra.
Qed.

(** C8.  In a session in which some message has been processed: a
    message whose trimmed text equals the text processed last gets
    no reply and changes nothing; a message that arrives less than
    the current debounce window after the last processing time, with
    a text whose length differs from the length of the text
    processed last by less than 15 percent of that length, gets no
    reply and changes nothing.  The debounce window chosen from the
    system load, before it is scaled for long texts, lies between
    0.1 and 0.8 seconds, as does the window a session starts with. *)
Theorem streaming_drops_and_debounce_bounds :
  (forall (cfg : config) (s : session) (m : message) (env : ws_env)
          (r : redis) (svc : ReadabilityService.t),
      ws_reachable s -> processed s ->
      Py.strip (msg_text m) = last_text s ->
      websocket_message cfg s m env r svc = ([], s, r, svc, []))
  /\ (forall (cfg : config) (s : session) (m : message) (env : ws_env)
             (r : redis) (svc : ReadabilityService.t),
         ws_reachable s -> processed s ->
         current_time env - last_process_time s < debounce_time s ->
         inject_Z (Z.abs (len (Py.strip (msg_text m)) - len (last_text s)))
         / inject_Z (len (last_text s)) < 15 # 100 ->
         websocket_message cfg s m env r svc = ([], s, r, svc, []))
  /\ (forall system_load : Q,
         1 # 10 <= adaptive_debounce system_load
         /\ adaptive_debounce system_load <= 8 # 10)
  /\ (forall t0 : Q,
         1 # 10 <= debounce_time (open_session t0)
         /\ debounce_time (open_session t0) <= 8 # 10).
Proof.
  split; [|split; [|split]].
  - intros cfg s m env r svc _ Hp E.
    unfold websocket_message. rewrite E.
    rewrite (proj2 (truthy_nonempty _) Hp). cbn [negb].
    rewrite String.eqb_refl. reflexivity.
  - intros cfg s m env r svc Hs Hp Ht Hr.
    pose proof (reachable_length s Hs) as Hlen.
    destruct (ratio_small_not_significant _ _ (len_pos _ Hp) Hr)
      as [Hsig Hne].
    unfold websocket_message.
    destruct (Py.truthy (Py.strip (msg_text m))) eqn:T.
    + cbn [negb].
      destruct (String.eqb _ _); [reflexivity|].
      rewrite (proj2 (PyFacts.ltb_lt _ _) Ht).
      rewrite Hlen, Hsig. reflexivity.
    + exfalso. apply Hne. destruct (Py.strip (msg_text m)); [reflexivity|].
      discriminate.
  - exact adaptive_debounce_bounds.
  - intros t0. cbn. split; discriminate.
Qed.

End WithCollaborators.

Lemma streaming_drops_and_debounce_bounds_witness :
  @websocket_message Samples.stand_in default_config
    Samples.session_after_first Samples.first_message
    (Samples.ws_env_at 3) Samples.empty_store ReadabilityService.init
  = ([], Samples.session_after_first, Samples.empty_store,
     ReadabilityService.init, [])
  /\ @websocket_message Samples.stand_in default_config
       Samples.session_after_first Samples.second_message
       (Samples.ws_env_at (205 # 100)) Samples.empty_store
       ReadabilityService.init
     = ([], Samples.session_after_first, Samples.empty_store,
        ReadabilityService.init, []).
Proof.
  assert (R : @ws_reachable Samples.stand_in Samples.session_after_first).
  { apply (@ws_received Samples.stand_in default_config
             (@open_session Samples.stand_in 0) Samples.first_message
             (Samples.ws_env_at 1) Samples.empty_store
             ReadabilityService.init).
    apply ws_opened. }
  assert (P : @processed Samples.stand_in Samples.session_after_first).
  { unfold processed. vm_compute. discriminate. }
  split.
  - apply (proj1 (@streaming_drops_and_debounce_bounds Samples.stand_in)
             default_config Samples.session_after_first
             Samples.first_message (Samples.ws_env_at 3)
             Samples.empty_store ReadabilityService.init R P).
    vm_compute. reflexivity.
  - apply (proj1 (proj2 (@streaming_drops_and_debounce_bounds
                           Samples.stand_in))
             default_config Samples.session_after_first
             Samples.second_message (Samples.ws_env_at (205 # 100))
             Samples.empty_store ReadabilityService.init R P).
    + vm_compute. reflexivity.
    + vm_compute. reflexivity.
Defined.

End StreamingFacts.

Module MainExamples.

Import Main.

Lemma batch_is_rejected_or_fails_witness :
  (exists detail : string,
      @post_analyze_batch Samples.stand_in Samples.empty_batch
        Samples.batch_env_ok Samples.empty_store
      = (HTTPException 400 detail, Samples.empty_store, [])
      /\ 400 <= status_code_of (@HTTPException Samples.stand_in 400 detail)
         < 500)
  /\ (@post_analyze_batch Samples.stand_in Samples.batch_S3
        Samples.batch_env_ok Samples.empty_store
      = (Unhandled TypeError, Samples.empty_store, [])
      /\ status_code_of
           (fst (fst (@post_analyze_batch Samples.stand_in Samples.batch_S3
                        Samples.batch_env_ok Samples.empty_store)))
         = 500).
Proof.
  split.
  - apply (proj1 (@MainFacts.batch_is_rejected_or_fails Samples.stand_in
                    Samples.empty_batch Samples.batch_env_ok
                    Samples.empty_store)).
    left. reflexivity.
  - apply (proj1 (proj2 (@MainFacts.batch_is_rejected_or_fails
                           Samples.stand_in Samples.batch_S3
                           Samples.batch_env_ok Samples.empty_store))).
    + discriminate.
    + cbn. lia.
Defined.

Lemma large_text_is_processed_in_background_witness :
  exists task_id : string,
    fst (fst (fst (@analyze_text Samples.stand_in default_config
                     Samples.large_request Samples.analyze_env_ok
                     Samples.empty_store ReadabilityService.init)))
    = TaskAccepted task_id "processing" ("/task/" ++ task_id) 5.
Proof.
  destruct (@MainFacts.large_text_is_processed_in_background
              Samples.stand_in default_config Samples.large_request
              Samples.analyze_env_ok Samples.empty_store
              ReadabilityService.init
              (@cache_key_of Samples.stand_in
                 (Py.strip (text Samples.large_request)) false true))
    as (task_id & r' & E & _).
  - cbn. lia.
  - reflexivity.
  - unfold get_from_cache.
    cbn [get_ok Samples.analyze_env_ok kv Samples.empty_store].
    rewrite lookup_empty. reflexivity.
  - vm_compute. reflexivity.
  - exists task_id. rewrite E. vm_compute. reflexivity.
Defined.

End MainExamples.

Module ServiceFacts.

Import ReadabilityService.

Local Open Scope Q_scope.

(** C1.  The LIX kernel returns W/S + 100 L/W rounded to one decimal,
    with W the number of words, S the sentence count and L the number
    of words longer than six characters, whenever there is a word and
    the sentence count is not 0; it returns 0 when the word list is
    empty or the sentence count is 0.  The text "Hei. Dette er en
    test." has 5 words, 2 sentences and no long word; the kernel gives
    it the score 2.5, and in every state the service can reach the
    result for this text has LIX score 2.5 and LIX band "svært lett". *)
Theorem lix_kernel_formula :
  (forall (words : list string) (sentence_count : Z),
      words <> [] -> sentence_count <> 0%Z ->
      Spec.rounded_to 1
        (Spec.lix_value (Z.of_nat (List.length words)) sentence_count
           (Z.of_nat (List.length (Spec.long_words words))))
        (LixMetric.compute words sentence_count))
  /\ (forall (words : list string) (sentence_count : Z),
         words = [] \/ sentence_count = 0%Z ->
         LixMetric.compute words sentence_count = 0)
  /\ (let words := _extract_words Samples.S1_text in
      let sentence_count := _get_sentence_count Samples.S1_text in
      List.length words = 5%nat
      /\ sentence_count = 2%Z
      /\ Spec.long_words words = []
      /\ LixMetric.compute words sentence_count = 5 # 2)
  /\ (forall cls : t,
         Spec.served cls ->
         let result := fst (get_readability cls Samples.S1_text) in
         score (lix result) = 5 # 2
         /\ category (lix result) = "svært lett"%string).
Proof.
  split; [|split; [|split]].
  - intros [|w ws] s Hw Hs; [congruence|].
    rewrite MetricFacts.lix_compute_nonempty by exact Hs.
    apply PyFacts.round_rounded.
  - intros words s [-> | ->]; [reflexivity|].
    unfold LixMetric.compute. destruct words; reflexivity.
  - vm_compute. repeat split; reflexivity.
  - intros cls Hs result. subst result.
    rewrite (KeyFacts.short_trimmed_own_analysis cls Samples.S1_text Hs).
    + vm_compute. split; reflexivity.
    + vm_compute. lia.
    + reflexivity.
    + reflexivity.
Qed.

Lemma lix_kernel_formula_witness :
  Spec.rounded_to 1 (Spec.lix_value 5 2 0)
    (LixMetric.compute ["Hei"; "Dette"; "er"; "en"; "test"]%string 2)
  /\ score (lix (fst (get_readability
                        (snd (get_readability init Samples.text_long_word))
                        Samples.S1_text))) = 5 # 2.
Proof.
  split.
  - apply (proj1 lix_kernel_formula
             ["Hei"; "Dette"; "er"; "en"; "test"]%string 2%Z).
    + discriminate.
    + lia.
  - apply (proj2 (proj2 (proj2 lix_kernel_formula))
             (snd (get_readability init Samples.text_long_word))).
    apply Spec.served_get. apply Spec.served_init.
Defined.

(** C4.  In every state the service can reach, an empty text and a
    blank text of at most 100 characters get score 0 and the band
    "ikke tilgjengelig" for both metrics; and when no rule of the
    recommender fires, as for all-zero metrics, it returns exactly one
    recommendation, of type positive_feedback.  What the code does for
    longer blank texts, where the claim expects the same sentinel: a
    text of 103 blanks, asked for after the text made of 100 blanks and
    the word "Hei", is answered from the result cache with the analysis
    of that other text, LIX score 1 in band "svært lett". *)
Theorem blank_text_answered_from_cache :
  (forall (cls : t) (text : string),
      Spec.served cls ->
      (String.length text <= 100)%nat ->
      negb (Py.truthy text) || Py.isspace text = true ->
      let r := fst (get_readability cls text) in
      score (lix r) = 0 /\ category (lix r) = "ikke tilgjengelig"%string
      /\ score (rix r) = 0 /\ category (rix r) = "ikke tilgjengelig"%string)
  /\ (forall (m : ReadabilityRecommender.metrics) (simplified : bool),
         Spec.no_rule_fires m ->
         List.map ReadabilityRecommender.type
           (ReadabilityRecommender.generate m simplified)
         = ["positive_feedback"%string])
  /\ Spec.no_rule_fires Samples.all_zero
  /\ (let cls := snd (get_readability init Samples.padded_word) in
      let r := fst (get_readability cls Samples.blanks_103) in
      Spec.served cls
      /\ Py.isspace Samples.blanks_103 = true
      /\ _get_cache_key Samples.blanks_103
         = _get_cache_key Samples.padded_word
      /\ score (lix r) = 1
      /\ category (lix r) = "svært lett"%string
      /\ category (rix r) = "Svært lett"%string
      /\ category (lix r) <> "ikke tilgjengelig"%string
      /\ r = Spec.own_analysis Samples.padded_word).
Proof.
  split; [|split; [|split]].
  - intros cls text Hs L B r. subst r.
    rewrite (KeyFacts.short_blank_sentinel cls text Hs L B).
    cbn. repeat split; reflexivity.
  - intros m simplified Hn.
    apply (RecommenderFacts.no_rule_positive_feedback m simplified Hn).
  - exact RecommenderFacts.all_zero_no_rule.
  - split; [apply Spec.served_get; apply Spec.served_init|].
    vm_compute. repeat split; try reflexivity. discriminate.
Qed.

Lemma blank_text_answered_from_cache_witness :
  (let r :=
     fst (get_readability (snd (get_readability init Samples.padded_word))
            "   "%string) in
   score (lix r) = 0 /\ category (lix r) = "ikke tilgjengelig"%string
   /\ score (rix r) = 0 /\ category (rix r) = "ikke tilgjengelig"%string)
  /\ List.map ReadabilityRecommender.type
       (ReadabilityRecommender.generate Samples.all_zero false)
     = ["positive_feedback"%string].
Proof.
  split.
  - apply (proj1 blank_text_answered_from_cache
             (snd (get_readability init Samples.padded_word)) "   "%string).
    + apply Spec.served_get. apply Spec.served_init.
    + cbn. lia.
    + reflexivity.
  - apply (proj1 (proj2 blank_text_answered_from_cache)
             Samples.all_zero false).
    exact (proj1 (proj2 (proj2 blank_text_answered_from_cache))).
Defined.

End ServiceFacts.

Module RoundFacts.
Local Open Scope Q_scope.

Lemma round_half_even_ge (x : Q) (m : Z) :
  inject_Z m <= x -> (m <= Py.round_half_even x)%Z.
Proof.
  intros H. unfold Py.round_half_even.
  assert (F : (m <= Qfloor x)%Z).
  { rewrite <- (Qfloor_Z m). apply Qfloor_resp_le. exact H. }
  destruct (_ ?= _); [destruct (Z.even _)| |]; lia.
Qed.

Lemma round_half_even_le (x : Q) (m : Z) :
  x <= inject_Z m -> (Py.round_half_even x <= m)%Z.
Proof.
  intros H. unfold Py.round_half_even.
  pose proof (Qfloor_le x) as Hlo.
  assert (F : (Qfloor x <= m)%Z).
  { rewrite Zle_Qle. lra. }
  assert (G : 0 < x - inject_Z (Qfloor x) -> (Qfloor x + 1 <= m)%Z).
  { intros P. assert (Qfloor x < m)%Z; [|lia]. rewrite Zlt_Qlt. lra. }
  destruct (Qcompare_spec (x - inject_Z (Qfloor x)) (1 # 2)) as [E|L|L].
  - destruct (Z.even _); [exact F|]. apply G. rewrite E. reflexivity.
  - exact F.
  - apply G. lra.
Qed.

Lemma round_le (x : Q) (d : nat) (m : Z) :
  x <= inject_Z m -> Py.round x d <= inject_Z m.
Proof.
  intros H. unfold Py.round. rewrite Qred_correct.
  pose proof (PyFacts.pow10_pos d) as P.
  apply Qle_shift_div_r; [exact P|].
  rewrite <- inject_Z_mult. rewrite <- Zle_Qle.
  apply round_half_even_le. rewrite inject_Z_mult.
  apply Qmult_le_compat_r; [exact H|]. apply Qlt_le_weak. exact P.
Qed.

Lemma round_ge (x : Q) (d : nat) (m : Z) :
  inject_Z m <= x -> inject_Z m <= Py.round x d.
Proof.
  intros H. unfold Py.round. rewrite Qred_correct.
  pose proof (PyFacts.pow10_pos d) as P.
  apply Qle_shift_div_l; [exact P|].
  rewrite <- inject_Z_mult. rewrite <- Zle_Qle.
  apply round_half_even_ge. rewrite inject_Z_mult.
  apply Qmult_le_compat_r; [exact H|]. apply Qlt_le_weak. exact P.
Qed.

End RoundFacts.

Module TokenFacts.

Import ReadabilityService.

Lemma findall_word_words (s : string) :
  List.Forall
    (fun w => Py.truthy w = true /\ Notions.all_word_chars w = true)
    (Py.findall_word s).
Proof.
  induction s as [|c s IH]; [constructor|].
  cbn [Py.findall_word].
  destruct (Py.isword_char c) eqn:Hc; [|exact IH].
  assert (One : Py.truthy (String c "") = true
                /\ Notions.all_word_chars (String c "") = true).
  { split; [reflexivity|]. cbn. rewrite Hc. reflexivity. }
  destruct s as [|c' s']; [constructor; [exact One|constructor]|].
  destruct (Py.isword_char c') eqn:Hc'.
  - destruct (Py.findall_word (String c' s')) as [|w ws];
      [constructor; [exact One|constructor]|].
    inversion IH as [|? ? [Hw1 Hw2] Hws]; subst.
    constructor; [|exact Hws].
    split; [reflexivity|]. cbn. rewrite Hc, Hw2. reflexivity.
  - constructor; [exact One|exact IH].
Qed.

Lemma findall_word_length (s : string) :
  (Notions.total_length (Py.findall_word s) <= String.length s)%nat.
Proof.
  induction s as [|c s IH]; [cbn; lia|].
  cbn [Py.findall_word String.length].
  destruct (Py.isword_char c); [|lia].
  destruct s as [|c' s']; [cbn; lia|].
  destruct (Py.isword_char c').
  - destruct (Py.findall_word (String c' s')) as [|w ws]; cbn in *; lia.
  - cbn in *. lia.
Qed.

Lemma string_of_rev_length (cur : list ascii) :
  String.length (Py.string_of_rev cur) = List.length cur.
Proof.
  unfold Py.string_of_rev. rewrite <- List.length_rev.
  generalize (List.rev cur) as l. induction l as [|a l IH]; cbn; congruence.
Qed.

Lemma terminator_free_of_list (l : list ascii) :
  List.forallb (fun c => negb (is_terminator c)) l = true ->
  Notions.terminator_free (string_of_list_ascii l) = true.
Proof.
  induction l as [|a l IH]; [reflexivity|].
  cbn. intros H. apply andb_prop in H as [H1 H2]. rewrite H1, (IH H2).
  reflexivity.
Qed.

Lemma string_of_rev_free (cur : list ascii) :
  List.forallb (fun c => negb (is_terminator c)) cur = true ->
  Notions.terminator_free (Py.string_of_rev cur) = true.
Proof.
  intros H. apply terminator_free_of_list.
  rewrite List.forallb_forall in *. intros x Hx. apply H.
  apply List.in_rev. exact Hx.
Qed.

Lemma sentence_split_free_upto (n : nat) :
  forall (s : string) (in_run : bool) (cur : list ascii),
    (String.length s <= n)%nat ->
    List.forallb (fun c => negb (is_terminator c)) cur = true ->
    List.Forall (fun p => Notions.terminator_free p = true)
      (sentence_split s in_run cur).
Proof.
  induction n as [|n IH]; intros s in_run cur Hn Hcur.
  - destruct s; [|cbn in Hn; lia].
    cbn. constructor; [apply string_of_rev_free; exact Hcur|constructor].
  - destruct s as [|c s].
    { cbn. constructor; [apply string_of_rev_free; exact Hcur|constructor]. }
    cbn [String.length] in Hn.
    cbn [sentence_split].
    destruct (is_terminator c) eqn:Hc.
    + destruct in_run.
      * apply IH; [lia|reflexivity].
      * constructor; [apply string_of_rev_free; exact Hcur|].
        apply IH; [lia|reflexivity].
    + assert (Hcons : List.forallb (fun c => negb (is_terminator c))
                        (c :: cur) = true).
      { cbn. rewrite Hc. exact Hcur. }
      destruct (in_run && is_closing_quote c); [apply IH; [lia|reflexivity]|].
      destruct s as [|c' s'].
      * apply IH; [lia|exact Hcons].
      * destruct (is_newline c && is_newline c').
        -- constructor; [apply string_of_rev_free; exact Hcur|].
           apply IH; [cbn [String.length] in Hn; lia|reflexivity].
        -- apply IH; [lia|exact Hcons].
Qed.

Lemma sentence_split_length_upto (n : nat) :
  forall (s : string) (in_run : bool) (cur : list ascii),
    (String.length s <= n)%nat ->
    (Notions.total_length (sentence_split s in_run cur)
     <= String.length s + List.length cur)%nat.
Proof.
  induction n as [|n IH]; intros s in_run cur Hn.
  - destruct s; [|cbn in Hn; lia].
    cbn. rewrite string_of_rev_length. lia.
  - destruct s as [|c s].
    { cbn. rewrite string_of_rev_length. lia. }
    cbn [String.length] in Hn.
    cbn [sentence_split String.length].
    destruct (is_terminator c).
    + destruct in_run.
      * specialize (IH s true [] ltac:(lia)). cbn in IH. lia.
      * cbn [Notions.total_length]. rewrite string_of_rev_length.
        specialize (IH s true [] ltac:(lia)). cbn in IH. lia.
    + destruct (in_run && is_closing_quote c).
      { specialize (IH s false [] ltac:(lia)). cbn in IH. lia. }
      destruct s as [|c' s'].
      * specialize (IH "" false (c :: cur) ltac:(cbn; lia)). cbn in IH |- *.
        cbn in IH. lia.
      * destruct (is_newline c && is_newline c').
        -- cbn [Notions.total_length]. rewrite string_of_rev_length.
           cbn [String.length] in Hn |- *.
           specialize (IH s' false [] ltac:(lia)). cbn in IH. lia.
        -- specialize (IH (String c' s') false (c :: cur) ltac:(lia)).
           cbn [String.length List.length] in IH |- *. lia.
Qed.

Lemma count_nonempty_le (l : list string) (f : string -> bool) :
  (forall s, f s = true -> Py.truthy s = true) ->
  (List.length (List.filter f l) <= Notions.total_length l)%nat.
Proof.
  intros Hf. induction l as [|s l IH]; [cbn; lia|].
  cbn [List.filter Notions.total_length].
  destruct (f s) eqn:E; [|lia].
  apply Hf in E. destruct s; [discriminate|]. cbn in *. lia.
Qed.

Lemma sentence_count_zero (text : string) :
  _get_sentence_count text = 0
  <-> negb (Py.truthy text) || Py.isspace text = true.
Proof.
  unfold _get_sentence_count.
  destruct (negb (Py.truthy text) || Py.isspace text); split; intros H;
    try reflexivity; try discriminate; lia.
Qed.

Lemma sentence_count_range (text : string) :
  Spec.analysable text ->
  1 <= _get_sentence_count text <= Main.len text.
Proof.
  intros Ha. unfold _get_sentence_count, Spec.analysable in *. rewrite Ha.
  assert (L : (1 <= String.length text)%nat).
  { destruct text; [discriminate|]. cbn. lia. }
  pose proof (count_nonempty_le (_SENTENCE_PATTERN_split text)
                (fun s => Py.truthy s && negb (Py.isspace s))) as C.
  pose proof (sentence_split_length_upto (String.length text) text false []
                (le_n _)) as T.
  unfold _SENTENCE_PATTERN_split in *. cbn [List.length] in T.
  unfold Main.len.
  assert (C' := C ltac:(intros s Hs; apply andb_prop in Hs as [Hs _]; exact Hs)).
  lia.
Qed.

End TokenFacts.

Module BoundFacts.

Local Open Scope Q_scope.

Lemma filter_length_le {A : Type} (f : A -> bool) (l : list A) :
  (List.length (List.filter f l) <= List.length l)%nat.
Proof.
  induction l as [|a l IH]; [cbn; lia|].
  cbn. destruct (f a); cbn; lia.
Qed.

Lemma ratio_le_numerator (a b : Z) :
  (0 <= a)%Z -> (1 <= b)%Z ->
  0 <= inject_Z a / inject_Z b /\ inject_Z a / inject_Z b <= inject_Z a.
Proof.
  intros Ha Hb.
  assert (Pb : 0 < inject_Z b).
  { change 0 with (inject_Z 0). rewrite <- Zlt_Qlt. lia. }
  split.
  - apply Qle_shift_div_l; [exact Pb|].
    rewrite Qmult_0_l. change 0 with (inject_Z 0). rewrite <- Zle_Qle. exact Ha.
  - apply Qle_shift_div_r; [exact Pb|].
    rewrite <- inject_Z_mult. rewrite <- Zle_Qle. nia.
Qed.

Lemma ratio_le_one (a b : Z) :
  (0 <= a <= b)%Z -> (1 <= b)%Z ->
  0 <= inject_Z a / inject_Z b /\ inject_Z a / inject_Z b <= 1.
Proof.
  intros Ha Hb.
  assert (Pb : 0 < inject_Z b).
  { change 0 with (inject_Z 0). rewrite <- Zlt_Qlt. lia. }
  split.
  - apply Qle_shift_div_l; [exact Pb|].
    rewrite Qmult_0_l. change 0 with (inject_Z 0). rewrite <- Zle_Qle. lia.
  - apply Qle_shift_div_r; [exact Pb|].
    rewrite Qmult_1_l. rewrite <- Zle_Qle. lia.
Qed.

Lemma round_between (x : Q) (d : nat) (lo hi : Z) :
  inject_Z lo <= x -> x <= inject_Z hi ->
  inject_Z lo <= Py.round x d /\ Py.round x d <= inject_Z hi.
Proof.
  intros H1 H2. split;
    [apply RoundFacts.round_ge|apply RoundFacts.round_le]; assumption.
Qed.

Lemma lix_compute_bounds (words : list string) (sentence_count : Z) :
  (0 <= sentence_count)%Z ->
  0 <= LixMetric.compute words sentence_count
  /\ LixMetric.compute words sentence_count
     <= inject_Z (Z.of_nat (List.length words)) + 100.
Proof.
  intros Hs. unfold LixMetric.compute.
  destruct words as [|w ws].
  { cbn. split; [apply Qle_refl|discriminate]. }
  destruct (Z.eqb_spec sentence_count 0) as [->|Hne].
  { pose proof (Nat2Z.is_nonneg (List.length (w :: ws))) as P.
    rewrite Zle_Qle in P. change (inject_Z 0) with 0 in P. split; lra. }
  set (W := Z.of_nat (List.length (w :: ws))).
  assert (HW : (1 <= W)%Z) by (subst W; cbn [List.length]; lia).
  rewrite MetricFacts.count_long_filter.
  set (L := Z.of_nat (List.length (Spec.long_words (w :: ws)))).
  assert (HL : (0 <= L <= W)%Z).
  { subst L W. unfold Spec.long_words.
    pose proof (filter_length_le (fun w0 => (6 <? String.length w0)%nat) (w :: ws)).
    lia. }
  destruct (ratio_le_numerator W sentence_count ltac:(lia) ltac:(lia)) as [A1 A2].
  destruct (ratio_le_one L W HL HW) as [B1 B2].
  change 100 with (inject_Z 100) at 3.
  rewrite <- inject_Z_plus.
  change 0 with (inject_Z 0) at 1.
  apply round_between.
  - change (inject_Z 0) with 0. nra.
  - rewrite inject_Z_plus. change (inject_Z 100) with 100. nra.
Qed.

Lemma rix_compute_bounds (words : list string) (sentence_count : Z) :
  (0 <= sentence_count)%Z ->
  0 <= RIXMetric.compute words sentence_count
  /\ RIXMetric.compute words sentence_count
     <= inject_Z (Z.of_nat (List.length (Spec.words_of_7_or_more words))).
Proof.
  intros Hs. unfold RIXMetric.compute.
  rewrite MetricFacts.get_long_words_default.
  set (L := Z.of_nat (List.length (Spec.words_of_7_or_more words))).
  assert (HL : (0 <= L)%Z) by (subst L; lia).
  destruct (Z.eqb_spec sentence_count 0) as [->|Hne].
  { rewrite Zle_Qle in HL. change (inject_Z 0) with 0 in HL. split; lra. }
  destruct (ratio_le_numerator L sentence_count HL ltac:(lia)) as [A1 A2].
  change 0 with (inject_Z 0) at 1.
  apply round_between; [change (inject_Z 0) with 0|]; assumption.
Qed.

End BoundFacts.

Module CacheFacts.

Import ReadabilityService.

Lemma cache_get_None_keys (key : string) (cache : list (string * result)) :
  cache_get key cache = None <-> ~ In key (List.map fst cache).
Proof.
  induction cache as [|[k v] rest IH]; cbn [cache_get List.map fst].
  - split; [intros _ []|reflexivity].
  - destruct (String.eqb_spec k key) as [->|Hne].
    + split; [discriminate|]. intros H. exfalso. apply H. left. reflexivity.
    + rewrite IH. split.
      * intros H [E|I]; [exact (Hne E)|exact (H I)].
      * intros H I. apply H. right. exact I.
Qed.

Lemma after_eviction_length (cache : list (string * result)) :
  (List.length cache <= _MAX_CACHE_SIZE)%nat ->
  (List.length (Spec.after_eviction cache) < _MAX_CACHE_SIZE)%nat.
Proof.
  intros H. unfold Spec.after_eviction.
  destruct (Nat.leb_spec _MAX_CACHE_SIZE (List.length cache)) as [L|L].
  - rewrite List.length_skipn.
    assert (E : (_MAX_CACHE_SIZE / 4 = 250)%nat) by reflexivity.
    rewrite E. unfold _MAX_CACHE_SIZE in *. lia.
  - exact L.
Qed.

Lemma after_eviction_keys (cache : list (string * result)) :
  List.NoDup (List.map fst cache) ->
  List.NoDup (List.map fst (Spec.after_eviction cache)).
Proof.
  intros H. unfold Spec.after_eviction.
  destruct (_ <=? _)%nat; [|exact H].
  rewrite <- (List.firstn_skipn (_MAX_CACHE_SIZE / 4) cache) in H.
  rewrite List.map_app in H. apply List.NoDup_app_remove_l in H. exact H.
Qed.

Lemma snoc_keys (key : string) (r : result) (cache : list (string * result)) :
  cache_get key cache = None ->
  List.NoDup (List.map fst cache) ->
  List.NoDup (List.map fst (cache ++ [(key, r)])%list).
Proof.
  intros Hget Hnd. rewrite List.map_app. cbn [List.map fst].
  apply List.NoDup_rev in Hnd.
  rewrite <- (List.rev_involutive (List.map fst cache ++ [key])%list).
  apply List.NoDup_rev. rewrite List.rev_app_distr. cbn.
  constructor; [|exact Hnd].
  rewrite <- List.in_rev. apply cache_get_None_keys. exact Hget.
Qed.

(** The state after a call, by the way the call went. *)
Lemma get_readability_cases (cls : t) (text : string) :
  snd (get_readability cls text) = cls
  \/ (cache_get (_get_cache_key text) (_result_cache cls) = None
      /\ Spec.analysable text
      /\ _result_cache (snd (get_readability cls text))
         = (Spec.after_eviction (_result_cache cls)
            ++ [(_get_cache_key text, fst (get_readability cls text))])%list).
Proof.
  destruct (cache_get (_get_cache_key text) (_result_cache cls)) eqn:Hget.
  - left. rewrite (ReadabilityFacts.get_readability_hit _ _ _ Hget).
    reflexivity.
  - destruct (negb (Py.truthy text) || Py.isspace text) eqn:Hb.
    + left. rewrite (ReadabilityFacts.get_readability_blank _ _ Hget Hb).
      reflexivity.
    + right. repeat split; [exact Hb|].
      apply ReadabilityFacts.get_readability_stored; assumption.
Qed.

Lemma served_bounded (cls : t) :
  Spec.served cls ->
  (List.length (_result_cache cls) <= _MAX_CACHE_SIZE)%nat
  /\ List.NoDup (List.map fst (_result_cache cls)).
Proof.
  induction 1 as [|cls text Hcls [IHn IHd]].
  - split; [cbn; lia|constructor].
  - destruct (get_readability_cases cls text) as [E|(Hget & Ha & E)];
      rewrite E; [split; assumption|].
    split.
    + rewrite List.length_app. cbn [List.length].
      pose proof (after_eviction_length _ IHn). lia.
    + apply snoc_keys;
        [apply ReadabilityFacts.cache_get_after_eviction; exact Hget
        |apply after_eviction_keys; exact IHd].
Qed.

(** X1.  In every state that calls of [get_readability] can bring about,
    the result cache holds at most [_MAX_CACHE_SIZE] = 1000 entries and
    holds no key twice: a full cache loses its 250 oldest entries before
    the new one is stored. *)
Theorem result_cache_stays_bounded (cls : t) :
  Spec.served cls ->
  (List.length (_result_cache cls) <= 1000)%nat
  /\ List.NoDup (List.map fst (_result_cache cls)).
Proof. exact (served_bounded cls). Qed.

Lemma result_cache_stays_bounded_witness :
  (List.length
     (_result_cache (snd (get_readability init Samples.S1_text))) <= 1000)%nat
  /\ List.NoDup
       (List.map fst
          (_result_cache (snd (get_readability init Samples.S1_text)))).
Proof.
  apply (result_cache_stays_bounded
           (snd (get_readability init Samples.S1_text))).
  apply Spec.served_get. apply Spec.served_init.
Defined.

(** X2.  Whatever the state and the text, a call of [get_readability]
    repeated at once returns the result of the first call and leaves
    the state as the first call left it. *)
Theorem repeated_call_is_answered_alike (cls : t) (text : string) :
  get_readability (snd (get_readability cls text)) text
  = (fst (get_readability cls text), snd (get_readability cls text)).
Proof.
  destruct (cache_get (_get_cache_key text) (_result_cache cls)) eqn:Hget.
  - rewrite (ReadabilityFacts.get_readability_hit _ _ _ Hget). cbn [fst snd].
    apply ReadabilityFacts.get_readability_hit. exact Hget.
  - destruct (negb (Py.truthy text) || Py.isspace text) eqn:Hb.
    + rewrite (ReadabilityFacts.get_readability_blank _ _ Hget Hb).
      cbn [fst snd].
      apply ReadabilityFacts.get_readability_blank; assumption.
    + apply ReadabilityFacts.get_readability_hit.
      rewrite (ReadabilityFacts.get_readability_stored cls text Hget Hb).
      apply ReadabilityFacts.cache_get_snoc.
      apply ReadabilityFacts.cache_get_after_eviction. exact Hget.
Qed.

(** X3.  Two texts have the same result-cache key exactly when they
    have the same length and the same trimmed first 100 characters: the
    underscore between the two parts of the key cannot be misread,
    because the length is written in digits. *)
Theorem cache_key_identifies_preview_and_length (T T' : string) :
  _get_cache_key T = _get_cache_key T'
  <-> Py.strip (Py.slice_to 100 T) = Py.strip (Py.slice_to 100 T')
      /\ String.length T = String.length T'.
Proof.
  unfold _get_cache_key. split.
  - apply KeyFacts.key_parts.
  - intros [-> ->]. reflexivity.
Qed.

(** X4.  In every reachable state, an analysable text of at most 100
    characters is answered with the analysis of a text of the same
    length that is equal to it after trimming; if the text is trimmed
    it is answered with its own analysis. *)
Theorem short_text_is_confused_with_padding_only (cls : t) (text : string) :
  Spec.served cls ->
  (String.length text <= 100)%nat ->
  Spec.analysable text ->
  (exists t : string,
      Py.strip t = Py.strip text
      /\ String.length t = String.length text
      /\ Spec.analysable t
      /\ fst (get_readability cls text) = Spec.own_analysis t)
  /\ (Py.strip text = text ->
      fst (get_readability cls text) = Spec.own_analysis text).
Proof.
  intros Hs Hlen Ha. split.
  - destruct (ReadabilityFacts.served_sound cls Hs) as [Hl Hr].
    destruct (cache_get (_get_cache_key text) (_result_cache cls)) eqn:Hget.
    + rewrite (ReadabilityFacts.get_readability_hit _ _ _ Hget). cbn [fst].
      apply ReadabilityFacts.cache_get_In in Hget.
      unfold Spec.result_cache_sound in Hr. rewrite List.Forall_forall in Hr.
      destruct (Hr _ Hget) as (t & Hk & Hta & Hres). cbn [fst snd] in *.
      destruct (KeyFacts.same_key_short t text Hlen Hk) as [E1 E2].
      exists t. repeat split; assumption.
    + exists text. repeat split; [exact Ha|].
      apply (ReadabilityFacts.get_readability_miss cls text Hl Hget Ha).
  - intros Htrim.
    apply KeyFacts.short_trimmed_own_analysis; assumption.
Qed.

End CacheFacts.

Module StatisticsFacts.

Import ReadabilityService.

Local Open Scope Q_scope.

Lemma words_of_7_are_long (words : list string) :
  Spec.words_of_7_or_more words = Spec.long_words words.
Proof.
  unfold Spec.words_of_7_or_more, Spec.long_words.
  apply List.filter_ext. intros w.
  destruct (Nat.leb_spec 7 (String.length w)), (Nat.ltb_spec 6 (String.length w));
    try reflexivity; lia.
Qed.

(** The analysis of an analysable text on its own, field by field. *)
Lemma own_analysis_fields (text : string) :
  Spec.analysable text ->
  let words := _extract_words text in
  let sc := _get_sentence_count text in
  let W := Z.of_nat (List.length words) in
  let L := Z.of_nat (List.length (Spec.long_words words)) in
  Spec.own_analysis text
  = {| lix :=
         mk_entry (LixMetric.compute words sc)
           (LixMetric.category
              (LixMetric.classify_score (LixMetric.compute words sc)))
           (LixMetric.description
              (LixMetric.classify_score (LixMetric.compute words sc)))
           (Some (LixMetric.audience
                    (LixMetric.classify_score (LixMetric.compute words sc))))
           (Some (LixMetric.improvement_tips
                    (LixMetric.classify_score (LixMetric.compute words sc))));
       rix :=
         mk_entry (RIXMetric.compute words sc)
           (RIXMetric.category
              (RIXMetric.classify (RIXMetric.compute words sc)))
           (RIXMetric.description
              (RIXMetric.classify (RIXMetric.compute words sc)))
           (Some (RIXMetric.audience
                    (RIXMetric.classify (RIXMetric.compute words sc))))
           (Some (RIXMetric.improvement_tips
                    (RIXMetric.classify (RIXMetric.compute words sc))));
       combined_description :=
         _generate_combined_description
           (LixMetric.compute words sc) (RIXMetric.compute words sc)
           (LixMetric.classify_score (LixMetric.compute words sc))
           (RIXMetric.classify (RIXMetric.compute words sc));
       text_statistics :=
         Some {| word_count := W;
                 sentence_count := sc;
                 avg_sentence_length :=
                   Py.round (inject_Z W / inject_Z (Z.max 1 sc)) 1;
                 long_words_count := L;
                 long_words_percentage :=
                   Py.round ((inject_Z L / inject_Z (Z.max 1 W)) * 100) 1 |} |}.
Proof.
  intros Ha words sc W L. unfold Spec.own_analysis, get_readability.
  cbn [cache_get _result_cache init].
  unfold Spec.analysable in Ha. rewrite Ha.
  cbn [_lix_metric init].
  fold words. fold sc.
  change (LixMetric.classify LixMetric.init (LixMetric.compute words sc))
    with (LixMetric.classify_score (LixMetric.compute words sc),
          LixMetric.mk
            [(Py.round (LixMetric.compute words sc) 1,
              LixMetric.classify_score (LixMetric.compute words sc))]).
  cbn [fst]. reflexivity.
Qed.

Lemma own_analysis_consistent (text : string) :
  Spec.analysable text -> Notions.consistent (Spec.own_analysis text).
Proof.
  intros Ha. rewrite (own_analysis_fields text Ha).
  set (words := _extract_words text).
  set (sc := _get_sentence_count text).
  set (W := Z.of_nat (List.length words)).
  set (L := Z.of_nat (List.length (Spec.long_words words))).
  pose proof (TokenFacts.sentence_count_range text Ha) as [Hsc _].
  fold sc in Hsc.
  assert (HW : (0 <= W)%Z) by (subst W; lia).
  assert (HL : (0 <= L <= W)%Z).
  { subst L W. unfold Spec.long_words.
    pose proof (BoundFacts.filter_length_le
                  (fun w => (6 <? String.length w)%nat) words). lia. }
  eexists. split; [reflexivity|].
  cbn [word_count sentence_count long_words_count avg_sentence_length
       long_words_percentage lix rix score].
  split; [exact HW|]. split; [exact Hsc|]. split; [exact HL|].
  split; [|split; [|split]].
  - replace (Z.max 1 sc) with sc by lia.
    destruct (BoundFacts.ratio_le_numerator W sc HW Hsc) as [A1 A2].
    change 0 with (inject_Z 0) at 1.
    apply BoundFacts.round_between; [change (inject_Z 0) with 0|]; assumption.
  - destruct (BoundFacts.ratio_le_one L (Z.max 1 W) ltac:(lia) ltac:(lia))
      as [B1 B2].
    refine (BoundFacts.round_between _ 1 0 100 _ _).
    + change (inject_Z 0) with 0. nra.
    + change (inject_Z 100) with 100. nra.
  - apply BoundFacts.lix_compute_bounds. lia.
  - pose proof (BoundFacts.rix_compute_bounds words sc ltac:(lia)) as R.
    rewrite words_of_7_are_long in R. exact R.
Qed.

(** X5.  In every reachable state, a result of [get_readability] is
    the result for an empty text or its figures fit together: at least
    one sentence, a number of long words between 0 and the number of words,
    an average sentence length between 0 and the number of words, a
    percentage of long words between 0 and 100, a LIX score between 0
    and the number of words plus 100, and a RIX score between 0 and the
    number of long words. *)
Theorem served_statistics_fit_together (cls : t) (text : string) :
  Spec.served cls ->
  let r := fst (get_readability cls text) in
  r = empty_result \/ Notions.consistent r.
Proof.
  intros Hs r. subst r.
  destruct (ReadabilityFacts.served_result cls text Hs)
    as [E|(t0 & _ & Ha & E)]; rewrite E.
  - left. reflexivity.
  - right. apply own_analysis_consistent. exact Ha.
Qed.

Lemma served_statistics_fit_together_witness :
  let r := fst (get_readability
                  (snd (get_readability init Samples.text_long_word))
                  Samples.S1_text) in
  r = empty_result \/ Notions.consistent r.
Proof.
  apply (served_statistics_fit_together
           (snd (get_readability init Samples.text_long_word))
           Samples.S1_text).
  apply Spec.served_get. apply Spec.served_init.
Defined.

End StatisticsFacts.

Module KernelFacts.

Local Open Scope Q_scope.

(** X6.  For a sentence count that is not negative, the LIX score
    computed by [LixMetric.compute] lies between 0 and the number of
    words plus 100, and the RIX score computed by [RIXMetric.compute]
    lies between 0 and the number of words of 7 or more characters. *)
Theorem kernel_scores_are_bounded (words : list string) (sentence_count : Z) :
  (0 <= sentence_count)%Z ->
  (0 <= LixMetric.compute words sentence_count
   /\ LixMetric.compute words sentence_count
      <= inject_Z (Z.of_nat (List.length words)) + 100)
  /\ (0 <= RIXMetric.compute words sentence_count
      /\ RIXMetric.compute words sentence_count
         <= inject_Z (Z.of_nat (List.length (Spec.words_of_7_or_more words)))).
Proof.
  intros Hs. split;
    [apply BoundFacts.lix_compute_bounds|apply BoundFacts.rix_compute_bounds];
    exact Hs.
Qed.

Lemma kernel_scores_are_bounded_witness :
  (0 <= LixMetric.compute ["Hei"; "Dette"; "er"; "en"; "test"]%string 2
   /\ LixMetric.compute ["Hei"; "Dette"; "er"; "en"; "test"]%string 2
      <= inject_Z 5 + 100)
  /\ (0 <= RIXMetric.compute ["Hei"; "Dette"; "er"; "en"; "test"]%string 2
      /\ RIXMetric.compute ["Hei"; "Dette"; "er"; "en"; "test"]%string 2
         <= inject_Z 0).
Proof.
  apply (kernel_scores_are_bounded
           ["Hei"; "Dette"; "er"; "en"; "test"]%string 2).
  lia.
Defined.

Lemma round_zero (x : Q) (d : nat) : x == 0 -> Py.round x d = 0.
Proof.
  intros E. rewrite (PyFacts.round_proper x (inject_Z 0) d E).
  unfold Py.round.
  rewrite (PyFacts.round_half_even_proper
             (inject_Z 0 * inject_Z (Py.pow10 d)) (inject_Z 0)).
  - rewrite PyFacts.round_half_even_Z.
    change 0 with (Qred 0). apply Qred_complete.
    unfold Qdiv. apply Qmult_0_l.
  - apply Qmult_0_l.
Qed.

Lemma legacy_count_long (words : list string) :
  LegacyRixMetric.count_long words
  = Z.of_nat (List.length (Spec.words_of_7_or_more words)).
Proof.
  induction words as [|w ws IH]; [reflexivity|].
  cbn [LegacyRixMetric.count_long Spec.words_of_7_or_more List.filter].
  unfold LegacyRixMetric.LONG_WORD_THRESHOLD.
  fold (Spec.words_of_7_or_more ws). rewrite IH.
  destruct (Nat.ltb_spec 6 (String.length w)),
    (Nat.leb_spec 7 (String.length w)); try lia; cbn [List.length]; lia.
Qed.

(** X7.  The class [RixMetric] of lix_metric.py, which the package
    does not export, computes the same score as the exported class
    [RIXMetric] on every word list and sentence count: more than 6
    characters and more than 6.9 characters select the same words. *)
Theorem legacy_rix_kernel_agrees (words : list string) (sentence_count : Z) :
  LegacyRixMetric.compute words sentence_count
  = RIXMetric.compute words sentence_count.
Proof.
  unfold LegacyRixMetric.compute, RIXMetric.compute.
  destruct (Z.eqb_spec sentence_count 0) as [->|Hne].
  - destruct words; reflexivity.
  - rewrite MetricFacts.get_long_words_default.
    destruct words as [|w ws].
    + symmetry. apply round_zero. cbn. unfold Qdiv. apply Qmult_0_l.
    + rewrite legacy_count_long. reflexivity.
Qed.

End KernelFacts.

Module BandFacts.

Local Open Scope Q_scope.

Lemma cache_get_rounded (cache : list (Q * LixMetric.classification))
    (key : Q) (c : LixMetric.classification) :
  Reach.lix_cache_rounded cache ->
  LixMetric.cache_get key cache = Some c ->
  exists y : Q, Py.round y 1 == key /\ c = LixMetric.classify_score y.
Proof.
  unfold Reach.lix_cache_rounded.
  induction cache as [|[k v] rest IH]; intros Hs Hget; [discriminate|].
  inversion Hs as [|? ? (y & Hy & Hv) Hrest]; subst.
  cbn [LixMetric.cache_get] in Hget. cbn [fst snd] in *.
  destruct (Qeq_bool k key) eqn:E.
  - injection Hget as <-. exists y. split; [|exact Hv].
    rewrite Hy. apply Qeq_bool_eq. exact E.
  - apply IH; assumption.
Qed.

Lemma round_eq_of_Qeq (x y : Q) (d : nat) :
  Py.round x d == Py.round y d -> Py.round x d = Py.round y d.
Proof.
  intros E.
  rewrite <- (PyFacts.round_idempotent x d), <- (PyFacts.round_idempotent y d).
  apply PyFacts.round_proper. exact E.
Qed.

Lemma lix_reachable_rounded (m : LixMetric.t) :
  Reach.lix_reachable m ->
  Reach.lix_cache_rounded (LixMetric._classification_cache m).
Proof.
  induction 1 as [|m x Hm IH]; [constructor|].
  unfold LixMetric.classify.
  destruct (LixMetric.cache_get _ _); cbn [snd]; [exact IH|].
  cbn [LixMetric._classification_cache].
  apply List.Forall_app. split; [exact IH|].
  constructor; [|constructor]. exists x. split; reflexivity.
Qed.

(** X8.  [LixMetric.classify] answers through a cache keyed by the
    score rounded to one decimal.  After any calls, on any scores, what
    it returns for a score is the classification of some score that
    agrees with it to one decimal, and not more than that: after a call
    on 19.96 the score 20 is classified svært lett, although 20 on its
    own is lett. *)
Theorem classification_cache_sound_up_to_rounding :
  (forall (m : LixMetric.t) (x : Q),
      Reach.lix_reachable m ->
      exists y : Q,
        Py.round y 1 = Py.round x 1
        /\ fst (LixMetric.classify m x) = LixMetric.classify_score y)
  /\ (let m := snd (LixMetric.classify LixMetric.init (1996 # 100)) in
      Reach.lix_reachable m
      /\ LixMetric.category (fst (LixMetric.classify m 20)) = "svært lett"%string
      /\ LixMetric.category (LixMetric.classify_score 20) = "lett"%string).
Proof.
  split.
  - intros m x Hm. apply lix_reachable_rounded in Hm.
    unfold LixMetric.classify.
    destruct (LixMetric.cache_get _ _) as [c|] eqn:E; cbn [fst].
    + destruct (cache_get_rounded _ _ _ Hm E) as (y & Hy & Hc).
      exists y. split; [|exact Hc].
      apply round_eq_of_Qeq. exact Hy.
    + exists x. split; reflexivity.
  - cbv zeta. split; [apply Reach.lix_reachable_classify,
                       Reach.lix_reachable_init|].
    split; vm_compute; reflexivity.
Qed.

Lemma classification_cache_sound_up_to_rounding_witness :
  exists y : Q,
    Py.round y 1 = Py.round 20 1
    /\ fst (LixMetric.classify
              (snd (LixMetric.classify LixMetric.init (1996 # 100))) 20)
       = LixMetric.classify_score y.
Proof.
  apply (proj1 classification_cache_sound_up_to_rounding).
  apply Reach.lix_reachable_classify, Reach.lix_reachable_init.
Defined.

Lemma round_half_even_monotone (x y : Q) :
  x <= y -> (Py.round_half_even x <= Py.round_half_even y)%Z.
Proof.
  intros H.
  destruct (Z.lt_ge_cases (Qfloor x) (Qfloor y)) as [L|G].
  - apply Z.le_trans with (Qfloor x + 1)%Z.
    + apply RoundFacts.round_half_even_le.
      apply Qlt_le_weak, Qlt_floor.
    + apply RoundFacts.round_half_even_ge.
      apply Qle_trans with (inject_Z (Qfloor y)); [|apply Qfloor_le].
      rewrite <- Zle_Qle. lia.
  - assert (E : Qfloor x = Qfloor y).
    { pose proof (Qfloor_resp_le x y H). lia. }
    unfold Py.round_half_even. rewrite E.
    destruct (Qcompare_spec (x - inject_Z (Qfloor y)) (1 # 2)) as [A|A|A],
      (Qcompare_spec (y - inject_Z (Qfloor y)) (1 # 2)) as [B|B|B];
      try (exfalso; lra); try destruct (Z.even (Qfloor y)); lia.
Qed.

Lemma round_monotone (x y : Q) (d : nat) :
  x <= y -> Py.round x d <= Py.round y d.
Proof.
  intros H. unfold Py.round. rewrite !Qred_correct.
  pose proof (PyFacts.pow10_pos d) as P.
  unfold Qdiv. apply Qmult_le_compat_r.
  - rewrite <- Zle_Qle. apply round_half_even_monotone.
    apply Qmult_le_compat_r; [exact H|]. apply Qlt_le_weak. exact P.
  - apply Qinv_le_0_compat. apply Qlt_le_weak. exact P.
Qed.

Lemma cache_get_app_some (key : Q) (c : LixMetric.classification)
    (cache more : list (Q * LixMetric.classification)) :
  LixMetric.cache_get key cache = Some c ->
  LixMetric.cache_get key (cache ++ more) = Some c.
Proof.
  induction cache as [|[k v] rest IH]; [discriminate|].
  cbn [LixMetric.cache_get app].
  destruct (Qeq_bool k key); [trivial|exact IH].
Qed.

Lemma cache_get_app_none (key : Q)
    (cache more : list (Q * LixMetric.classification)) :
  LixMetric.cache_get key cache = None ->
  LixMetric.cache_get key (cache ++ more) = LixMetric.cache_get key more.
Proof.
  induction cache as [|[k v] rest IH]; [reflexivity|].
  cbn [LixMetric.cache_get app].
  destruct (Qeq_bool k key); [discriminate|exact IH].
Qed.

(** After a call the answer is in the cache under the rounded score. *)
Lemma classify_then_cached (m : LixMetric.t) (x : Q) :
  LixMetric.cache_get (Py.round x 1)
    (LixMetric._classification_cache (snd (LixMetric.classify m x)))
  = Some (fst (LixMetric.classify m x)).
Proof.
  unfold LixMetric.classify.
  destruct (LixMetric.cache_get (Py.round x 1)
              (LixMetric._classification_cache m)) eqn:E;
    cbn [fst snd]; [exact E|].
  cbn [LixMetric._classification_cache].
  rewrite (cache_get_app_none _ _ _ E). cbn [LixMetric.cache_get].
  rewrite Qeq_bool_refl. reflexivity.
Qed.

(** An entry of the cache is never replaced nor removed. *)
Lemma later_keeps_entries (m m' : LixMetric.t) (key : Q)
    (c : LixMetric.classification) :
  Reach.lix_later m m' ->
  LixMetric.cache_get key (LixMetric._classification_cache m) = Some c ->
  LixMetric.cache_get key (LixMetric._classification_cache m') = Some c.
Proof.
  intros L G. induction L as [|m' z L IH]; [exact G|].
  unfold LixMetric.classify.
  destruct (LixMetric.cache_get (Py.round z 1) _); cbn [snd]; [exact IH|].
  cbn [LixMetric._classification_cache].
  apply cache_get_app_some. exact IH.
Qed.

Lemma later_reachable (m m' : LixMetric.t) :
  Reach.lix_reachable m -> Reach.lix_later m m' -> Reach.lix_reachable m'.
Proof.
  intros R L. induction L as [|m' z L IH]; [exact R|].
  apply Reach.lix_reachable_classify. exact IH.
Qed.

(** What [classify] returns is the classification of a score with the
    same rounding. *)
Lemma classify_rounded (m : LixMetric.t) (x : Q) :
  Reach.lix_reachable m ->
  exists x' : Q,
    Py.round x' 1 = Py.round x 1
    /\ fst (LixMetric.classify m x) = LixMetric.classify_score x'.
Proof.
  intros Hm. apply lix_reachable_rounded in Hm.
  unfold LixMetric.classify.
  destruct (LixMetric.cache_get _ _) as [c|] eqn:E; cbn [fst].
  - destruct (cache_get_rounded _ _ _ Hm E) as (y & Hy & Hc).
    exists y. split; [|exact Hc].
    apply round_eq_of_Qeq. exact Hy.
  - exists x. split; reflexivity.
Qed.

(** Position of a LIX band in the list of bands, easiest first. *)
Lemma classify_score_monotone (x y : Q) :
  x <= y ->
  exists i j : Z,
    ReadabilityService.index
      (LixMetric.category (LixMetric.classify_score x))
      ReadabilityService._CATEGORIES = Some i
    /\ ReadabilityService.index
         (LixMetric.category (LixMetric.classify_score y))
         ReadabilityService._CATEGORIES = Some j
    /\ (i <= j)%Z.
Proof.
  intros Hxy.
  unfold LixMetric.classify_score,
    LixMetric.th_very_easy, LixMetric.th_easy, LixMetric.th_medium,
    LixMetric.th_difficult.
  destruct (Py.ltb x 20) eqn:X1; [|destruct (Py.ltb x 30) eqn:X2;
    [|destruct (Py.ltb x 40) eqn:X3; [|destruct (Py.ltb x 50) eqn:X4]]];
  (destruct (Py.ltb y 20) eqn:Y1; [|destruct (Py.ltb y 30) eqn:Y2;
    [|destruct (Py.ltb y 40) eqn:Y3; [|destruct (Py.ltb y 50) eqn:Y4]]]);
  rewrite ?PyFacts.ltb_lt, ?PyFacts.ltb_ge in *;
  try (exfalso; lra);
  (eexists; eexists; split; [vm_compute; reflexivity|];
   split; [vm_compute; reflexivity|]; lia).
Qed.

(** Two calls, in whatever states, on scores [x <= y] give bands in
    that order as soon as they agree when the scores round alike. *)
Lemma bands_ordered (m1 m2 : LixMetric.t) (x y : Q) :
  Reach.lix_reachable m1 -> Reach.lix_reachable m2 ->
  x <= y ->
  (Py.round x 1 = Py.round y 1 ->
   fst (LixMetric.classify m1 x) = fst (LixMetric.classify m2 y)) ->
  exists i j : Z,
    ReadabilityService.index
      (LixMetric.category (fst (LixMetric.classify m1 x)))
      ReadabilityService._CATEGORIES = Some i
    /\ ReadabilityService.index
         (LixMetric.category (fst (LixMetric.classify m2 y)))
         ReadabilityService._CATEGORIES = Some j
    /\ (i <= j)%Z.
Proof.
  intros R1 R2 Hxy Agree.
  destruct (classify_rounded m1 x R1) as (x' & Rx & Cx).
  destruct (classify_rounded m2 y R2) as (y' & Ry & Cy).
  destruct (Qeq_dec (Py.round x 1) (Py.round y 1)) as [E|N].
  - apply round_eq_of_Qeq in E.
    rewrite <- (Agree E), Cx.
    destruct (classify_score_monotone x' x' (Qle_refl _))
      as (i & _ & Hi & _ & _).
    exists i, i. split; [exact Hi|]. split; [exact Hi|]. lia.
  - rewrite Cx, Cy. apply classify_score_monotone.
    destruct (Qlt_le_dec y' x') as [L|L]; [|exact L].
    exfalso. apply N.
    pose proof (round_monotone x y 1 Hxy) as M1.
    pose proof (round_monotone y' x' 1 (Qlt_le_weak _ _ L)) as M2.
    rewrite Rx, Ry in M2. apply Qle_antisym; assumption.
Qed.

(** X9.  For both metrics the band never gets easier as the score
    grows.  For LIX, whose [classify] answers through the cache of the
    metric instance: if [x <= y], then the label that one instance
    gives to [x] stands in the list of labels, easiest first, at or
    before the label it gives to [y], whichever of the two it is asked
    first, in whatever state it is then, and whatever it is asked in
    between.  For RIX, whose [classify] has no cache, the same holds
    of its labels. *)
Theorem harder_score_never_easier_band (m m' : LixMetric.t) (x y : Q) :
  x <= y ->
  Reach.lix_reachable m ->
  (Reach.lix_later (snd (LixMetric.classify m x)) m' ->
   exists i j : Z,
     ReadabilityService.index
       (LixMetric.category (fst (LixMetric.classify m x)))
       ReadabilityService._CATEGORIES = Some i
     /\ ReadabilityService.index
          (LixMetric.category (fst (LixMetric.classify m' y)))
          ReadabilityService._CATEGORIES = Some j
     /\ (i <= j)%Z)
  /\ (Reach.lix_later (snd (LixMetric.classify m y)) m' ->
      exists i j : Z,
        ReadabilityService.index
          (LixMetric.category (fst (LixMetric.classify m' x)))
          ReadabilityService._CATEGORIES = Some i
        /\ ReadabilityService.index
             (LixMetric.category (fst (LixMetric.classify m y)))
             ReadabilityService._CATEGORIES = Some j
        /\ (i <= j)%Z)
  /\ (exists i j : Z,
         ReadabilityService.index
           (RIXMetric.category (RIXMetric.classify x)) Spec.rix_labels = Some i
         /\ ReadabilityService.index
              (RIXMetric.category (RIXMetric.classify y)) Spec.rix_labels
            = Some j
         /\ (i <= j)%Z).
Proof.
  intros Hxy Hm. split; [|split].
  - intros L.
    assert (Hm' : Reach.lix_reachable m').
    { eapply later_reachable; [|exact L].
      apply Reach.lix_reachable_classify. exact Hm. }
    apply bands_ordered; try assumption.
    intros E.
    pose proof (later_keeps_entries _ _ _ _ L (classify_then_cached m x))
      as G.
    rewrite E in G.
    unfold LixMetric.classify at 2. rewrite G. reflexivity.
  - intros L.
    assert (Hm' : Reach.lix_reachable m').
    { eapply later_reachable; [|exact L].
      apply Reach.lix_reachable_classify. exact Hm. }
    apply bands_ordered; try assumption.
    intros E.
    pose proof (later_keeps_entries _ _ _ _ L (classify_then_cached m y))
      as G.
    rewrite <- E in G.
    unfold LixMetric.classify at 1. rewrite G. reflexivity.
  - unfold RIXMetric.classify,
      RIXMetric.th_very_easy, RIXMetric.th_easy, RIXMetric.th_medium,
      RIXMetric.th_difficult.
    destruct (Py.ltb x (15 # 10)) eqn:X1; [|destruct (Py.ltb x 3) eqn:X2;
      [|destruct (Py.ltb x (45 # 10)) eqn:X3; [|destruct (Py.ltb x 6) eqn:X4]]];
    (destruct (Py.ltb y (15 # 10)) eqn:Y1; [|destruct (Py.ltb y 3) eqn:Y2;
      [|destruct (Py.ltb y (45 # 10)) eqn:Y3; [|destruct (Py.ltb y 6) eqn:Y4]]]);
    rewrite ?PyFacts.ltb_lt, ?PyFacts.ltb_ge in *;
    try (exfalso; lra);
    (eexists; eexists; split; [cbn [RIXMetric.category]; vm_compute; reflexivity|];
     split; [cbn [RIXMetric.category]; vm_compute; reflexivity|]; lia).
Qed.

End BandFacts.

Module TextFacts.

Import ReadabilityService.

(** X10.  Every word that [_extract_words] returns is non-empty and
    made of word characters only; together the words have at most as
    many characters as the text, and there are at most as many words as
    the text has characters. *)
Theorem extracted_words_are_runs_of_word_characters (text : string) :
  List.Forall
    (fun w => Py.truthy w = true /\ Notions.all_word_chars w = true)
    (_extract_words text)
  /\ (Notions.total_length (_extract_words text) <= String.length text)%nat
  /\ (Z.of_nat (List.length (_extract_words text)) <= Main.len text).
Proof.
  unfold _extract_words. split; [apply TokenFacts.findall_word_words|].
  split; [apply TokenFacts.findall_word_length|].
  unfold Main.len.
  pose proof (TokenFacts.findall_word_length text) as T.
  pose proof (TokenFacts.count_nonempty_le (Py.findall_word text)
                (fun w => Py.truthy w)) as C.
  assert (F : List.filter (fun w => Py.truthy w) (Py.findall_word text)
              = Py.findall_word text).
  { pose proof (TokenFacts.findall_word_words text) as W.
    revert W. generalize (Py.findall_word text) as l.
    induction l as [|w ws IH]; intros W; [reflexivity|].
    inversion W as [|? ? [Hw _] Hws]; subst.
    cbn [List.filter]. rewrite Hw, (IH Hws). reflexivity. }
  rewrite F in C. specialize (C ltac:(intros s Hs; exact Hs)). lia.
Qed.

(** X11.  [_get_sentence_count] is 0 exactly for an empty or blank
    text; for any other text it is at least 1 and at most the length of
    the text; no piece that the sentence pattern splits off contains one
    of the terminators. *)
Theorem sentence_count_is_zero_or_between_one_and_length (text : string) :
  (_get_sentence_count text = 0
   <-> negb (Py.truthy text) || Py.isspace text = true)
  /\ (Spec.analysable text ->
      1 <= _get_sentence_count text <= Main.len text)
  /\ List.Forall (fun p => Notions.terminator_free p = true)
       (_SENTENCE_PATTERN_split text).
Proof.
  split; [apply TokenFacts.sentence_count_zero|].
  split; [apply TokenFacts.sentence_count_range|].
  apply (TokenFacts.sentence_split_free_upto (String.length text));
    [apply le_n|reflexivity].
Qed.

Lemma sentence_count_is_zero_or_between_one_and_length_witness :
  1 <= _get_sentence_count Samples.S1_text <= Main.len Samples.S1_text.
Proof.
  apply (proj1 (proj2 (sentence_count_is_zero_or_between_one_and_length
                         Samples.S1_text))).
  reflexivity.
Defined.

(** X12.  A text without any word character that is not blank, such
    as two punctuation marks, is analysed, not refused: in every
    reachable state, if it is trimmed and has at most 100 characters,
    it gets score 0 and the easiest band for both metrics, and not the
    result of an empty text. *)
Theorem wordless_text_gets_the_easiest_band (cls : t) (text : string) :
  Spec.served cls ->
  (String.length text <= 100)%nat ->
  Py.strip text = text ->
  Spec.analysable text ->
  _extract_words text = [] ->
  let r := fst (get_readability cls text) in
  score (lix r) = 0%Q /\ category (lix r) = "svært lett"
  /\ score (rix r) = 0%Q /\ category (rix r) = "Svært lett"
  /\ r <> empty_result.
Proof.
  intros Hs Hlen Htrim Ha Hw r. subst r.
  rewrite (KeyFacts.short_trimmed_own_analysis cls text Hs Hlen Htrim Ha).
  rewrite (StatisticsFacts.own_analysis_fields text Ha).
  rewrite Hw. cbn [lix rix score category].
  pose proof (TokenFacts.sentence_count_range text Ha) as [Hsc _].
  assert (R : RIXMetric.compute [] (_get_sentence_count text) = 0%Q).
  { unfold RIXMetric.compute.
    destruct (Z.eqb_spec (_get_sentence_count text) 0); [reflexivity|].
    apply KernelFacts.round_zero. cbn. unfold Qdiv. apply Qmult_0_l. }
  rewrite R.
  repeat split; try (vm_compute; reflexivity).
  discriminate.
Qed.

Lemma wordless_text_gets_the_easiest_band_witness :
  let r := fst (get_readability
                  (snd (get_readability init Samples.S1_text)) "?!") in
  score (lix r) = 0%Q /\ category (lix r) = "svært lett"
  /\ score (rix r) = 0%Q /\ category (rix r) = "Svært lett"
  /\ r <> empty_result.
Proof.
  apply (wordless_text_gets_the_easiest_band
           (snd (get_readability init Samples.S1_text)) "?!").
  - apply Spec.served_get, Spec.served_init.
  - cbn. lia.
  - reflexivity.
  - reflexivity.
  - reflexivity.
Defined.

End TextFacts.

Module AdviceFacts.

Import ReadabilityRecommender.

Local Open Scope Q_scope.

Lemma positive_feedback_type (x : Q) :
  type (positive_feedback x) = "positive_feedback"%string.
Proof. unfold positive_feedback. destruct (Py.ltb x 30); reflexivity. Qed.

(** What [generate] appends before it looks whether the list is
    empty. *)
Lemma generate_shape (m : metrics) (simplified : bool) :
  exists (rules : list recommendation) (purpose_rule : option string),
    generate m simplified
    = match rules with
      | [] => [positive_feedback (get0 (m_lix_score m))]
      | _ :: _ => rules
      end
    /\ (purpose_rule = None \/ purpose_rule = Some "educational_content"%string
        \/ purpose_rule = Some "business_communication"%string)
    /\ List.map type rules
       = Advice.rule_types
           (Py.gtb (get0 (m_avg_sentence_length m)) 18)
           (Py.gtb (get0 (m_long_words_percentage m)) 25)
           (Py.gtb (get0 (m_lix_score m)) 40)
           (Py.gtb (get0 (m_lix_score m)) 50)
           (Py.gtb (get0 (m_lix_score m)) 45)
           purpose_rule
           (Py.gtb (get0 (m_rix_score m)) 4).
Proof.
  unfold generate.
  set (r5 := append_if (Py.gtb (get0 (m_lix_score m)) 45) _ _).
  assert (T5 : List.map type r5
               = ((if Py.gtb (get0 (m_avg_sentence_length m)) 18
                   then ["sentence_structure"] else [])
                  ++ (if Py.gtb (get0 (m_long_words_percentage m)) 25
                      then ["word_complexity"] else [])
                  ++ (if Py.gtb (get0 (m_lix_score m)) 40
                      then ["writing_style"; "flow_improvement"] else [])
                  ++ (if Py.gtb (get0 (m_lix_score m)) 50
                      then ["technical_language"; "structure_improvement"]
                      else [])
                  ++ (if Py.gtb (get0 (m_lix_score m)) 45
                      then ["visual_aids"] else []))%list%string).
  { subst r5. rewrite !RecommenderFacts.map_append_if.
    destruct (Py.gtb (get0 (m_avg_sentence_length m)) 18);
    destruct (Py.gtb (get0 (m_long_words_percentage m)) 25);
    destruct (Py.gtb (get0 (m_lix_score m)) 40);
    destruct (Py.gtb (get0 (m_lix_score m)) 50);
    destruct (Py.gtb (get0 (m_lix_score m)) 45); reflexivity. }
  set (r6 := if context_truthy (m_user_context m) then _ else r5).
  assert (T6 : exists purpose_rule : option string,
             (purpose_rule = None
              \/ purpose_rule = Some "educational_content"%string
              \/ purpose_rule = Some "business_communication"%string)
             /\ List.map type r6
                = (List.map type r5
                   ++ match purpose_rule with Some ty => [ty] | None => [] end)%list).
  { subst r6.
    destruct (context_truthy (m_user_context m));
      [|exists None; split; [left; reflexivity|symmetry; apply List.app_nil_r]].
    destruct (purpose_is (m_user_context m) "education"
              && Py.gtb (get0 (m_lix_score m)) 35).
    { exists (Some "educational_content"%string).
      split; [right; left; reflexivity|apply List.map_app]. }
    destruct (purpose_is (m_user_context m) "business"
              && Py.gtb (get0 (m_lix_score m)) 45).
    { exists (Some "business_communication"%string).
      split; [right; right; reflexivity|apply List.map_app]. }
    exists None. split; [left; reflexivity|symmetry; apply List.app_nil_r]. }
  destruct T6 as (purpose_rule & Hp & T6).
  exists (append_if (Py.gtb (get0 (m_rix_score m)) 4)
            [rix_recommendation (get0 (m_rix_score m))] r6), purpose_rule.
  split; [reflexivity|]. split; [exact Hp|].
  rewrite RecommenderFacts.map_append_if, T6, T5.
  unfold Advice.rule_types.
  destruct (Py.gtb (get0 (m_rix_score m)) 4);
    rewrite <- ?List.app_assoc; cbn [List.map type rix_recommendation];
    rewrite ?List.app_nil_r; reflexivity.
Qed.

Ltac no_dup :=
  repeat (constructor; [cbn; intuition discriminate|]); constructor.

Lemma rule_types_facts (a w l40 l50 l45 r : bool) (p : option string) :
  p = None \/ p = Some "educational_content"%string
  \/ p = Some "business_communication"%string ->
  List.NoDup (Advice.rule_types a w l40 l50 l45 p r)
  /\ (List.length (Advice.rule_types a w l40 l50 l45 p r) <= 9)%nat
  /\ ~ In "positive_feedback"%string (Advice.rule_types a w l40 l50 l45 p r).
Proof.
  intros [-> | [-> | ->]];
    destruct a, w, l40, l50, l45, r;
    (split; [no_dup|]); (split; [cbn; lia|]); cbn; intuition discriminate.
Qed.

(** X13.  [generate] never returns an empty list, returns at most 9
    recommendations, and never two of the same type; a recommendation of
    type positive_feedback is returned only alone. *)
Theorem recommendations_never_empty_nor_repeated (m : metrics)
    (simplified : bool) :
  generate m simplified <> []
  /\ List.NoDup (List.map type (generate m simplified))
  /\ (List.length (generate m simplified) <= 9)%nat
  /\ (In "positive_feedback"%string (List.map type (generate m simplified)) ->
      generate m simplified = [positive_feedback (get0 (m_lix_score m))]).
Proof.
  destruct (generate_shape m simplified) as (rules & p & G & Hp & T).
  pose proof (rule_types_facts
                (Py.gtb (get0 (m_avg_sentence_length m)) 18)
                (Py.gtb (get0 (m_long_words_percentage m)) 25)
                (Py.gtb (get0 (m_lix_score m)) 40)
                (Py.gtb (get0 (m_lix_score m)) 50)
                (Py.gtb (get0 (m_lix_score m)) 45)
                (Py.gtb (get0 (m_rix_score m)) 4)
                p Hp) as (Hnd & Hlen & Hpf).
  rewrite <- T in Hnd, Hlen, Hpf. rewrite G.
  destruct rules as [|r0 rules].
  - split; [discriminate|].
    split; [cbn [List.map]; no_dup|]. split; [cbn; lia|]. reflexivity.
  - split; [discriminate|]. split; [exact Hnd|].
    split; [rewrite List.length_map in Hlen; exact Hlen|].
    intros Hin. exfalso. exact (Hpf Hin).
Qed.

End AdviceFacts.

Module BreakerFacts.

Import CircuitBreaker.

Local Open Scope Q_scope.

Lemma state_fields (now : Q) (cb : t) :
  _max_failures (snd (state now cb)) = _max_failures cb
  /\ _failure_threshold (snd (state now cb)) = _failure_threshold cb
  /\ _failure_count (snd (state now cb)) = _failure_count cb
  /\ _request_count (snd (state now cb)) = _request_count cb
  /\ _success_count (snd (state now cb)) = _success_count cb
  /\ (_state (snd (state now cb)) = CLOSED -> _state cb = CLOSED).
Proof.
  unfold state. destruct (_ && _); cbn; repeat split; try discriminate; auto.
Qed.

Lemma success_fields (cb : t) :
  _max_failures (success cb) = _max_failures cb
  /\ _failure_threshold (success cb) = _failure_threshold cb.
Proof.
  unfold success. destruct (_state cb) eqn:E; cbn; rewrite ?E; cbn;
    split; reflexivity.
Qed.

Lemma failure_fields (now : Q) (cb : t) :
  _max_failures (failure now cb) = _max_failures cb
  /\ _failure_threshold (failure now cb) = _failure_threshold cb
  /\ _failure_count (failure now cb) = (_failure_count cb + 1)%Z
  /\ _request_count (failure now cb) = (_request_count cb + 1)%Z
  /\ _success_count (failure now cb) = _success_count cb.
Proof.
  unfold failure. cbn. destruct (_state cb); cbn;
    repeat match goal with
           | |- context [if ?b then _ else _] => destruct b; cbn
           end; repeat split; reflexivity.
Qed.

(** The counters of a reachable breaker: none is negative and every
    counted request is a counted failure or a counted success. *)
Lemma reachable_counters (name : string) (max_failures : Z)
    (reset_timeout threshold : Q) (cb : t) :
  BreakerReach.reachable
    (__init__ name max_failures reset_timeout threshold) cb ->
  _max_failures cb = max_failures
  /\ _failure_threshold cb = threshold
  /\ (0 <= _failure_count cb)%Z /\ (0 <= _success_count cb)%Z
  /\ _request_count cb = (_failure_count cb + _success_count cb)%Z.
Proof.
  induction 1 as [|now cb Hr (IM & IT & IF & IS & IR)
                  |cb Hr (IM & IT & IF & IS & IR)
                  |now cb Hr (IM & IT & IF & IS & IR)
                  |cb Hr (IM & IT & IF & IS & IR)].
  - cbn. repeat split; lia.
  - destruct (state_fields now cb) as (E1 & E2 & E3 & E4 & E5 & _).
    rewrite E1, E2, E3, E4, E5. repeat split; assumption.
  - destruct (success_fields cb) as (E1 & E2). rewrite E1, E2.
    split; [exact IM|]. split; [exact IT|].
    unfold success. destruct (_state cb) eqn:E; cbn; rewrite ?E; cbn; lia.
  - destruct (failure_fields now cb) as (E1 & E2 & E3 & E4 & E5).
    rewrite E1, E2, E3, E4, E5. repeat split; try assumption; lia.
  - cbn. repeat split; try assumption; lia.
Qed.

Lemma reachable_closed_below_limit (name : string) (max_failures : Z)
    (reset_timeout threshold : Q) (cb : t) :
  (1 <= max_failures)%Z ->
  BreakerReach.reachable
    (__init__ name max_failures reset_timeout threshold) cb ->
  _state cb = CLOSED -> (_failure_count cb < max_failures)%Z.
Proof.
  intros Hmax Hr.
  pose proof (reachable_counters _ _ _ _ _ Hr) as (EM & _).
  revert EM.
  induction Hr as [|now cb Hr IH|cb Hr IH|now cb Hr IH|cb Hr IH]; intros EM.
  - cbn. lia.
  - destruct (state_fields now cb) as (E1 & _ & E3 & _ & _ & Ec).
    rewrite E1 in EM. rewrite E3. intros Hc. apply IH; [exact EM|].
    apply Ec. exact Hc.
  - destruct (success_fields cb) as (E1 & _). rewrite E1 in EM.
    unfold success. destruct (_state cb) eqn:St; cbn; rewrite ?St; cbn;
      intros Hc; try congruence; try lia. apply IH; auto.
  - destruct (failure_fields now cb) as (E1 & _). rewrite E1 in EM.
    destruct (_state cb) eqn:St.
    + intros Hc.
      destruct (CircuitBreakerFacts.closed_failure_counts now cb St)
        as (Ef & [Ho | (_ & Hlt)]); [congruence|].
      rewrite Ef. lia.
    + rewrite (CircuitBreakerFacts.open_failure_stays_open now cb St).
      discriminate.
    + rewrite (proj1 (CircuitBreakerFacts.half_open_failure now cb St)).
      discriminate.
  - cbn. intros _. cbn in EM. lia.
Qed.

Lemma call_reachable (cb0 : t) (now later : Q) (func : bool) (cb : t) :
  BreakerReach.reachable cb0 cb ->
  BreakerReach.reachable cb0 (snd (call now later func cb)).
Proof.
  intros Hr. unfold call, can_execute.
  pose proof (BreakerReach.reach_state cb0 now cb Hr) as Hs.
  destruct (state now cb) as [st cb']. cbn [snd] in Hs.
  destruct (negb (negb (state_eqb st OPEN))); [exact Hs|].
  destruct func; cbn [snd];
    [apply BreakerReach.reach_success|apply BreakerReach.reach_failure];
    exact Hs.
Qed.

Lemma guarded_calls_reachable (cb0 : t) (calls : list (Q * Q * bool)) :
  forall cb : t,
    BreakerReach.reachable cb0 cb ->
    BreakerReach.reachable cb0 (Spec.guarded_calls calls cb).
Proof.
  induction calls as [|[[now later] func] rest IH]; intros cb Hr; [exact Hr|].
  cbn [Spec.guarded_calls]. apply IH. apply call_reachable. exact Hr.
Qed.

(** X14.  In every state a breaker can reach from its construction, the
    counters are not negative, every counted request is a counted
    failure or a counted success, the configured limits are unchanged,
    and a closed breaker has counted fewer failures than
    [max_failures]. *)
Theorem breaker_counters_add_up (name : string) (max_failures : Z)
    (reset_timeout threshold : Q) (cb : t) :
  BreakerReach.reachable
    (__init__ name max_failures reset_timeout threshold) cb ->
  (0 <= _failure_count cb)%Z /\ (0 <= _success_count cb)%Z
  /\ _request_count cb = (_failure_count cb + _success_count cb)%Z
  /\ _max_failures cb = max_failures
  /\ _failure_threshold cb = threshold
  /\ ((1 <= max_failures)%Z -> _state cb = CLOSED ->
      (_failure_count cb < max_failures)%Z).
Proof.
  intros Hr.
  destruct (reachable_counters _ _ _ _ _ Hr) as (EM & ET & HF & HS & HR).
  repeat split; try assumption.
  intros Hmax. apply (reachable_closed_below_limit name max_failures
                        reset_timeout threshold cb Hmax Hr).
Qed.

Lemma breaker_counters_add_up_witness :
  let cb := Spec.guarded_calls Samples.alternating_calls
              Samples.default_breaker in
  (0 <= _failure_count cb)%Z /\ (0 <= _success_count cb)%Z
  /\ _request_count cb = (_failure_count cb + _success_count cb)%Z
  /\ _max_failures cb = 5%Z
  /\ _failure_threshold cb = 50
  /\ ((1 <= 5)%Z -> _state cb = CLOSED -> (_failure_count cb < 5)%Z).
Proof.
  apply (breaker_counters_add_up "redis" 5 60 50
           (Spec.guarded_calls Samples.alternating_calls
              Samples.default_breaker)).
  apply guarded_calls_reachable. apply BreakerReach.reach_init.
Defined.

(** X15.  When [100 * (max_failures - 1) <= 11 * failure_threshold]
    (with the defaults: 400 <= 550), the failure-percentage rule never
    decides: a reachable closed breaker opens on a failure exactly when
    the count of failures reaches [max_failures]. *)
Theorem percentage_rule_never_decides (name : string) (max_failures : Z)
    (reset_timeout threshold : Q) (cb : t) (now : Q) :
  (1 <= max_failures)%Z ->
  inject_Z (100 * (max_failures - 1)) <= 11 * threshold ->
  BreakerReach.reachable
    (__init__ name max_failures reset_timeout threshold) cb ->
  _state cb = CLOSED ->
  (_state (failure now cb) = OPEN
   <-> (max_failures <= _failure_count cb + 1)%Z).
Proof.
  intros Hmax Hth Hr Hc.
  destruct (reachable_counters _ _ _ _ _ Hr) as (EM & ET & HF & HS & HR).
  rewrite (CircuitBreakerFacts.closed_failure_opens now cb Hc), EM, ET.
  split; [|intros H; left; exact H].
  intros [H|[Hreq Hratio]]; [exact H|].
  destruct (Z_le_gt_dec max_failures (_failure_count cb + 1)) as [L|G];
    [exact L|exfalso].
  replace (_request_count cb + 1 - _success_count cb)%Z
    with (_failure_count cb + 1)%Z in Hratio by lia.
  assert (P : 0 < inject_Z (_request_count cb + 1)).
  { change 0 with (inject_Z 0). rewrite <- Zlt_Qlt. lia. }
  assert (D : inject_Z (_request_count cb + 1)
              * (inject_Z (100 * (_failure_count cb + 1))
                 / inject_Z (_request_count cb + 1))
              == inject_Z (100 * (_failure_count cb + 1))).
  { apply Qmult_div_r. intros E. rewrite E in P. discriminate. }
  set (q := inject_Z (100 * (_failure_count cb + 1))
            / inject_Z (_request_count cb + 1)) in *.
  assert (A : inject_Z (100 * (_failure_count cb + 1))
              <= inject_Z (100 * (max_failures - 1))).
  { rewrite <- Zle_Qle. lia. }
  assert (B : 11 <= inject_Z (_request_count cb + 1)).
  { change 11 with (inject_Z 11). rewrite <- Zle_Qle. lia. }
  assert (C : 0 <= inject_Z (100 * (max_failures - 1))).
  { change 0 with (inject_Z 0). rewrite <- Zle_Qle. lia. }
  nra.
Qed.

Lemma percentage_rule_never_decides_witness :
  let cb := Spec.failures_at [1; 2; 3; 4] Samples.default_breaker in
  _state (failure 5 cb) = OPEN <-> (5 <= _failure_count cb + 1)%Z.
Proof.
  apply (percentage_rule_never_decides "redis" 5 60 50
           (Spec.failures_at [1; 2; 3; 4] Samples.default_breaker) 5).
  - lia.
  - vm_compute. discriminate.
  - unfold Spec.failures_at. cbn [List.fold_left].
    repeat apply BreakerReach.reach_failure. apply BreakerReach.reach_init.
  - vm_compute. reflexivity.
Defined.

End BreakerFacts.

Module StripFacts.

Lemma rstrip_idempotent (s : string) : Py.rstrip (Py.rstrip s) = Py.rstrip s.
Proof.
  induction s as [|c s IH]; [reflexivity|].
  cbn [Py.rstrip].
  destruct (Py.isspace_char c && negb (Py.truthy (Py.rstrip s))) eqn:E;
    [reflexivity|].
  cbn [Py.rstrip]. rewrite IH, E. reflexivity.
Qed.

Lemma lstrip_head (s : string) :
  Py.lstrip s = ""
  \/ exists (c : ascii) (s' : string),
       Py.lstrip s = String c s' /\ Py.isspace_char c = false.
Proof.
  induction s as [|c s IH]; [left; reflexivity|].
  cbn [Py.lstrip]. destruct (Py.isspace_char c) eqn:E; [exact IH|].
  right. exists c, s. split; [reflexivity|exact E].
Qed.

Lemma strip_idempotent (s : string) : Py.strip (Py.strip s) = Py.strip s.
Proof.
  unfold Py.strip.
  destruct (lstrip_head s) as [E|(c & s' & E & Hc)]; rewrite E.
  - reflexivity.
  - cbn [Py.rstrip]. rewrite Hc. cbn [andb Py.lstrip]. rewrite Hc.
    rewrite <- (rstrip_idempotent s') at 2.
    cbn [Py.rstrip]. rewrite Hc. cbn [andb]. rewrite rstrip_idempotent.
    reflexivity.
Qed.

Lemma append_inv_head (p a b : string) : p ++ a = p ++ b -> a = b.
Proof.
  induction p as [|c p IH]; rewrite ?KeyFacts.append_nil; [auto|].
  rewrite !KeyFacts.append_cons. intros [= E]. apply IH. exact E.
Qed.

Lemma append_same_length (a b c d : string) :
  String.length a = String.length c ->
  a ++ b = c ++ d -> a = c /\ b = d.
Proof.
  revert c. induction a as [|x a IH]; intros [|y c] L; try discriminate.
  - rewrite !KeyFacts.append_nil. auto.
  - rewrite !KeyFacts.append_cons. intros [= -> E].
    cbn in L. destruct (IH c ltac:(lia) E) as [-> ->]. auto.
Qed.

End StripFacts.

Module HandlerFacts.

Import Main.

Section WithCollaborators.
Context `{Collaborators}.

(** X16.  For digests of equal length, as MD5 digests are, two cache
    keys are equal only if the digests are equal and both options are
    equal: a result computed with one set of options is never served
    for another. *)
Theorem cache_key_separates_options (t t' : string) (w s w' s' : bool) :
  String.length (md5_hexdigest t) = String.length (md5_hexdigest t') ->
  cache_key_of t w s = cache_key_of t' w' s' ->
  md5_hexdigest t = md5_hexdigest t' /\ w = w' /\ s = s'.
Proof.
  intros L E. unfold cache_key_of in E.
  apply StripFacts.append_inv_head in E.
  apply (StripFacts.append_same_length _ _ _ _ L) in E as [E1 E2].
  split; [exact E1|].
  destruct w, w', s, s'; cbn in E2; try discriminate; auto.
Qed.

(** X17.  When the three expiry times are configured in the order
    large <= default <= small, as the defaults are, a longer text never
    gets a longer expiry time than a shorter one, and every expiry time
    lies between the one for large and the one for small texts. *)
Theorem ttl_shrinks_with_length (cfg : config) (t t' : string) :
  REDIS_CACHE_TTL_LARGE cfg <= REDIS_CACHE_TTL cfg ->
  REDIS_CACHE_TTL cfg <= REDIS_CACHE_TTL_SMALL cfg ->
  (String.length t <= String.length t')%nat ->
  get_cache_ttl cfg t' <= get_cache_ttl cfg t
  /\ REDIS_CACHE_TTL_LARGE cfg <= get_cache_ttl cfg t
     <= REDIS_CACHE_TTL_SMALL cfg.
Proof.
  intros H1 H2 L. unfold get_cache_ttl, len, SMALL_TEXT_THRESHOLD,
    LARGE_TEXT_THRESHOLD.
  destruct (Z.ltb_spec (Z.of_nat (String.length t)) 1000),
    (Z.ltb_spec (Z.of_nat (String.length t')) 1000),
    (Z.gtb_spec (Z.of_nat (String.length t)) 10000),
    (Z.gtb_spec (Z.of_nat (String.length t')) 10000); lia.
Qed.

(** POST /analyze works on the trimmed text only. *)
Lemma analyze_text_padding (cfg : config) (t : string)
    (w s : option bool) (uc : option (gmap string string))
    (env : analyze_env) (r : redis) (svc : ReadabilityService.t) :
  analyze_text cfg (mk_text_request (Py.strip t) w s uc) env r svc
  = analyze_text cfg (mk_text_request t w s uc) env r svc.
Proof.
  unfold analyze_text. cbn [text]. rewrite StripFacts.strip_idempotent.
  reflexivity.
Qed.

Lemma get_after_set (r : redis) (key : string) (v : value) (ttl : Z) :
  get_from_cache true (set_in_cache true r key v ttl) key = Some v.
Proof.
  unfold get_from_cache, set_in_cache, redis_set. cbn [kv].
  rewrite lookup_insert_eq. reflexivity.
Qed.

Lemma get_after_set_other (r : redis) (key key' : string) (v : value)
    (ttl : Z) (ok : bool) :
  key <> key' ->
  get_from_cache true (set_in_cache ok r key v ttl) key'
  = get_from_cache true r key'.
Proof.
  intros N. unfold get_from_cache, set_in_cache, redis_set.
  destruct ok; [|reflexivity]. cbn [kv].
  rewrite lookup_insert_ne by exact N. reflexivity.
Qed.

(** A request whose key is in the store is answered from the store. *)
Lemma analyze_text_hit (cfg : config) (request : TextRequest)
    (env : analyze_env) (r : redis) (svc : ReadabilityService.t)
    (cache_key : string) (v : value) :
  Py.truthy (Py.strip (text request)) = true ->
  generate_cache_key (Py.strip (text request))
    (include_word_analysis request) (include_sentence_analysis request)
  = Some cache_key ->
  get_from_cache (get_ok env) r cache_key = Some v ->
  analyze_text cfg request env r svc = (CachedAnalysis v, r, svc, []).
Proof.
  intros T K G. unfold analyze_text. rewrite T. cbn [negb].
  rewrite K, G. reflexivity.
Qed.

(** A request that misses the store and is small enough is analysed
    at once, and the result is written under its key. *)
Lemma analyze_text_miss (cfg : config) (request : TextRequest)
    (env : analyze_env) (r : redis) (svc svc1 : ReadabilityService.t)
    (cache_key : string) (result : analysis_record) :
  Py.truthy (Py.strip (text request)) = true ->
  generate_cache_key (Py.strip (text request))
    (include_word_analysis request) (include_sentence_analysis request)
  = Some cache_key ->
  get_from_cache (get_ok env) r cache_key = None ->
  (len (Py.strip (text request)) >? BACKGROUND_PROCESSING_THRESHOLD cfg)
  = false ->
  full_analysis svc (Py.strip (text request)) (include_word_analysis request)
    (include_sentence_analysis request) (user_context request)
  = (Some result, svc1) ->
  analyze_text cfg request env r svc
  = (Analysis result,
     set_in_cache (set_result_ok env) r cache_key (VAnalysis result)
       (get_cache_ttl cfg (Py.strip (text request))),
     svc1, []).
Proof.
  intros T K G L F. unfold analyze_text. rewrite T. cbn [negb].
  rewrite K, G, L, F. reflexivity.
Qed.

(** A request that misses the store and is too large is handed to a
    background task. *)
Lemma analyze_text_accepts (cfg : config) (request : TextRequest)
    (env : analyze_env) (r : redis) (svc : ReadabilityService.t)
    (cache_key : string) :
  Py.truthy (Py.strip (text request)) = true ->
  generate_cache_key (Py.strip (text request))
    (include_word_analysis request) (include_sentence_analysis request)
  = Some cache_key ->
  get_from_cache (get_ok env) r cache_key = None ->
  (len (Py.strip (text request)) >? BACKGROUND_PROCESSING_THRESHOLD cfg)
  = true ->
  let trimmed := Py.strip (text request) in
  let task_id :=
    "task-" ++ Py.slice_to 10 (md5_hexdigest trimmed) ++ "-"
    ++ Py.str_of_N (now env) in
  analyze_text cfg request env r svc
  = (TaskAccepted task_id "processing" ("/task/" ++ task_id)
       (Z.max 5 (len trimmed / 10000)),
     set_in_cache (set_status_ok env) r ("task_status:" ++ task_id)
       (VTaskStatus (mk_task_status "processing" None)) 3600,
     svc,
     [process_text_analysis_background task_id trimmed
        (include_word_analysis request) (include_sentence_analysis request)
        cache_key (user_context request)]).
Proof.
  intros T K G L. unfold analyze_text. rewrite T. cbn [negb].
  rewrite K, G, L. reflexivity.
Qed.

(** X19.  When POST /analyze has answered a request with a fresh
    analysis and its write reached the store, the same request is then
    answered from the store with that analysis, without a new analysis
    and without a change of the store. *)
Theorem analysis_is_served_from_the_cache_afterwards (cfg : config)
    (request : TextRequest) (env : analyze_env) (r r1 : redis)
    (svc svc1 : ReadabilityService.t) (result : analysis_record)
    (tasks : list task) :
  analyze_text cfg request env r svc = (Analysis result, r1, svc1, tasks) ->
  set_result_ok env = true ->
  forall (env' : analyze_env) (svc' : ReadabilityService.t),
    get_ok env' = true ->
    analyze_text cfg request env' r1 svc'
    = (CachedAnalysis (VAnalysis result), r1, svc', []).
Proof.
  intros E Hset env' svc' Hget.
  unfold analyze_text in E.
  destruct (Py.truthy (Py.strip (text request))) eqn:T; cbn [negb] in E;
    [|discriminate].
  destruct (generate_cache_key _ _ _) as [cache_key|] eqn:K; [|discriminate].
  destruct (get_from_cache (get_ok env) r cache_key); [discriminate|].
  destruct (_ >? _); [discriminate|].
  destruct (full_analysis _ _ _ _ _) as [[res|] svc2]; [|discriminate].
  injection E as <- <- <- <-.
  apply (analyze_text_hit cfg request env' _ svc' cache_key); try assumption.
  rewrite Hset, Hget. apply get_after_set.
Qed.

End WithCollaborators.

End HandlerFacts.

Module TaskFacts.

Import Main Polling.

Section WithCollaborators.
Context `{Collaborators}.

Lemma cache_key_prefix (text : string) (w s : option bool)
    (cache_key : string) :
  generate_cache_key text w s = Some cache_key ->
  forall task_id : string, "task_status:" ++ task_id <> cache_key.
Proof.
  intros K task_id.
  destruct (MainFacts.cache_key_is_analysis text w s cache_key K) as [rest ->].
  apply MainFacts.task_status_key_differs.
Qed.

(** X20.  When POST /analyze has accepted a request as a background
    task, it schedules one worker for the trimmed text; GET /task/{id}
    reports processing until the worker has run; after the worker has
    run with the store reachable, GET /task/{id} returns the result and
    the same request is answered from the store with it, or, if the
    analysis raised, GET /task/{id} reports failed. *)
Theorem background_task_round_trip (cfg : config) (request : TextRequest)
    (env : analyze_env) (r r1 : redis) (svc svc1 : ReadabilityService.t)
    (task_id status polling_endpoint : string) (estimate : Z)
    (tasks : list task) :
  analyze_text cfg request env r svc
  = (TaskAccepted task_id status polling_endpoint estimate, r1, svc1, tasks) ->
  exists cache_key : string,
    let trimmed := Py.strip (text request) in
    let w := include_word_analysis request in
    let s := include_sentence_analysis request in
    let uc := user_context request in
    tasks = [process_text_analysis_background task_id trimmed w s cache_key uc]
    /\ (set_status_ok env = true ->
        get_task_status true r1 task_id
        = TaskStatus (mk_task_status "processing" None))
    /\ forall (r2 : redis) (svc2 : ReadabilityService.t),
         let r3 :=
           fst (run_process_text_analysis_background cfg task_id trimmed w s
                  cache_key uc true true r2 svc2) in
         match fst (full_analysis svc2 trimmed w s uc) with
         | Some result =>
             get_task_status true r3 task_id = TaskResult result
             /\ forall (env' : analyze_env) (svc' : ReadabilityService.t),
                  get_ok env' = true ->
                  analyze_text cfg request env' r3 svc'
                  = (CachedAnalysis (VAnalysis result), r3, svc', [])
         | None =>
             get_task_status true r3 task_id
             = TaskStatus (mk_task_status "failed" None)
         end.
Proof.
  intros E. unfold analyze_text in E.
  destruct (Py.truthy (Py.strip (text request))) eqn:T; cbn [negb] in E;
    [|discriminate].
  destruct (generate_cache_key _ _ _) as [cache_key|] eqn:K; [|discriminate].
  destruct (get_from_cache (get_ok env) r cache_key); [discriminate|].
  destruct (_ >? _).
  2:{ destruct (full_analysis _ _ _ _ _) as [[res|] svc2]; discriminate. }
  injection E as <- _ _ _ <- _ <-.
  exists cache_key. cbv zeta. split; [reflexivity|]. split.
  - intros ->. unfold get_task_status. rewrite HandlerFacts.get_after_set.
    reflexivity.
  - intros r2 svc2. unfold run_process_text_analysis_background.
    destruct (full_analysis svc2 _ _ _ _) as [[result|] svc3]; cbn [fst].
    + split.
      * unfold get_task_status. rewrite HandlerFacts.get_after_set.
        reflexivity.
      * intros env' svc' Hget.
        apply (HandlerFacts.analyze_text_hit cfg request env' _ svc' cache_key);
          try assumption.
        rewrite Hget.
        rewrite HandlerFacts.get_after_set_other
          by (apply (cache_key_prefix _ _ _ _ K)).
        apply HandlerFacts.get_after_set.
    + unfold get_task_status. rewrite HandlerFacts.get_after_set.
      reflexivity.
Qed.

End WithCollaborators.

End TaskFacts.

Module SessionFacts.

Import Main MainSpec.

Local Open Scope Q_scope.

Section WithCollaborators.
Context `{Collaborators}.

Ltac inner_case :=
  match goal with
  | |- context [match ?x with _ => _ end] =>
      lazymatch x with
      | context [match _ with _ => _ end] => fail
      | _ => destruct x
      end
  end.

Lemma websocket_message_debounce (cfg : config) (s : session) (m : message)
    (env : ws_env) (r : redis) (svc : ReadabilityService.t) :
  let s' := session_after (websocket_message cfg s m env r svc) in
  let load := (cpu_load env + memory_use env) / 2 in
  debounce_time s' = debounce_time s
  \/ debounce_time s' = adaptive_debounce load
  \/ debounce_time s' = adaptive_debounce load * (12 # 10).
Proof.
  unfold websocket_message, process_normally, ensure_readability.
  repeat inner_case; cbn; auto.
Qed.

(** X21.  In every session reachable from the opening of a WebSocket
    connection the debounce window lies between 0.1 and 0.96 seconds:
    the window chosen from the load is at most 0.8 and is multiplied by
    1.2 for texts of more than 5000 characters. *)
Theorem debounce_window_stays_in_range (s : session) :
  ws_reachable s ->
  1 # 10 <= debounce_time s /\ debounce_time s <= 96 # 100.
Proof.
  induction 1 as [t0|cfg s m env r svc Hs IH].
  - cbn. split; discriminate.
  - pose proof (StreamingFacts.adaptive_debounce_bounds
                  ((cpu_load env + memory_use env) / 2)) as [B1 B2].
    unfold min_debounce_time, max_debounce_time in *.
    destruct (websocket_message_debounce cfg s m env r svc) as [E|[E|E]];
      rewrite E; [exact IH| |]; split; lra.
Qed.

(** X22.  A WebSocket message that gets no reply changes nothing.
    Otherwise it gets one reply, or two of which the first is a partial
    result with the readability of the message's text; detailed work is
    scheduled only with a single partial reply for a text of more than
    10000 characters, and then for that text and the key of the shared
    cache. *)
Theorem a_message_gets_at_most_two_replies (cfg : config) (s : session) (m : message)
    (env : ws_env) (r : redis) (svc : ReadabilityService.t) :
  let out := websocket_message cfg s m env r svc in
  (Wire.replies out = [] /\ out = ([], s, r, svc, []))
  \/ (exists p : ws_reply,
         Wire.replies out = [p]
         /\ (Wire.scheduled out = []
             \/ exists i : analysis_record,
                  Wire.built p = Some i /\ partial i = Some true
                  /\ (10000 < len (Py.strip (msg_text m)))%Z
                  /\ Wire.scheduled out
                     = [process_detailed_analysis (Py.strip (msg_text m))
                          (msg_include_word_analysis m)
                          (msg_include_sentence_analysis m)
                          (cache_key_of (Py.strip (msg_text m))
                             (msg_include_word_analysis m)
                             (msg_include_sentence_analysis m))]))
  \/ (exists (p q : ws_reply) (i : analysis_record),
         Wire.replies out = [p; q]
         /\ Wire.built p = Some i /\ partial i = Some true
         /\ readability i
            = fst (ReadabilityService.get_readability svc
                     (Py.strip (msg_text m)))
         /\ Wire.scheduled out = []).
Proof.
  unfold websocket_message, process_normally, ensure_readability.
  destruct (len (Py.strip (msg_text m)) >? 10000)%Z eqn:Big.
  - apply Z.gtb_lt in Big.
    repeat inner_case; cbn;
      first [left; split; reflexivity
            |right; left; eexists; split; [reflexivity|];
             first [left; reflexivity
                   |right; eexists; split; [reflexivity|];
                    split; [reflexivity|]; split; [exact Big|reflexivity]]
            |right; right; do 3 eexists; repeat split; reflexivity].
  - repeat inner_case; cbn;
      first [left; split; reflexivity
            |right; left; eexists; split; [reflexivity|left; reflexivity]
            |right; right; do 3 eexists; repeat split; reflexivity].
Qed.

End WithCollaborators.

End SessionFacts.

Module SessionCacheFacts.

Import Main MainSpec.

Local Open Scope Q_scope.

Section WithCollaborators.
Context `{Collaborators}.

Ltac inner_case_eq :=
  match goal with
  | |- context [match ?x with _ => _ end] =>
      lazymatch x with
      | context [match _ with _ => _ end] => fail
      | _ => destruct x eqn:?
      end
  end.

(** The final result that a session builds for a message is kept in
    its connection cache under the key of the message, and the text
    of the message becomes the text processed last. *)
Lemma built_result_is_kept (cfg : config) (s : session) (m : message)
    (env : ws_env) (r : redis) (svc : ReadabilityService.t)
    (res : analysis_record) :
  let out := websocket_message cfg s m env r svc in
  let T := Py.strip (msg_text m) in
  List.last (Wire.replies out) (ws_error "") = ws_json (Built res) ->
  partial res = Some false ->
  connection_cache (session_after out)
    !! Wire.connection_key T (msg_include_word_analysis m)
         (msg_include_sentence_analysis m)
  = Some (Built res)
  /\ last_text (session_after out) = T
  /\ Py.truthy T = true.
Proof.
  unfold websocket_message, process_normally, ensure_readability,
    Wire.connection_key.
  destruct (Py.truthy (Py.strip (msg_text m))) eqn:T; cbn [negb];
    [|cbn; discriminate].
  repeat inner_case_eq; cbn; intros Hl Hp;
    try discriminate;
    try (injection Hl as <-; cbn in Hp; try discriminate);
    (split; [|split; reflexivity]);
    first [assumption | apply lookup_insert_eq | idtac].
Qed.

(** A message whose key is in the connection cache is answered with
    the cached object, whatever its text is beyond the key. *)
Lemma connection_cache_hit (cfg : config) (s : session) (m : message)
    (env : ws_env) (r : redis) (svc : ReadabilityService.t) (p : payload) :
  let T := Py.strip (msg_text m) in
  Py.truthy T = true ->
  T <> last_text s ->
  debounce_time s <= current_time env - last_process_time s ->
  connection_cache s
    !! Wire.connection_key T (msg_include_word_analysis m)
         (msg_include_sentence_analysis m) = Some p ->
  Wire.replies (websocket_message cfg s m env r svc) = [ws_json p]
  /\ Wire.store_after (websocket_message cfg s m env r svc) = r
  /\ Wire.service_after (websocket_message cfg s m env r svc) = svc
  /\ Wire.scheduled (websocket_message cfg s m env r svc) = [].
Proof.
  intros T HT Hne Hd Hc. subst T. unfold websocket_message.
  rewrite HT. cbn [negb].
  destruct (String.eqb_spec (Py.strip (msg_text m)) (last_text s)) as [E|_];
    [contradiction|].
  rewrite (proj2 (PyFacts.ltb_ge _ _) Hd). cbn [andb].
  unfold Wire.connection_key in Hc.
  cbn [connection_cache with_debounce_time]. rewrite Hc.
  repeat split; reflexivity.
Qed.

(** X23.  The connection cache is keyed by the first 50 characters,
    the length and the two flags.  When a session has built the final
    result for one text, a message with a different text that has the
    same first 50 characters, length and flags, and is not debounced,
    is answered with the readability block and the text analysis of the
    first text; nothing is analysed, stored or scheduled. *)
Theorem connection_cache_answers_for_a_different_text
    (cfg cfg' : config) (s : session) (m m' : message) (env env' : ws_env)
    (r r' : redis) (svc svc' : ReadabilityService.t)
    (res : analysis_record) :
  let out := websocket_message cfg s m env r svc in
  let T := Py.strip (msg_text m) in
  let T' := Py.strip (msg_text m') in
  List.last (Wire.replies out) (ws_error "") = ws_json (Built res) ->
  partial res = Some false ->
  T' <> T ->
  Py.slice_to 50 T' = Py.slice_to 50 T ->
  String.length T' = String.length T ->
  msg_include_word_analysis m' = msg_include_word_analysis m ->
  msg_include_sentence_analysis m' = msg_include_sentence_analysis m ->
  debounce_time (session_after out)
  <= current_time env' - last_process_time (session_after out) ->
  let out' := websocket_message cfg' (session_after out) m' env' r' svc' in
  (exists res' : analysis_record,
      Wire.replies out' = [ws_json (Built res')]
      /\ readability res' = readability res
      /\ text_analysis_data res' = text_analysis_data res)
  /\ Wire.store_after out' = r'
  /\ Wire.service_after out' = svc'
  /\ Wire.scheduled out' = [].
Proof.
  intros out T T' Hl Hp Hne Hs Hlen Hw Hsa Hd out'.
  destruct (built_result_is_kept cfg s m env r svc res Hl Hp)
    as (Hc & Hlast & HT).
  subst out' T' T out.
  cut (Wire.replies
         (websocket_message cfg'
            (session_after (websocket_message cfg s m env r svc)) m' env' r'
            svc') = [ws_json (Built res)]
       /\ Wire.store_after
            (websocket_message cfg'
               (session_after (websocket_message cfg s m env r svc)) m' env'
               r' svc') = r'
       /\ Wire.service_after
            (websocket_message cfg'
               (session_after (websocket_message cfg s m env r svc)) m' env'
               r' svc') = svc'
       /\ Wire.scheduled
            (websocket_message cfg'
               (session_after (websocket_message cfg s m env r svc)) m' env'
               r' svc') = []).
  { intros (E1 & E2 & E3 & E4). split; [|repeat split; assumption].
    exists res. repeat split. exact E1. }
  apply connection_cache_hit.
  - destruct (Py.strip (msg_text m')); [|reflexivity].
    destruct (Py.strip (msg_text m)); [discriminate|]. cbn in Hlen.
    discriminate.
  - rewrite Hlast. exact Hne.
  - exact Hd.
  - unfold Wire.connection_key in *.
    rewrite Hs, Hlen, Hw, Hsa. exact Hc.
Qed.

(** X24.  The loop keeps [readability_data] across iterations.  In a
    session in which it is bound, a message of at most 1000 characters
    that arrives at least half a second after the last processing, and
    misses both caches, is answered with that earlier readability
    block, whatever its text is; the readability service is not
    consulted. *)
Theorem pause_reuses_the_readability_bound_before (cfg : config)
    (s : session) (m : message) (env : ws_env) (r : redis)
    (svc : ReadabilityService.t) (rd : ReadabilityService.result) :
  let T := Py.strip (msg_text m) in
  let out := websocket_message cfg s m env r svc in
  readability_data s = Some rd ->
  Py.truthy T = true ->
  T <> last_text s ->
  debounce_time s <= current_time env - last_process_time s ->
  5 # 10 <= current_time env - last_process_time s ->
  (len T <= 1000)%Z ->
  connection_cache s
    !! Wire.connection_key T (msg_include_word_analysis m)
         (msg_include_sentence_analysis m) = None ->
  get_from_cache (ws_get_ok env) r
    (cache_key_of T (msg_include_word_analysis m)
       (msg_include_sentence_analysis m)) = None ->
  Wire.service_after out = svc
  /\ (Wire.replies out = [ws_error "Error processing text: "]
      \/ exists res : analysis_record,
           Wire.replies out = [ws_json (Built res)]
           /\ readability res = rd /\ partial res = Some false).
Proof.
  intros T out Hrd HT Hne Hd Hhalf Hlen Hc Hg. subst out T.
  unfold websocket_message.
  rewrite HT. cbn [negb].
  destruct (String.eqb_spec (Py.strip (msg_text m)) (last_text s)) as [E|_];
    [contradiction|].
  rewrite (proj2 (PyFacts.ltb_ge _ _) Hd). cbn [andb].
  unfold Wire.connection_key in Hc.
  cbn [connection_cache with_debounce_time]. rewrite Hc, Hg.
  assert (L : (len (Py.strip (msg_text m)) >? 1000)%Z = false)
    by (rewrite Z.gtb_ltb; apply Z.ltb_ge; exact Hlen).
  rewrite L. rewrite (proj2 (PyFacts.ltb_ge _ _) Hhalf). cbn [orb].
  unfold process_normally, ensure_readability.
  cbn [readability_data with_debounce_time]. rewrite Hrd.
  repeat (inner_case_eq; cbn [readability_data with_debounce_time];
          rewrite ?Hrd);
    cbn; split; try reflexivity;
    first [left; reflexivity
          |right; eexists; repeat split; reflexivity].
Qed.

End WithCollaborators.

End SessionCacheFacts.

Module SharedCacheFacts.

Import Main MainSpec Polling.

Local Open Scope Q_scope.

Section WithCollaborators.
Context `{Collaborators}.

(** A message whose key is in the shared cache, and not in the
    connection cache, is answered from the shared cache. *)
Lemma shared_cache_hit (cfg : config) (s : session) (m : message)
    (env : ws_env) (r : redis) (svc : ReadabilityService.t) (v : value) :
  let T := Py.strip (msg_text m) in
  Py.truthy T = true ->
  T <> last_text s ->
  debounce_time s <= current_time env - last_process_time s ->
  connection_cache s
    !! Wire.connection_key T (msg_include_word_analysis m)
         (msg_include_sentence_analysis m) = None ->
  get_from_cache (ws_get_ok env) r
    (cache_key_of T (msg_include_word_analysis m)
       (msg_include_sentence_analysis m)) = Some v ->
  Wire.replies (websocket_message cfg s m env r svc) = [ws_json (FromCache v)]
  /\ Wire.store_after (websocket_message cfg s m env r svc) = r
  /\ Wire.service_after (websocket_message cfg s m env r svc) = svc
  /\ Wire.scheduled (websocket_message cfg s m env r svc) = [].
Proof.
  intros T HT Hne Hd Hc Hg. subst T. unfold websocket_message.
  rewrite HT. cbn [negb].
  destruct (String.eqb_spec (Py.strip (msg_text m)) (last_text s)) as [E|_];
    [contradiction|].
  rewrite (proj2 (PyFacts.ltb_ge _ _) Hd). cbn [andb].
  unfold Wire.connection_key in Hc.
  cbn [connection_cache with_debounce_time]. rewrite Hc, Hg.
  repeat split; reflexivity.
Qed.

(** X25.  When [process_detailed_analysis] has run for a trimmed text
    with the key of the shared cache and its write reached the store,
    the store holds its result under that key, and both POST /analyze
    with the same options and a WebSocket message with the same text
    and flags that misses the connection cache are answered with it. *)
Theorem detailed_analysis_is_served_by_both_endpoints (cfg : config)
    (T : string) (w s : bool) (r : redis) (svc : ReadabilityService.t)
    (ta : text_analysis) :
  let cache_key := cache_key_of T w s in
  let r1 := fst (process_detailed_analysis cfg T w s cache_key true r svc) in
  TextAnalysisService_analyze_text T false = Some ta ->
  Py.strip T = T ->
  Py.truthy T = true ->
  exists result : analysis_record,
    kv r1 !! cache_key = Some (VAnalysis result, get_cache_ttl cfg T)
    /\ readability result = fst (ReadabilityService.get_readability svc T)
    /\ partial result = Some false
    /\ (forall (uc : option (gmap string string)) (env : analyze_env)
               (svc' : ReadabilityService.t),
           get_ok env = true ->
           analyze_text cfg (mk_text_request T (Some w) (Some s) uc) env r1 svc'
           = (CachedAnalysis (VAnalysis result), r1, svc', []))
    /\ (forall (cfg' : config) (ses : session) (m : message) (env : ws_env)
               (svc' : ReadabilityService.t),
           Py.strip (msg_text m) = T ->
           msg_include_word_analysis m = w ->
           msg_include_sentence_analysis m = s ->
           T <> last_text ses ->
           debounce_time ses <= current_time env - last_process_time ses ->
           connection_cache ses !! Wire.connection_key T w s = None ->
           ws_get_ok env = true ->
           Wire.replies (websocket_message cfg' ses m env r1 svc')
           = [ws_json (FromCache (VAnalysis result))]).
Proof.
  intros cache_key r1 Hta Htrim HT. subst r1.
  unfold process_detailed_analysis.
  destruct (ReadabilityService.get_readability svc T) as [rd svc1] eqn:G.
  rewrite Hta. cbn [fst].
  eexists. split.
  { unfold set_in_cache, redis_set. cbn [kv]. apply lookup_insert_eq. }
  split; [reflexivity|]. split; [reflexivity|]. split.
  - intros uc env svc' Hget.
    apply (HandlerFacts.analyze_text_hit cfg _ env _ svc' cache_key).
    + cbn [text]. rewrite Htrim. exact HT.
    + cbn [text include_word_analysis include_sentence_analysis].
      rewrite Htrim. reflexivity.
    + rewrite Hget. apply HandlerFacts.get_after_set.
  - intros cfg' ses m env svc' Hm Hw Hs Hne Hd Hc Hget.
    apply shared_cache_hit.
    + rewrite Hm. exact HT.
    + rewrite Hm. exact Hne.
    + exact Hd.
    + rewrite Hm, Hw, Hs. exact Hc.
    + rewrite Hm, Hw, Hs, Hget. apply HandlerFacts.get_after_set.
Qed.

End WithCollaborators.

End SharedCacheFacts.

Module StreamFacts.

Import Stream.

Lemma all_space_append (a b : string) :
  Py.all_space (a ++ b) = Py.all_space a && Py.all_space b.
Proof.
  induction a as [|c a IH]; [rewrite KeyFacts.append_nil; reflexivity|].
  rewrite KeyFacts.append_cons. cbn [Py.all_space]. rewrite IH.
  rewrite andb_assoc. reflexivity.
Qed.

Lemma blank_all_space (s : string) :
  negb (Py.truthy s) || Py.isspace s = true <-> Py.all_space s = true.
Proof.
  destruct s as [|c s]; [cbn; split; reflexivity|]. cbn [Py.truthy negb orb].
  unfold Py.isspace. split; auto.
Qed.

Lemma strip_truthy_prefix (p x : string) :
  Py.truthy (Py.strip p) = true -> Py.truthy (Py.strip (p ++ x)) = true.
Proof.
  intros Hp. destruct (Py.strip (p ++ x)) eqn:E; [|reflexivity].
  apply KeyFacts.strip_empty, blank_all_space in E.
  rewrite all_space_append in E. apply andb_prop in E as [E _].
  apply blank_all_space, KeyFacts.strip_blank in E. rewrite E in Hp.
  discriminate.
Qed.

Lemma join_space_truthy (l : list string) :
  l <> [] ->
  List.Forall (fun p => Py.truthy (Py.strip p) = true) l ->
  Py.truthy (Py.strip (join_space l)) = true.
Proof.
  intros Hne Hall. destruct l as [|p rest]; [contradiction|].
  inversion Hall as [|? ? Hp _]; subst.
  cbn [join_space]. destruct rest; [exact Hp|].
  apply strip_truthy_prefix. exact Hp.
Qed.

Lemma paragraphs_of_nonblank (text : string) :
  Py.truthy (Py.strip text) = true ->
  paragraphs_of text <> []
  /\ List.Forall (fun p => Py.truthy (Py.strip p) = true) (paragraphs_of text).
Proof.
  intros Ht. unfold paragraphs_of.
  set (pieces := split_paragraphs text []).
  assert (F : List.Forall (fun p => Py.truthy (Py.strip p) = true)
                (List.map Py.strip
                   (List.filter (fun p => Py.truthy (Py.strip p)) pieces))).
  { apply List.Forall_forall. intros p Hp.
    apply List.in_map_iff in Hp as (q & <- & Hq).
    apply List.filter_In in Hq as [_ Hq].
    rewrite StripFacts.strip_idempotent. exact Hq. }
  destruct (List.map Py.strip _) as [|p ps].
  - split; [discriminate|]. constructor; [exact Ht|constructor].
  - split; [discriminate|exact F].
Qed.

(** The start indices of the loop are the multiples of the chunk size
    below the number of paragraphs. *)
Lemma ceil_spec (n cs k : nat) :
  (1 <= cs)%nat ->
  (k * cs < n <-> k < (n + cs - 1) / cs)%nat.
Proof.
  intros Hcs.
  pose proof (Nat.div_mod_eq (n + cs - 1) cs) as D.
  pose proof (Nat.mod_upper_bound (n + cs - 1) cs ltac:(lia)) as U.
  set (q := ((n + cs - 1) / cs)%nat) in *.
  set (m := ((n + cs - 1) mod cs)%nat) in *.
  split; intros L; nia.
Qed.

Lemma range_from_multiples (n cs : nat) :
  (1 <= cs)%nat ->
  forall fuel k : nat,
    ((n + cs - 1) / cs - k <= fuel)%nat ->
    range_from fuel (k * cs) n cs
    = List.map (fun j => (j * cs)%nat)
        (List.seq k ((n + cs - 1) / cs - k)).
Proof.
  intros Hcs. induction fuel as [|fuel IH]; intros k Hf.
  - replace ((n + cs - 1) / cs - k)%nat with O by lia. reflexivity.
  - cbn [range_from].
    destruct (Nat.ltb_spec (k * cs) n) as [L|L].
    + apply (ceil_spec n cs k Hcs) in L.
      replace ((n + cs - 1) / cs - k)%nat
        with (S ((n + cs - 1) / cs - S k)) by lia.
      cbn [List.seq List.map]. f_equal.
      replace (k * cs + cs)%nat with (S k * cs)%nat by lia.
      apply IH. lia.
    + assert (~ (k < (n + cs - 1) / cs)%nat).
      { intros C. apply (ceil_spec n cs k Hcs) in C. lia. }
      replace ((n + cs - 1) / cs - k)%nat with O by lia. reflexivity.
Qed.

Lemma range_multiples (n cs : nat) :
  (1 <= cs)%nat ->
  range n cs
  = List.map (fun j => (j * cs)%nat) (List.seq 0 ((n + cs - 1) / cs)).
Proof.
  intros Hcs. unfold range.
  pose proof (range_from_multiples n cs Hcs n 0) as R.
  rewrite Nat.sub_0_r in R. cbn [Nat.mul] in R. apply R.
  destruct n as [|n].
  - rewrite Nat.div_small by lia. lia.
  - apply Nat.Div0.div_le_upper_bound. nia.
Qed.

Local Open Scope Q_scope.

Lemma progress_at_range (i cs n : nat) :
  (0 <= progress_at i cs n <= 100)%Z.
Proof.
  unfold progress_at. split; [|apply Z.le_min_l].
  apply Z.min_glb; [lia|].
  apply Z.le_trans with (Qfloor (inject_Z 0)); [rewrite Qfloor_Z; lia|].
  apply Qfloor_resp_le.
  change (inject_Z 0) with 0.
  apply Qmult_le_0_compat; [|discriminate].
  unfold Qdiv. apply Qmult_le_0_compat.
  - change 0 with (inject_Z 0). rewrite <- Zle_Qle. lia.
  - apply Qinv_le_0_compat. change 0 with (inject_Z 0).
    rewrite <- Zle_Qle. lia.
Qed.

Lemma progress_at_monotone (i j cs n : nat) :
  (i <= j)%nat -> (progress_at i cs n <= progress_at j cs n)%Z.
Proof.
  intros L. unfold progress_at. apply Z.min_le_compat_l.
  apply Qfloor_resp_le.
  apply Qmult_le_compat_r; [|discriminate].
  unfold Qdiv. apply Qmult_le_compat_r.
  - rewrite <- Zle_Qle. lia.
  - apply Qinv_le_0_compat. change 0 with (inject_Z 0).
    rewrite <- Zle_Qle. lia.
Qed.

Lemma progress_at_end (i cs n : nat) :
  (1 <= n)%nat -> (n <= i + cs)%nat -> progress_at i cs n = 100%Z.
Proof.
  intros Hn L. unfold progress_at. apply Z.min_l.
  apply Z.le_trans with (Qfloor (inject_Z 100)); [rewrite Qfloor_Z; lia|].
  apply Qfloor_resp_le.
  assert (P : 0 < inject_Z (Z.of_nat n)).
  { change 0 with (inject_Z 0). rewrite <- Zlt_Qlt. lia. }
  assert (R : 1 <= inject_Z (Z.of_nat (i + cs)) / inject_Z (Z.of_nat n)).
  { apply Qle_shift_div_l; [exact P|]. rewrite Qmult_1_l.
    rewrite <- Zle_Qle. lia. }
  change (inject_Z 100) with 100.
  set (q := inject_Z (Z.of_nat (i + cs)) / inject_Z (Z.of_nat n)) in *.
  lra.
Qed.

Section WithCollaborators.
Context `{Collaborators}.

(** The headers of the events of the chunks [k], [k + 1], ... *)
Lemma stream_loop_headers (request : Main.TextRequest)
    (paragraphs : list string) (cs total : nat) :
  (1 <= cs)%nat ->
  List.Forall (fun p => Py.truthy (Py.strip p) = true) paragraphs ->
  forall (count k : nat) (total_text : string) (svc : ReadabilityService.t),
    ((k + count - 1) * cs < List.length paragraphs \/ count = 0)%nat ->
    List.map header_of
      (fst (stream_loop request paragraphs cs total
              (List.map (fun j => (j * cs)%nat) (List.seq k count))
              total_text svc))
    = List.map
        (fun j =>
           Some (mk_header (j + 1) total
                   (progress_at (j * cs) cs (List.length paragraphs))
                   (List.length paragraphs <=? j * cs + cs)%nat))
        (List.seq k count).
Proof.
  intros Hcs Hall. induction count as [|count IH];
    intros k total_text svc Hk; [reflexivity|].
  cbn [List.seq List.map stream_loop].
  assert (Hi : (k * cs < List.length paragraphs)%nat) by nia.
  assert (Hchunk : Py.truthy
                     (Py.strip
                        (join_space
                           (List.firstn cs (List.skipn (k * cs) paragraphs))))
                   = true).
  { apply join_space_truthy.
    - intros E. apply (f_equal (@List.length string)) in E.
      rewrite List.length_firstn, List.length_skipn in E. cbn in E. lia.
    - apply List.Forall_forall. intros p Hp.
      rewrite List.Forall_forall in Hall. apply Hall.
      rewrite <- (List.firstn_skipn (k * cs) paragraphs).
      apply in_or_app. right.
      rewrite <- (List.firstn_skipn cs (List.skipn (k * cs) paragraphs)).
      apply in_or_app. left. exact Hp. }
  rewrite Hchunk. cbn [negb].
  destruct (ReadabilityService.get_readability svc _) as [rd svc1].
  match goal with
  | |- context [stream_loop ?a ?b ?c ?d ?e ?f ?g] =>
      specialize (IH (S k) f g);
      destruct (stream_loop a b c d e f g) as [events svc2]
  end.
  cbn [fst List.map] in IH |- *.
  rewrite IH by (destruct count; [right; reflexivity|left; nia]).
  f_equal.
  rewrite Nat.div_mul by lia.
  repeat match goal with
         | |- context [if ?b then _ else _] => destruct b
         | |- context [match ?x with Some _ => _ | None => _ end] => destruct x
         end; reflexivity.
Qed.

End WithCollaborators.

End StreamFacts.

Module StreamTheorems.

Import Stream.

Section WithCollaborators.
Context `{Collaborators}.

(** X26.  POST /analyze/stream on a text that is not blank sends one
    event per chunk and then the closing event: the events carry the
    chunk numbers 1, 2, ... up to the announced number of chunks, which
    is between 1 and the number of paragraphs; the chunk size is between
    1 and 5; progress never decreases, stays between 0 and 100, and is
    100 on the last chunk, which alone is marked final. *)
Theorem stream_reports_every_chunk_in_order (request : Main.TextRequest)
    (svc : ReadabilityService.t) :
  let n := List.length (paragraphs_of (Py.strip (Main.text request))) in
  let cs := Nat.min 5 (Nat.max 1 (n / 10)) in
  let total := ((n + cs - 1) / cs)%nat in
  Py.truthy (Py.strip (Main.text request)) = true ->
  (exists events : list sse_event,
      fst (stream_analysis request svc)
      = Streamed (events ++ [processing_completed])%list
      /\ List.map header_of events
         = List.map
             (fun j =>
                Some (mk_header (j + 1) total (progress_at (j * cs) cs n)
                        (j + 1 =? total)%nat))
             (List.seq 0 total))
  /\ (1 <= cs <= 5)%nat /\ (1 <= total <= n)%nat
  /\ (forall j k : nat,
         (j <= k)%nat ->
         0 <= progress_at (j * cs) cs n <= progress_at (k * cs) cs n
         /\ progress_at (k * cs) cs n <= 100)
  /\ progress_at ((total - 1) * cs) cs n = 100.
Proof.
  intros n cs total Ht.
  destruct (StreamFacts.paragraphs_of_nonblank
              (Py.strip (Main.text request))) as [Hne Hall].
  { rewrite StripFacts.strip_idempotent. exact Ht. }
  assert (Hn : (1 <= n)%nat).
  { subst n.
    destruct (paragraphs_of (Py.strip (Main.text request))) eqn:E;
      [congruence|cbn; lia]. }
  assert (Hcs : (1 <= cs <= 5)%nat) by (subst cs; lia).
  assert (Hcsn : (cs <= n)%nat).
  { subst cs.
    pose proof (Nat.Div0.div_le_upper_bound n 10 n ltac:(lia)). lia. }
  assert (Htotal : (1 <= total <= n)%nat).
  { subst total. split.
    - apply Nat.div_le_lower_bound; lia.
    - apply Nat.Div0.div_le_upper_bound. nia. }
  assert (Hlast : forall j : nat,
             (j < total)%nat ->
             (n <=? j * cs + cs)%nat = (j + 1 =? total)%nat).
  { intros j Hj.
    pose proof (StreamFacts.ceil_spec n cs (j + 1) ltac:(lia)) as C.
    fold total in C.
    destruct (Nat.leb_spec n (j * cs + cs)), (Nat.eqb_spec (j + 1) total);
      try reflexivity; exfalso; nia. }
  split; [|split; [exact Hcs|split; [exact Htotal|split]]].
  - unfold stream_analysis. rewrite Ht. cbn [negb]. fold n. fold cs. fold total.
    rewrite (StreamFacts.range_multiples n cs ltac:(lia)). fold total.
    pose proof (StreamFacts.stream_loop_headers request
                  (paragraphs_of (Py.strip (Main.text request))) cs total
                  ltac:(lia) Hall total 0 "" svc) as Hh.
    fold n in Hh.
    destruct (stream_loop _ _ _ _ _ _ _) as [events svc1].
    exists events. split; [reflexivity|].
    cbn [fst] in Hh. rewrite Hh.
    + apply List.map_ext_in. intros j Hj. apply List.in_seq in Hj.
      rewrite Hlast by lia. reflexivity.
    + left. pose proof (StreamFacts.ceil_spec n cs (total - 1) ltac:(lia)) as C.
      fold total in C. replace (0 + total - 1)%nat with (total - 1)%nat by lia.
      apply C. lia.
  - intros j k Hjk.
    pose proof (StreamFacts.progress_at_range (j * cs) cs n).
    pose proof (StreamFacts.progress_at_range (k * cs) cs n).
    pose proof (StreamFacts.progress_at_monotone (j * cs) (k * cs) cs n
                  ltac:(nia)).
    lia.
  - apply StreamFacts.progress_at_end; [exact Hn|].
    pose proof (StreamFacts.ceil_spec n cs total ltac:(lia)) as C.
    fold total in C.
    destruct (Nat.le_gt_cases n ((total - 1) * cs + cs)) as [L|G]; [exact L|].
    exfalso. assert (Lt : (total * cs < n)%nat) by nia. apply C in Lt. lia.
Qed.

Lemma stream_loop_request (t t' : string) (w s : option bool)
    (uc : option (gmap string string)) (paragraphs : list string)
    (cs total : nat) (starts : list nat) :
  forall (total_text : string) (svc : ReadabilityService.t),
    stream_loop (Main.mk_text_request t w s uc) paragraphs cs total starts
      total_text svc
    = stream_loop (Main.mk_text_request t' w s uc) paragraphs cs total starts
        total_text svc.
Proof.
  induction starts as [|i rest IH]; intros total_text svc; [reflexivity|].
  cbn [stream_loop Main.include_word_analysis Main.include_sentence_analysis
       Main.user_context].
  destruct (negb _); [apply IH|].
  destruct (ReadabilityService.get_readability svc _) as [rd svc1].
  rewrite IH. reflexivity.
Qed.

(** X18.  The three entry points work on the trimmed text only: POST
    /analyze, POST /analyze/stream and the WebSocket loop treat a text
    and the same text with white space around it alike, in what they
    answer, store, schedule and keep. *)
Theorem padding_does_not_change_the_answer (cfg : Main.config) (t : string)
    (w s : option bool) (uc : option (gmap string string))
    (env : Main.analyze_env) (r : Main.redis) (svc : ReadabilityService.t)
    (ses : Main.session) (mw ms : bool) (wenv : Main.ws_env) :
  Main.analyze_text cfg (Main.mk_text_request (Py.strip t) w s uc) env r svc
  = Main.analyze_text cfg (Main.mk_text_request t w s uc) env r svc
  /\ stream_analysis (Main.mk_text_request (Py.strip t) w s uc) svc
     = stream_analysis (Main.mk_text_request t w s uc) svc
  /\ Main.websocket_message cfg ses (Main.mk_message (Py.strip t) mw ms uc)
       wenv r svc
     = Main.websocket_message cfg ses (Main.mk_message t mw ms uc) wenv r svc.
Proof.
  split; [apply HandlerFacts.analyze_text_padding|]. split.
  - unfold stream_analysis. cbn [Main.text].
    rewrite StripFacts.strip_idempotent.
    destruct (negb _); [reflexivity|].
    rewrite (stream_loop_request (Py.strip t) t). reflexivity.
  - unfold Main.websocket_message, Main.process_normally.
    cbn [Main.msg_text Main.msg_include_word_analysis
         Main.msg_include_sentence_analysis Main.msg_user_context].
    rewrite StripFacts.strip_idempotent. reflexivity.
Qed.

(** X27.  An empty or blank text is refused by the three entry points
    in three ways and changes nothing: POST /analyze answers 500,
    because its own handler wraps the 400 it raised; POST
    /analyze/stream answers 400; the WebSocket loop sends an error
    reply. *)
Theorem blank_text_is_refused_in_three_ways (cfg : Main.config)
    (request : Main.TextRequest) (env : Main.analyze_env) (r : Main.redis)
    (svc : ReadabilityService.t) (s : Main.session) (m : Main.message)
    (wenv : Main.ws_env) :
  negb (Py.truthy (Main.text request)) || Py.isspace (Main.text request) = true ->
  Main.msg_text m = Main.text request ->
  (exists (detail : string) (cause : Main.exn),
      Main.analyze_text cfg request env r svc
      = (Main.ErrorWrapped 500 detail cause, r, svc, [])
      /\ cause = Main.HTTPError 400 "No text provided"
      /\ Main.status_code_of (Main.ErrorWrapped 500 detail cause) = 500)
  /\ stream_analysis request svc = (Rejected 400 "No text provided", svc)
  /\ Main.websocket_message cfg s m wenv r svc
     = ([Main.ws_error "No text provided"], s, r, svc, []).
Proof.
  intros Hb Hm. apply KeyFacts.strip_blank in Hb.
  split; [|split].
  - unfold Main.analyze_text. rewrite Hb. cbn.
    do 2 eexists. repeat split; reflexivity.
  - unfold stream_analysis. rewrite Hb. reflexivity.
  - unfold Main.websocket_message. rewrite Hm, Hb. reflexivity.
Qed.

End WithCollaborators.

End StreamTheorems.

Module Witnesses.

Import Main.

Local Open Scope Q_scope.

Lemma short_text_is_confused_with_padding_only_witness :
  fst (ReadabilityService.get_readability
         (snd (ReadabilityService.get_readability ReadabilityService.init
                 Samples.text_long_word))
         Samples.S1_text)
  = Spec.own_analysis Samples.S1_text.
Proof.
  apply (proj2 (CacheFacts.short_text_is_confused_with_padding_only
                  (snd (ReadabilityService.get_readability
                          ReadabilityService.init Samples.text_long_word))
                  Samples.S1_text
                  (Spec.served_get _ _ Spec.served_init)
                  ltac:(cbn; lia) eq_refl)).
  reflexivity.
Defined.

Lemma harder_score_never_easier_band_witness :
  exists i j : Z,
    ReadabilityService.index
      (LixMetric.category
         (fst (LixMetric.classify LixMetric.init (1996 # 100))))
      ReadabilityService._CATEGORIES = Some i
    /\ ReadabilityService.index
         (LixMetric.category
            (fst (LixMetric.classify
                    (snd (LixMetric.classify LixMetric.init (1996 # 100)))
                    20)))
         ReadabilityService._CATEGORIES = Some j
    /\ (i <= j)%Z.
Proof.
  apply (proj1 (BandFacts.harder_score_never_easier_band
                  LixMetric.init
                  (snd (LixMetric.classify LixMetric.init (1996 # 100)))
                  (1996 # 100) 20
                  ltac:(vm_compute; discriminate)
                  Reach.lix_reachable_init)).
  apply Reach.lix_later_now.
Defined.

Lemma recommendations_never_empty_nor_repeated_witness :
  ReadabilityRecommender.generate Samples.all_zero false
  = [ReadabilityRecommender.positive_feedback 0].
Proof.
  apply (proj2 (proj2 (proj2
           (AdviceFacts.recommendations_never_empty_nor_repeated
              Samples.all_zero false)))).
  vm_compute. left. reflexivity.
Defined.

Lemma cache_key_separates_options_witness :
  @md5_hexdigest Samples.stand_in "abc" = @md5_hexdigest Samples.stand_in "xyz"
  /\ false = false /\ true = true.
Proof.
  apply (@HandlerFacts.cache_key_separates_options Samples.stand_in
           "abc" "xyz" false true false true); reflexivity.
Defined.

Lemma ttl_shrinks_with_length_witness :
  (get_cache_ttl default_config Samples.text_long_word
   <= get_cache_ttl default_config Samples.S1_text)%Z
  /\ (REDIS_CACHE_TTL_LARGE default_config
      <= get_cache_ttl default_config Samples.S1_text
      <= REDIS_CACHE_TTL_SMALL default_config)%Z.
Proof.
  apply (HandlerFacts.ttl_shrinks_with_length
           default_config Samples.S1_text Samples.text_long_word).
  - cbn. lia.
  - cbn. lia.
  - vm_compute. lia.
Defined.

Lemma analysis_is_served_from_the_cache_afterwards_witness :
  @analyze_text Samples.stand_in default_config Cases.S1_request
    Samples.analyze_env_ok Cases.S1_store ReadabilityService.init
  = (CachedAnalysis (VAnalysis Cases.S1_result), Cases.S1_store,
     ReadabilityService.init, []).
Proof.
  apply (@HandlerFacts.analysis_is_served_from_the_cache_afterwards
           Samples.stand_in default_config Cases.S1_request
           Samples.analyze_env_ok Samples.empty_store Cases.S1_store
           ReadabilityService.init
           (snd (ReadabilityService.get_readability ReadabilityService.init
                   Samples.S1_text))
           Cases.S1_result []).
  - apply (@HandlerFacts.analyze_text_miss Samples.stand_in default_config
             Cases.S1_request Samples.analyze_env_ok Samples.empty_store
             ReadabilityService.init
             (snd (ReadabilityService.get_readability ReadabilityService.init
                     Samples.S1_text))
             (@cache_key_of Samples.stand_in Samples.S1_text false true)
             Cases.S1_result).
    + reflexivity.
    + reflexivity.
    + unfold get_from_cache.
      cbn [get_ok Samples.analyze_env_ok kv Samples.empty_store].
      rewrite lookup_empty. reflexivity.
    + reflexivity.
    + vm_compute. reflexivity.
  - reflexivity.
  - reflexivity.
Defined.

Lemma background_task_round_trip_witness :
  exists cache_key : string,
    [process_text_analysis_background Cases.S1_task_id Samples.S1_text
       (Some false) (Some true)
       (@cache_key_of Samples.stand_in Samples.S1_text false true) None]
    = [process_text_analysis_background Cases.S1_task_id Samples.S1_text
         (Some false) (Some true) cache_key None].
Proof.
  destruct (@TaskFacts.background_task_round_trip Samples.stand_in
              Cases.eager_config Cases.S1_request Samples.analyze_env_ok
              Samples.empty_store Cases.S1_accepted_store
              ReadabilityService.init ReadabilityService.init
              Cases.S1_task_id "processing"
              ("/task/" ++ Cases.S1_task_id) 5
              [process_text_analysis_background Cases.S1_task_id
                 Samples.S1_text (Some false) (Some true)
                 (@cache_key_of Samples.stand_in Samples.S1_text false true)
                 None])
    as (cache_key & E & _).
  - apply (@HandlerFacts.analyze_text_accepts Samples.stand_in
             Cases.eager_config Cases.S1_request Samples.analyze_env_ok
             Samples.empty_store ReadabilityService.init
             (@cache_key_of Samples.stand_in Samples.S1_text false true)).
    + reflexivity.
    + reflexivity.
    + unfold get_from_cache.
      cbn [get_ok Samples.analyze_env_ok kv Samples.empty_store].
      rewrite lookup_empty. reflexivity.
    + reflexivity.
  - exists cache_key. exact E.
Defined.

Lemma debounce_window_stays_in_range_witness :
  1 # 10 <= debounce_time Samples.session_after_first
  /\ debounce_time Samples.session_after_first <= 96 # 100.
Proof.
  apply (@SessionFacts.debounce_window_stays_in_range Samples.stand_in
           Samples.session_after_first).
  apply (@MainSpec.ws_received Samples.stand_in default_config
           (@open_session Samples.stand_in 0) Samples.first_message
           (Samples.ws_env_at 1) Samples.empty_store
           ReadabilityService.init).
  apply MainSpec.ws_opened.
Defined.

Lemma connection_cache_answers_for_a_different_text_witness :
  exists res : @analysis_record Samples.stand_in,
    Wire.replies
      (@websocket_message Samples.stand_in default_config
         (MainSpec.session_after Cases.first_long_word)
         Cases.short_words_message (Samples.ws_env_at 3)
         Samples.empty_store ReadabilityService.init)
    = [ws_json (Built res)]
    /\ readability res = Spec.own_analysis Samples.text_long_word.
Proof.
  destruct (@SessionCacheFacts.connection_cache_answers_for_a_different_text
              Samples.stand_in default_config default_config
              (@open_session Samples.stand_in 0)
              Cases.long_word_message Cases.short_words_message
              (Samples.ws_env_at 1) (Samples.ws_env_at 3)
              Samples.empty_store Samples.empty_store
              ReadabilityService.init ReadabilityService.init
              Cases.long_word_result)
    as ((res & E1 & E2 & _) & _).
  - vm_compute. reflexivity.
  - reflexivity.
  - vm_compute. discriminate.
  - vm_compute. reflexivity.
  - vm_compute. reflexivity.
  - reflexivity.
  - reflexivity.
  - vm_compute. discriminate.
  - exists res. split; [exact E1|]. rewrite E2. reflexivity.
Defined.

Lemma pause_reuses_the_readability_bound_before_witness :
  Wire.service_after
    (@websocket_message Samples.stand_in default_config
       Samples.session_after_first Cases.long_word_message
       (Samples.ws_env_at 3) Samples.empty_store ReadabilityService.init)
  = ReadabilityService.init
  /\ (Wire.replies
        (@websocket_message Samples.stand_in default_config
           Samples.session_after_first Cases.long_word_message
           (Samples.ws_env_at 3) Samples.empty_store ReadabilityService.init)
      = [ws_error "Error processing text: "]
      \/ exists res : @analysis_record Samples.stand_in,
           Wire.replies
             (@websocket_message Samples.stand_in default_config
                Samples.session_after_first Cases.long_word_message
                (Samples.ws_env_at 3) Samples.empty_store
                ReadabilityService.init)
           = [ws_json (Built res)]
           /\ readability res = Spec.own_analysis Samples.S1_text
           /\ partial res = Some false).
Proof.
  apply (@SessionCacheFacts.pause_reuses_the_readability_bound_before
           Samples.stand_in default_config Samples.session_after_first
           Cases.long_word_message (Samples.ws_env_at 3) Samples.empty_store
           ReadabilityService.init (Spec.own_analysis Samples.S1_text)).
  - vm_compute. reflexivity.
  - vm_compute. reflexivity.
  - vm_compute. discriminate.
  - vm_compute. discriminate.
  - vm_compute. discriminate.
  - vm_compute. discriminate.
  - vm_compute. reflexivity.
  - unfold get_from_cache.
    cbn [ws_get_ok Samples.ws_env_at kv Samples.empty_store].
    rewrite lookup_empty. reflexivity.
Defined.

Lemma detailed_analysis_is_served_by_both_endpoints_witness :
  exists result : @analysis_record Samples.stand_in,
    kv (fst (@Polling.process_detailed_analysis Samples.stand_in
               default_config Samples.S1_text false true
               (@cache_key_of Samples.stand_in Samples.S1_text false true)
               true Samples.empty_store ReadabilityService.init))
      !! @cache_key_of Samples.stand_in Samples.S1_text false true
    = Some (VAnalysis result, get_cache_ttl default_config Samples.S1_text)
    /\ partial result = Some false.
Proof.
  destruct (@SharedCacheFacts.detailed_analysis_is_served_by_both_endpoints
              Samples.stand_in default_config Samples.S1_text false true
              Samples.empty_store ReadabilityService.init
              Cases.S1_statistics)
    as (result & E1 & _ & E2 & _).
  - reflexivity.
  - vm_compute. reflexivity.
  - reflexivity.
  - exists result. split; [exact E1|exact E2].
Defined.

Lemma stream_reports_every_chunk_in_order_witness :
  exists events : list (@Stream.sse_event Samples.stand_in),
    fst (@Stream.stream_analysis Samples.stand_in Cases.S1_request
           ReadabilityService.init)
    = Stream.Streamed (events ++ [Stream.processing_completed])%list.
Proof.
  destruct (@StreamTheorems.stream_reports_every_chunk_in_order
              Samples.stand_in Cases.S1_request ReadabilityService.init)
    as ((events & E & _) & _).
  - vm_compute. reflexivity.
  - exists events. exact E.
Defined.

Lemma blank_text_is_refused_in_three_ways_witness :
  @Stream.stream_analysis Samples.stand_in Cases.blank_request
    ReadabilityService.init
  = (Stream.Rejected 400 "No text provided", ReadabilityService.init)
  /\ @websocket_message Samples.stand_in default_config
       Samples.session_after_first Cases.blank_message (Samples.ws_env_at 3)
       Samples.empty_store ReadabilityService.init
     = ([ws_error "No text provided"], Samples.session_after_first,
        Samples.empty_store, ReadabilityService.init, []).
Proof.
  apply (proj2 (@StreamTheorems.blank_text_is_refused_in_three_ways
                  Samples.stand_in default_config Cases.blank_request
                  Samples.analyze_env_ok Samples.empty_store
                  ReadabilityService.init Samples.session_after_first
                  Cases.blank_message (Samples.ws_env_at 3)
                  eq_refl eq_refl)).
Defined.

End Witnesses.
